(** * Mismatch report: the rule-matching and price-derivation engine

    A shallow embedding of [conditions_checking.py]: the Applies-If condition
    parser and evaluator, the cost matcher, the weight-tier selection, the
    rate-lane extraction and the per-row reconciliation of
    [check_conditions_and_add_reason], followed by the properties the
    specification states about them.

    Conventions of the embedding.
    - A Python [str] is a list of characters ([str := list ascii]); the model
      covers ASCII text, where [str.lower], [str.strip], [str.isspace] and the
      classes [\s], [\d] and [.] of the [re] module have the meaning written
      out below.
    - A Python [float] is a binary64 primitive float, so comparisons and the
      product [price * multiplier] are those of IEEE 754, NaN included.
    - A cell of a pandas DataFrame is a [pyval]: [None], a float (NaN for a
      missing cell), an integer or a string.
    - A [dict] and a DataFrame row are association lists in insertion order.
    - [print] calls and the [debug] flags have no effect on results and are
      left out.
    - An exception the source does not catch ends the call.  The functions
      whose callers are modelled with it return a [py_result]; for the
      others the inputs on which a conversion raises [OverflowError] are
      named by a predicate ([Py.float_overflows], [Accessorial.overflows])
      and are excluded where a property depends on them. *)

From Stdlib Require Import String Ascii ZArith Floats Bool Lia Arith List.
From Stdlib Require Import Numbers.DecimalString.
Import ListNotations.

Set Implicit Arguments.
Open Scope bool_scope.
Open Scope list_scope.

(* ================================================================== *)
(** * Python strings *)
(* ================================================================== *)

Definition str := list ascii.

(** A string literal of the source. *)
Definition lit (s : string) : str := list_ascii_of_string s.

Module PyStr.

Definition code (c : ascii) : nat := nat_of_ascii c.

(** [str.isspace] on one ASCII character: TAB, LF, VT, FF, CR, the four
    separators FS, GS, RS, US and the space. *)
Definition is_space (c : ascii) : bool :=
  let n := code c in
  ((9 <=? n) && (n <=? 13)) || ((28 <=? n) && (n <=? 31)) || (n =? 32).

Definition is_digit (c : ascii) : bool :=
  let n := code c in (48 <=? n) && (n <=? 57).

Definition is_upper (c : ascii) : bool :=
  let n := code c in (65 <=? n) && (n <=? 90).

Definition lower_char (c : ascii) : ascii :=
  if is_upper c then ascii_of_nat (code c + 32) else c.

Definition is_lower (c : ascii) : bool :=
  let n := code c in (97 <=? n) && (n <=? 122).

Definition upper_char (c : ascii) : ascii :=
  if is_lower c then ascii_of_nat (code c - 32) else c.

(** [s.lower()] and [s.upper()] *)
Definition lower (s : str) : str := map lower_char s.
Definition upper (s : str) : str := map upper_char s.

Fixpoint lstrip (s : str) : str :=
  match s with
  | c :: s' => if is_space c then lstrip s' else s
  | [] => []
  end.

Definition rstrip (s : str) : str := rev (lstrip (rev s)).

(** [s.strip()] *)
Definition strip (s : str) : str := rstrip (lstrip s).

(** [a == b] *)
Fixpoint eqb (a b : str) : bool :=
  match a, b with
  | [], [] => true
  | x :: a', y :: b' => Ascii.eqb x y && eqb a' b'
  | _, _ => false
  end.

(** [s.startswith(p)] *)
Fixpoint startswith (s p : str) : bool :=
  match p, s with
  | [], _ => true
  | x :: p', y :: s' => Ascii.eqb x y && startswith s' p'
  | _ :: _, [] => false
  end.

(** [s.endswith(p)] *)
Definition endswith (s p : str) : bool := startswith (rev s) (rev p).

(** [needle in hay] *)
Fixpoint isin (needle hay : str) : bool :=
  startswith hay needle
  || match hay with
     | [] => false
     | _ :: hay' => isin needle hay'
     end.

(** [s.replace(a, b)] for a one-character [a] *)
Definition replace_char (a : ascii) (b : str) (s : str) : str :=
  flat_map (fun c => if Ascii.eqb c a then b else [c]) s.

(** [s.replace(old, new)] for a non-empty [old]; [skip] counts the
    characters of the current occurrence still to be dropped. *)
Fixpoint replace_go (old new s : str) (skip : nat) : str :=
  match s with
  | [] => []
  | c :: s' =>
      match skip with
      | S k => replace_go old new s' k
      | O =>
          if startswith s old
          then new ++ replace_go old new s' (length old - 1)
          else c :: replace_go old new s' 0
      end
  end.
Definition replace (old new s : str) : str := replace_go old new s 0.

(** [s.split(sep)] for a one-character separator *)
Fixpoint split_char (sep : ascii) (s : str) : list str :=
  match s with
  | [] => [[]]
  | c :: s' =>
      if Ascii.eqb c sep then [] :: split_char sep s'
      else match split_char sep s' with
           | p :: ps => (c :: p) :: ps
           | [] => [[c]]
           end
  end.

(** [sep.join(parts)] *)
Fixpoint join (sep : str) (parts : list str) : str :=
  match parts with
  | [] => []
  | [p] => p
  | p :: ps => p ++ sep ++ join sep ps
  end.

(** [str(n)] for an integer *)
Definition of_Z (z : Z) : str := lit (NilZero.string_of_int (Z.to_int z)).

Definition of_nat (n : nat) : str := of_Z (Z.of_nat n).

End PyStr.

(* ================================================================== *)
(** * The fragment of Python's [re] module the source uses *)
(* ================================================================== *)

(** Python's [re] is a backtracking matcher.  [run] returns every way a
    pattern can match a prefix of the input, in the order in which the
    backtracking search finds them, each with the groups it captured and the
    input left over; the first element is the match Python reports.
    Quantifiers occur in the source only on character classes. *)
Module Re.

Inductive regex : Type :=
| Eps
| Chr (c : ascii)                               (* a literal character *)
| Cls (p : ascii -> bool)                       (* a character class *)
| Rep (greedy : bool) (lo : nat) (p : ascii -> bool)
                                                 (* [p*], [p+], [p+?] *)
| Seq (r1 r2 : regex)
| Opt (r : regex)                               (* greedy [r?] *)
| Grp (n : nat) (r : regex)                     (* capturing group [n] *)
| Eol.                                          (* [$] *)

Definition caps := list (nat * str).

(** [\s], [\d], [.] *)
Definition ws : ascii -> bool := PyStr.is_space.
Definition digit : ascii -> bool := PyStr.is_digit.
Definition newline : ascii := ascii_of_nat 10.
Definition dot (c : ascii) : bool := negb (Ascii.eqb c newline).
Definition non (x : ascii) (c : ascii) : bool := negb (Ascii.eqb c x).

(** The literal text [s] *)
Fixpoint chars (s : str) : regex :=
  match s with
  | [] => Eps
  | [c] => Chr c
  | c :: s' => Seq (Chr c) (chars s')
  end.
Definition text (s : string) : regex := chars (lit s).

(** The inputs left after consuming 0, 1, 2, ... characters of class [p] *)
Fixpoint tails (p : ascii -> bool) (s : str) : list str :=
  s :: match s with
       | c :: s' => if p c then tails p s' else []
       | [] => []
       end.

Definition chr_eq (ic : bool) (c x : ascii) : bool :=
  if ic then Ascii.eqb (PyStr.lower_char c) (PyStr.lower_char x)
  else Ascii.eqb c x.

(** [ic] is the flag [re.IGNORECASE]. *)
Fixpoint run (ic : bool) (r : regex) (s : str) : list (caps * str) :=
  match r with
  | Eps => [([], s)]
  | Chr c =>
      match s with
      | x :: s' => if chr_eq ic c x then [([], s')] else []
      | [] => []
      end
  | Cls p =>
      match s with
      | x :: s' => if p x then [([], s')] else []
      | [] => []
      end
  | Rep greedy lo p =>
      let ts := skipn lo (tails p s) in
      map (fun t => ([], t)) (if greedy then rev ts else ts)
  | Seq r1 r2 =>
      flat_map (fun m1 =>
                  map (fun m2 => (fst m1 ++ fst m2, snd m2))
                      (run ic r2 (snd m1)))
               (run ic r1 s)
  | Opt r' => run ic r' s ++ [([], s)]
  | Grp n r' =>
      map (fun m => ((n, firstn (length s - length (snd m)) s) :: fst m,
                     snd m))
          (run ic r' s)
  | Eol =>
      match s with
      | [] => [([], s)]
      | [c] => if Ascii.eqb c newline then [([], s)] else []
      | _ => []
      end
  end.

(** [m.group(n)] *)
Fixpoint group (n : nat) (c : caps) : str :=
  match c with
  | [] => []
  | (k, v) :: c' => if Nat.eqb k n then v else group n c'
  end.

(** [re.match(r, s)]: the groups of the first match at the start of [s] *)
Definition rmatch (ic : bool) (r : regex) (s : str) : option caps :=
  match run ic r s with
  | m :: _ => Some (fst m)
  | [] => None
  end.

(** [re.search(r, s)]: the first match at the leftmost position that has
    one *)
Fixpoint search (ic : bool) (r : regex) (s : str) : option caps :=
  match rmatch ic r s with
  | Some c => Some c
  | None => match s with
            | [] => None
            | _ :: s' => search ic r s'
            end
  end.

(** Number of characters the first match at the start of [s] consumes *)
Definition match_len (ic : bool) (r : regex) (s : str) : option nat :=
  match run ic r s with
  | m :: _ => Some (length s - length (snd m))
  | [] => None
  end.

(** [re.sub(r, '', s)].  [skip] counts the characters of the current match
    still to be dropped.  None of the patterns of the source matches the
    empty string. *)
Fixpoint sub_go (ic : bool) (r : regex) (s : str) (skip : nat) : str :=
  match s with
  | [] => []
  | c :: s' =>
      match skip with
      | S k => sub_go ic r s' k
      | O =>
          match match_len ic r s with
          | Some (S k) => sub_go ic r s' k
          | _ => c :: sub_go ic r s' 0
          end
      end
  end.
Definition sub_empty (ic : bool) (r : regex) (s : str) : str :=
  sub_go ic r s 0.

(** [re.split(r, s)] for a pattern without groups; [cur] is the piece
    being read, reversed. *)
Fixpoint split_go (ic : bool) (r : regex) (s : str) (skip : nat)
         (cur : str) : list str :=
  match s with
  | [] => [rev cur]
  | c :: s' =>
      match skip with
      | S k => split_go ic r s' k cur
      | O =>
          match match_len ic r s with
          | Some (S k) => rev cur :: split_go ic r s' k []
          | _ => split_go ic r s' 0 (c :: cur)
          end
      end
  end.
Definition split (ic : bool) (r : regex) (s : str) : list str :=
  split_go ic r s 0 [].

(** [re.findall(r, s)] for a pattern with exactly one group *)
Fixpoint findall_go (ic : bool) (r : regex) (s : str) (skip : nat)
  : list str :=
  match s with
  | [] => []
  | _ :: s' =>
      match skip with
      | S k => findall_go ic r s' k
      | O =>
          match run ic r s with
          | m :: _ =>
              match length s - length (snd m) with
              | S k => group 1 (fst m) :: findall_go ic r s' k
              | O => findall_go ic r s' 0
              end
          | [] => findall_go ic r s' 0
          end
      end
  end.
Definition findall (ic : bool) (r : regex) (s : str) : list str :=
  findall_go ic r s 0.

End Re.

Declare Scope re_scope.
Delimit Scope re_scope with re.
Infix "+++" := Re.Seq (at level 61, right associativity) : re_scope.

Open Scope re_scope.

(* ================================================================== *)
(** * Python values *)
(* ================================================================== *)

(** A DataFrame cell, a dict value or a function argument of the source. *)
Inductive pyval : Type :=
| PNone
| PFloat (f : float)
| PInt (z : Z)
| PStr (s : str).

(** What the Python runtime, not the source, decides: how a float prints
    and which strings [float()] accepts. *)
Class PyRuntime : Type := {
(** [str(x)] and [f'{x}'] for a float *)
float_repr : float -> str;
(** [f'{x:.2f}'] *)
float_fmt2 : float -> str;
(** [float(s)] for a string; [None] when it raises [ValueError] *)
float_of_str : str -> option float;
(** [f'{values}'] for a list of strings *)
list_repr : list str -> str
}.

Module Py.

(** [float(n)] for an integer: the nearest binary64 *)
Definition float_of_Z (z : Z) : float :=
  SF2Prim (binary_normalize prec emax z 0 false).

(** [int(x)] for a float: truncation toward zero; [None] when Python
    raises ([OverflowError] on an infinity, [ValueError] on NaN). *)
Definition int_of_float (x : float) : option Z :=
  match Prim2SF x with
  | S754_zero _ => Some 0%Z
  | S754_finite sg m e =>
      let mag := (if (0 <=? e)%Z then Z.pos m * 2 ^ e
                  else Z.pos m / 2 ^ (- e))%Z in
      Some (if sg then (- mag)%Z else mag)
  | S754_infinity _ | S754_nan => None
  end.

Section WithRuntime.
Context {rt : PyRuntime}.

(** [str(v)] *)
Definition to_str (v : pyval) : str :=
  match v with
  | PNone => lit "None"
  | PFloat f => float_repr f
  | PInt z => PyStr.of_Z z
  | PStr s => s
  end.

(** [float(v)]; [None] when it raises [ValueError] or [TypeError].  The
    third exception of [float()] is [float_overflows] below: there the
    value given here is an infinity that Python never returns. *)
Definition to_float (v : pyval) : option float :=
  match v with
  | PNone => None
  | PFloat f => Some f
  | PInt z => Some (float_of_Z z)
  | PStr s => float_of_str s
  end.
End WithRuntime.

(** [float(v)] raises [OverflowError]: [v] is an integer whose nearest
    binary64 is an infinity ([int too large to convert to float]).  No
    [except] clause of the source catches this exception. *)
Definition float_overflows (v : pyval) : bool :=
  match v with
  | PInt z => PrimFloat.is_infinity (float_of_Z z)
  | _ => false
  end.

(** [pd.isna(v)] *)
Definition isna (v : pyval) : bool :=
  match v with
  | PNone => true
  | PFloat f => PrimFloat.is_nan f
  | _ => false
  end.
Definition notna (v : pyval) : bool := negb (isna v).

(** [isinstance(v, float) and pd.isna(v)] *)
Definition is_float_nan (v : pyval) : bool :=
  match v with
  | PFloat f => PrimFloat.is_nan f
  | _ => false
  end.

(** [v is None] *)
Definition is_none (v : pyval) : bool :=
  match v with PNone => true | _ => false end.

(** [bool(v)] *)
Definition truthy (v : pyval) : bool :=
  match v with
  | PNone => false
  | PFloat f => negb (PrimFloat.eqb f 0%float)
  | PInt z => negb (z =? 0)%Z
  | PStr s => match s with [] => false | _ => true end
  end.

(** Truth value of a string, a list or a dict *)
Definition nonempty {A} (l : list A) : bool :=
  match l with [] => false | _ => true end.

(** [d.get(k)] on a dict with string keys *)
Fixpoint dict_get {V} (k : str) (d : list (str * V)) : option V :=
  match d with
  | [] => None
  | (k', v) :: d' => if PyStr.eqb k' k then Some v else dict_get k d'
  end.

(** [d[k] = v] *)
Fixpoint dict_set {V} (k : str) (v : V) (d : list (str * V))
  : list (str * V) :=
  match d with
  | [] => [(k, v)]
  | (k', v') :: d' =>
      if PyStr.eqb k' k then (k', v) :: d' else (k', v') :: dict_set k v d'
  end.

End Py.

(** A DataFrame row ([row.to_dict()], [row.get]) *)
Definition row_data := list (str * pyval).

(** [row.get(col, default)] where [col] may be [None] (no such column found) *)
Definition row_get (row : row_data) (col : option str) (default : pyval)
  : pyval :=
  match col with
  | Some c => match Py.dict_get c row with Some v => v | None => default end
  | None => default
  end.

Record DataFrame : Type := {
  columns : list str;
  rows : list row_data
}.

(** [df.empty] *)
Definition df_empty (df : DataFrame) : bool :=
  negb (Py.nonempty (columns df)) || negb (Py.nonempty (rows df)).

(* ================================================================== *)
(** * Condition parser: [parse_applies_if_condition] *)
(* ================================================================== *)

Inductive condition_type : Type :=
| equals | does_not_equal | starts_with | contains | does_not_contain.

(** [(column_name, condition_type, expected_values)] *)
Definition condition : Type := str * condition_type * list str.

Module Parser.
Import Re.

Definition ws_plus := Rep true 1 ws.
Definition ws_star := Rep true 0 ws.
Definition lazy_any := Rep false 1 dot.     (* [.+?] *)
Definition greedy_any := Rep true 1 dot.    (* [.+] *)

(** [r'\d+\.\s*'] *)
Definition numbered_re : regex :=
  Rep true 1 digit +++ Chr "." +++ ws_star.

(** [r'\s+in all items\s*$'] *)
Definition in_all_items_re : regex :=
  ws_plus +++ text "in all items" +++ ws_star +++ Eol.

(** [r'\s+and\s+'] *)
Definition and_re : regex := ws_plus +++ text "and" +++ ws_plus.

(** [r'(.+?)\s+does\s+not\s+equal\s*(?:to\s+)?(.+)'] *)
Definition not_equal_re : regex :=
  Grp 1 lazy_any +++ ws_plus +++ text "does" +++ ws_plus +++ text "not"
  +++ ws_plus +++ text "equal" +++ ws_star
  +++ Opt (text "to" +++ ws_plus) +++ Grp 2 greedy_any.

(** [r'(.+?)\s+does\s+not\s+contain\s*(.+)'] *)
Definition not_contain_re : regex :=
  Grp 1 lazy_any +++ ws_plus +++ text "does" +++ ws_plus +++ text "not"
  +++ ws_plus +++ text "contain" +++ ws_star +++ Grp 2 greedy_any.

(** [r'(.+?)\s+equals?\s*(?:to\s+)?(.+)'] *)
Definition equals_re : regex :=
  Grp 1 lazy_any +++ ws_plus +++ text "equal" +++ Opt (Chr "s") +++ ws_star
  +++ Opt (text "to" +++ ws_plus) +++ Grp 2 greedy_any.

(** [r'(.+?)\s+starts?\s+with\s+(.+)'] *)
Definition starts_re : regex :=
  Grp 1 lazy_any +++ ws_plus +++ text "start" +++ Opt (Chr "s") +++ ws_plus
  +++ text "with" +++ ws_plus +++ Grp 2 greedy_any.

(** [r'(.+?)\s+contains?\s+(.+)'] *)
Definition contains_re : regex :=
  Grp 1 lazy_any +++ ws_plus +++ text "contain" +++ Opt (Chr "s")
  +++ ws_plus +++ Grp 2 greedy_any.

(** The pattern of [re.findall] for the expected values: a single quote,
    group 1 = the longest run of characters other than a single quote, a
    single quote. *)
Definition quoted_re : regex :=
  Chr "'" +++ Grp 1 (Rep true 0 (non "'")) +++ Chr "'".

(** The body shared by the five branches: strip the two groups, collect
    the quoted values, and append the condition only [if values]. *)
Definition condition_of_match (kind : condition_type) (m : caps)
  : option condition :=
  let column_name := PyStr.strip (group 1 m) in
  let values_str := PyStr.strip (group 2 m) in
  let values := findall false quoted_re values_str in
  if Py.nonempty values then Some (column_name, kind, values) else None.

(** One pass of the inner loop over [sub_parts]: [Some c] when the pass
    appends [c] to [conditions], [None] when it appends nothing. *)
Definition parse_sub_part (sub_part : str) : option condition :=
  let sub_part := PyStr.strip sub_part in
  if negb (Py.nonempty sub_part) then None else
  match rmatch true not_equal_re sub_part with
  | Some m => condition_of_match does_not_equal m
  | None =>
  match rmatch true not_contain_re sub_part with
  | Some m => condition_of_match does_not_contain m
  | None =>
  match rmatch true equals_re sub_part with
  | Some m => condition_of_match equals m
  | None =>
  match rmatch true starts_re sub_part with
  | Some m => condition_of_match starts_with m
  | None =>
  match rmatch true contains_re sub_part with
  | Some m => condition_of_match contains m
  | None => None
  end end end end end.

(** The sub-clauses of one numbered part *)
Definition sub_parts_of (part : str) : list str :=
  let part := PyStr.strip part in
  if negb (Py.nonempty part) then [] else
  let part := sub_empty true in_all_items_re part in
  split true and_re part.

(** One pass of the outer loop over [parts] *)
Definition parse_part (part : str) : list condition :=
  flat_map (fun sp => match parse_sub_part sp with
                      | Some c => [c]
                      | None => []
                      end)
           (sub_parts_of part).

Section WithRuntime.
Context {rt : PyRuntime}.

Definition parse_applies_if_condition (applies_if_text : pyval)
  : list condition :=
  if negb (Py.truthy applies_if_text) || Py.isna applies_if_text then []
  else
    let text := PyStr.strip (Py.to_str applies_if_text) in
    let low := PyStr.lower text in
    if negb (Py.nonempty text) || PyStr.isin (lit "no condition") low
    then []
    else if PyStr.isin (lit "applies if invoiced") low
            && PyStr.isin (lit "carrier") low
            && ((length text <? 50)
                && negb (PyStr.isin (lit "equals") low)
                && negb (PyStr.isin (lit "starts") low)
                && negb (PyStr.isin (lit "contains") low))
    then []
    else flat_map parse_part (split false numbered_re text).
End WithRuntime.

End Parser.

(* ================================================================== *)
(** * Condition evaluator: [check_applies_if_condition] *)
(* ================================================================== *)

Module Evaluator.

Definition column_mappings : list (str * list str) :=
  [ (lit "origin country",
     [lit "SHIP_COUNTRY"; lit "ship_country"; lit "Origin Country";
      lit "origin_country"]);
    (lit "destination country",
     [lit "CUST_COUNTRY"; lit "cust_country"; lit "Destination Country";
      lit "destination_country"; lit "dest_country"]);
    (lit "origin_country",
     [lit "SHIP_COUNTRY"; lit "ship_country"; lit "Origin Country"]);
    (lit "destination_country",
     [lit "CUST_COUNTRY"; lit "cust_country"; lit "Destination Country"]);
    (lit "ship country", [lit "SHIP_COUNTRY"; lit "ship_country"]);
    (lit "cust country", [lit "CUST_COUNTRY"; lit "cust_country"]) ].

(** [column_mappings.get(k, [])] *)
Definition mapping_get (k : str) : list str :=
  match Py.dict_get k column_mappings with
  | Some l => l
  | None => []
  end.

Definition underscored (s : str) : str :=
  PyStr.replace_char "-" (lit "_")
    (PyStr.replace_char " " (lit "_") (PyStr.lower s)).

Definition nospace (s : str) : str :=
  PyStr.replace_char "_" []
    (PyStr.replace_char " " [] (PyStr.lower s)).

(** The test of the loop over the mapped columns *)
Definition mapped_match (mapped_col : str) (kv : str * pyval) : bool :=
  PyStr.eqb (PyStr.lower (fst kv)) (PyStr.lower mapped_col)
  || PyStr.eqb (fst kv) mapped_col.

(** The first mapped column, in the order of the table, that some key of
    the row matches.  (A matched key is never the empty string, so the
    test [if matched_column] of the source is that of a match.) *)
Fixpoint first_mapped (mapped_columns : list str) (row : row_data)
  : option (str * pyval) :=
  match mapped_columns with
  | [] => None
  | mapped_col :: rest =>
      match find (mapped_match mapped_col) row with
      | Some kv => Some kv
      | None => first_mapped rest row
      end
  end.

(** The test of the standard matching loop *)
Definition standard_match (column_name : str) (kv : str * pyval) : bool :=
  let col := fst kv in
  PyStr.eqb (underscored col) (underscored column_name)
  || PyStr.eqb (nospace col) (nospace column_name)
  || PyStr.isin (PyStr.lower column_name) (PyStr.lower col)
  || PyStr.isin (PyStr.lower col) (PyStr.lower column_name).

(** [(matched_column, actual_value)], or [None] when [matched_column]
    stays [None] *)
Definition resolve_column (column_name : str) (row : row_data)
  : option (str * pyval) :=
  let mapped_columns := mapping_get (PyStr.lower column_name) in
  let mapped_columns :=
    if Py.nonempty mapped_columns then mapped_columns
    else mapping_get (underscored column_name) in
  match first_mapped mapped_columns row with
  | Some kv => Some kv
  | None => find (standard_match column_name) row
  end.

Section WithRuntime.
Context {rt : PyRuntime}.

Definition actual_str_of (actual_value : pyval) : str :=
  if Py.is_none actual_value || Py.is_float_nan actual_value then []
  else PyStr.strip (Py.to_str actual_value).

Definition not_found_reason (column_name etof_number : str) : str :=
  lit "Column '" ++ column_name
  ++ lit "' not found in shipment data for ETOF " ++ etof_number.

Definition not_met_reason (column_name actual_str : str)
           (what : string) (expected_values : list str) : str :=
  lit "Applies If not met: " ++ column_name ++ lit " is '" ++ actual_str
  ++ lit "', " ++ lit what ++ lit " " ++ list_repr expected_values.

(** One pass of the loop over [conditions]: [Some reason] when the pass
    returns [(False, reason)], [None] when it falls through. *)
Definition check_one (c : condition) (etof_number : str)
           (row : row_data) : option str :=
  let '(column_name, condition_type, expected_values) := c in
  match resolve_column column_name row with
  | None => Some (not_found_reason column_name etof_number)
  | Some (_, actual_value) =>
      let actual_str := actual_str_of actual_value in
      let actual_str_lower := PyStr.lower actual_str in
      let low := PyStr.lower in
      match condition_type with
      | equals =>
          if existsb (fun ev => PyStr.eqb actual_str_lower (low ev))
                     expected_values
          then None
          else Some (not_met_reason column_name actual_str
                       "expected one of" expected_values)
      | does_not_equal =>
          if forallb (fun ev => negb (PyStr.eqb actual_str_lower (low ev)))
                     expected_values
          then None
          else Some (not_met_reason column_name actual_str
                       "should not be one of" expected_values)
      | starts_with =>
          if existsb (fun ev => PyStr.startswith actual_str_lower (low ev))
                     expected_values
          then None
          else Some (not_met_reason column_name actual_str
                       "should start with one of" expected_values)
      | contains =>
          if existsb (fun ev => PyStr.isin (low ev) actual_str_lower)
                     expected_values
          then None
          else Some (not_met_reason column_name actual_str
                       "should contain one of" expected_values)
      | does_not_contain =>
          if forallb (fun ev => negb (PyStr.isin (low ev) actual_str_lower))
                     expected_values
          then None
          else Some (not_met_reason column_name actual_str
                       "should not contain any of" expected_values)
      end
  end.

(** [(is_met, reason_if_not_met)] *)
Fixpoint check_applies_if_condition (conditions : list condition)
         (etof_number : str) (df_lc_etof_row : row_data)
  : bool * option str :=
  match conditions with
  | [] => (true, None)
  | c :: rest =>
      match check_one c etof_number df_lc_etof_row with
      | Some reason => (false, Some reason)
      | None => check_applies_if_condition rest etof_number df_lc_etof_row
      end
  end.
End WithRuntime.

End Evaluator.

(* ================================================================== *)
(** * Cost matcher *)
(* ================================================================== *)

Module CostMatcher.
Import Re.

(** [r'\s*\([^)]*\)\s*$'] *)
Definition paren_re : regex :=
  Rep true 0 ws +++ Chr "(" +++ Rep true 0 (non ")") +++ Chr ")"
  +++ Rep true 0 ws +++ Eol.

(** [re.sub(r'\s*\([^)]*\)\s*$', '', s).strip()] *)
Definition base_name (s : str) : str :=
  PyStr.strip (sub_empty false paren_re s).

Definition has (needle : string) (col_lower : str) : bool :=
  PyStr.isin (lit needle) col_lower.

(** The four-way test written out in [get_all_matching_cost_conditions],
    [get_all_matching_accessorial_costs] and [get_accessorial_cost_info]. *)
Definition is_match (cost_type cost_name : str) : bool :=
  let cost_type_clean := PyStr.lower (PyStr.strip cost_type) in
  let base_cost_type := base_name cost_type_clean in
  let cost_name_lower := PyStr.lower cost_name in
  let base_cost_name := base_name cost_name_lower in
  PyStr.eqb cost_name_lower cost_type_clean
  || PyStr.eqb base_cost_name base_cost_type
  || PyStr.startswith cost_name_lower cost_type_clean
  || PyStr.startswith cost_type_clean cost_name_lower.

(** [(cost_name, rate_by, applies_if)] *)
Definition cost_entry : Type := str * pyval * pyval.

Record cond_cols : Type := {
  cost_name_col : option str;
  rate_by_col : option str;
  applies_if_col : option str
}.

(** The column loop of [get_all_matching_cost_conditions]: an [elif]
    chain without [break], so the last column of each kind is kept. *)
Definition scan_cond_cols (cols : list str) : cond_cols :=
  fold_left
    (fun acc col =>
       let col_lower := PyStr.lower col in
       if has "cost" col_lower && has "name" col_lower then
         {| cost_name_col := Some col; rate_by_col := rate_by_col acc;
            applies_if_col := applies_if_col acc |}
       else if has "rate" col_lower && has "by" col_lower then
         {| cost_name_col := cost_name_col acc; rate_by_col := Some col;
            applies_if_col := applies_if_col acc |}
       else if has "applies" col_lower && has "if" col_lower then
         {| cost_name_col := cost_name_col acc;
            rate_by_col := rate_by_col acc; applies_if_col := Some col |}
       else acc)
    cols
    {| cost_name_col := None; rate_by_col := None; applies_if_col := None |}.

Section WithRuntime.
Context {rt : PyRuntime}.

(** [str(row.get(cost_name_col, '')).strip()] *)
Definition cost_name_of (cost_name_col : option str) (row : row_data)
  : str :=
  PyStr.strip (Py.to_str (row_get row cost_name_col (PStr []))).

(** [row.get(col, '') if col else ''] *)
Definition cell_or_empty (col : option str) (row : row_data) : pyval :=
  match col with
  | Some c => if Py.nonempty c then row_get row col (PStr []) else PStr []
  | None => PStr []
  end.

Definition get_all_matching_cost_conditions (cost_type : str)
           (df_cost_conditions : option DataFrame) : list cost_entry :=
  match df_cost_conditions with
  | None => []
  | Some df =>
      if df_empty df then [] else
      let cc := scan_cond_cols (columns df) in
      match cost_name_col cc with
      | None => []
      | Some _ =>
          flat_map
            (fun row =>
               let cost_name := cost_name_of (cost_name_col cc) row in
               if is_match cost_type cost_name then
                 [(cost_name, cell_or_empty (rate_by_col cc) row,
                   cell_or_empty (applies_if_col cc) row)]
               else [])
            (rows df)
      end
  end.

(** [get_cost_conditions_for_cost_type]: three column loops with
    [break], an exact pass over the rows, then the partial pass.
    [(None, None)] is [None]. *)
Definition get_cost_conditions_for_cost_type (cost_type : str)
           (df_cost_conditions : option DataFrame)
  : option (pyval * pyval) :=
  match df_cost_conditions with
  | None => None
  | Some df =>
      if df_empty df then None else
      let low := PyStr.lower in
      match find (fun col => has "cost" (low col) && has "name" (low col))
                 (columns df) with
      | None => None
      | Some cn =>
          let rate_by_col :=
            find (fun col => has "rate" (low col) && has "by" (low col))
                 (columns df) in
          let applies_if_col :=
            find (fun col => has "applies" (low col) && has "if" (low col))
                 (columns df) in
          let cost_type_clean := low (PyStr.strip cost_type) in
          let out row := (cell_or_empty rate_by_col row,
                          cell_or_empty applies_if_col row) in
          match find (fun row =>
                        PyStr.eqb (low (cost_name_of (Some cn) row))
                                  cost_type_clean)
                     (rows df) with
          | Some row => Some (out row)
          | None =>
              match find (fun row =>
                            let n := low (cost_name_of (Some cn) row) in
                            PyStr.isin cost_type_clean n
                            || PyStr.isin n cost_type_clean)
                         (rows df) with
              | Some row => Some (out row)
              | None => None
              end
          end
      end
  end.
End WithRuntime.

(** [max(l, key=...)] and [min(l, key=...)]: the first element that
    attains the extremum *)
Fixpoint max_by {A} (key : A -> nat) (best : A) (l : list A) : A :=
  match l with
  | [] => best
  | x :: l' => max_by key (if key best <? key x then x else best) l'
  end.

Fixpoint min_by {A} (key : A -> nat) (best : A) (l : list A) : A :=
  match l with
  | [] => best
  | x :: l' => min_by key (if key x <? key best then x else best) l'
  end.

Section WithRuntime.
Context {rt : PyRuntime}.

(** The loop of [find_best_matching_cost] that fills the two lists
    [(matches_with_conditions_met, matches_without_conditions)]. *)
Fixpoint classify (all_matches : list cost_entry)
         (etof_row_data : row_data)
  : list cost_entry * list cost_entry :=
  match all_matches with
  | [] => ([], [])
  | m :: rest =>
      let '(met, without) := classify rest etof_row_data in
      let parsed_conditions :=
        Parser.parse_applies_if_condition (snd m) in
      if negb (Py.nonempty parsed_conditions) then (met, m :: without)
      else if Py.nonempty etof_row_data then
        if fst (Evaluator.check_applies_if_condition
                  parsed_conditions (lit "check") etof_row_data)
        then (m :: met, without)
        else (met, without)
      else (met, m :: without)
  end.

Definition name_len (m : cost_entry) : nat := length (fst (fst m)).

(** [(None, None, None)] is [None]. *)
Definition find_best_matching_cost (cost_type : str)
           (df_cost_conditions : option DataFrame)
           (etof_row_data : row_data) : option cost_entry :=
  match get_all_matching_cost_conditions cost_type df_cost_conditions with
  | [] => None
  | [m] => Some m
  | (first :: _) as all_matches =>
      match classify all_matches etof_row_data with
      | (m :: met, _) => Some (max_by name_len m met)
      | ([], m :: without) => Some (min_by name_len m without)
      | ([], []) => Some first
      end
  end.
End WithRuntime.

End CostMatcher.

(* ================================================================== *)
(** * Accessorial costs *)
(* ================================================================== *)

Module Accessorial.
Import CostMatcher.

(** [(cost_name, rate_by, applies_if, price_flat, price_per_unit,
     has_min_flat, lane_num)] *)
Record acc_entry : Type := {
  acc_cost_name : str;
  acc_rate_by : str;
  acc_applies_if : str;
  acc_price_flat : option float;
  acc_price_per_unit : option float;
  acc_has_min_flat : bool;
  acc_lane_num : option Z
}.

Record acc_cols : Type := {
  a_cost_name : option str;
  a_rate_by : option str;
  a_applies_if : option str;
  a_lane : option str;
  a_price_flat : option str;
  a_price_per_unit : option str;
  a_has_min_flat : option str
}.

Definition no_cols : acc_cols :=
  {| a_cost_name := None; a_rate_by := None; a_applies_if := None;
     a_lane := None; a_price_flat := None; a_price_per_unit := None;
     a_has_min_flat := None |}.

(** The column loop of [get_all_matching_accessorial_costs] *)
Definition scan_acc_cols (cols : list str) : acc_cols :=
  fold_left
    (fun acc col =>
       let col_lower := PyStr.lower col in
       let c := Some col in
       if has "cost" col_lower && has "name" col_lower then
         {| a_cost_name := c; a_rate_by := a_rate_by acc;
            a_applies_if := a_applies_if acc; a_lane := a_lane acc;
            a_price_flat := a_price_flat acc;
            a_price_per_unit := a_price_per_unit acc;
            a_has_min_flat := a_has_min_flat acc |}
       else if has "rate" col_lower && has "by" col_lower then
         {| a_cost_name := a_cost_name acc; a_rate_by := c;
            a_applies_if := a_applies_if acc; a_lane := a_lane acc;
            a_price_flat := a_price_flat acc;
            a_price_per_unit := a_price_per_unit acc;
            a_has_min_flat := a_has_min_flat acc |}
       else if has "applies" col_lower && has "if" col_lower then
         {| a_cost_name := a_cost_name acc; a_rate_by := a_rate_by acc;
            a_applies_if := c; a_lane := a_lane acc;
            a_price_flat := a_price_flat acc;
            a_price_per_unit := a_price_per_unit acc;
            a_has_min_flat := a_has_min_flat acc |}
       else if has "lane" col_lower then
         {| a_cost_name := a_cost_name acc; a_rate_by := a_rate_by acc;
            a_applies_if := a_applies_if acc; a_lane := c;
            a_price_flat := a_price_flat acc;
            a_price_per_unit := a_price_per_unit acc;
            a_has_min_flat := a_has_min_flat acc |}
       else if PyStr.eqb col_lower (lit "price flat")
               || has "price flat" col_lower then
         {| a_cost_name := a_cost_name acc; a_rate_by := a_rate_by acc;
            a_applies_if := a_applies_if acc; a_lane := a_lane acc;
            a_price_flat := c;
            a_price_per_unit := a_price_per_unit acc;
            a_has_min_flat := a_has_min_flat acc |}
       else if has "per unit" col_lower || has "price per" col_lower then
         {| a_cost_name := a_cost_name acc; a_rate_by := a_rate_by acc;
            a_applies_if := a_applies_if acc; a_lane := a_lane acc;
            a_price_flat := a_price_flat acc;
            a_price_per_unit := c;
            a_has_min_flat := a_has_min_flat acc |}
       else if has "has min" col_lower || has "min flat" col_lower then
         {| a_cost_name := a_cost_name acc; a_rate_by := a_rate_by acc;
            a_applies_if := a_applies_if acc; a_lane := a_lane acc;
            a_price_flat := a_price_flat acc;
            a_price_per_unit := a_price_per_unit acc;
            a_has_min_flat := c |}
       else acc)
    cols no_cols.

(** [col and pd.notna(row.get(col))] *)
Definition present (col : option str) (row : row_data) : bool :=
  match col with
  | Some c => Py.nonempty c && Py.notna (row_get row col PNone)
  | None => false
  end.

Section WithRuntime.
Context {rt : PyRuntime}.

(** [str(row.get(col, '')).strip() if col and pd.notna(row.get(col))
    else ''] *)
Definition text_cell (col : option str) (row : row_data) : str :=
  if present col row
  then PyStr.strip (Py.to_str (row_get row col (PStr [])))
  else [].

(** The guarded [float(val)] of the two price cells *)
Definition price_cell (col : option str) (row : row_data)
  : option float :=
  if present col row then
    let val := row_get row col PNone in
    if negb (Py.is_none val)
       && negb (PyStr.eqb (PyStr.strip (Py.to_str val)) [])
    then Py.to_float val
    else None
  else None.

(** [float(val)] of a price cell raises [OverflowError]. *)
Definition price_overflows (col : option str) (row : row_data) : bool :=
  present col row
  && (let val := row_get row col PNone in
      negb (Py.is_none val)
      && negb (PyStr.eqb (PyStr.strip (Py.to_str val)) [])
      && Py.float_overflows val).

(** [int(float(row.get(lane_col)))] raises [OverflowError]: the cell is an
    integer beyond the float range, or it converts to an infinity. *)
Definition lane_overflows (col : option str) (row : row_data) : bool :=
  present col row
  && (let cell := row_get row col PNone in
      Py.float_overflows cell
      || match Py.to_float cell with
         | Some f => PrimFloat.is_infinity f
         | None => false
         end).

(** [int(float(row.get(lane_col)))] under [except (ValueError,
    TypeError)], for a cell on which it does not raise [OverflowError]
    ([lane_overflows]). *)
Definition lane_cell (col : option str) (row : row_data) : option Z :=
  if present col row then
    match Py.to_float (row_get row col PNone) with
    | Some f => Py.int_of_float f
    | None => None
    end
  else None.

Definition flag_cell (col : option str) (row : row_data) : bool :=
  if present col row then
    let val := PyStr.lower (PyStr.strip (Py.to_str (row_get row col PNone))) in
    existsb (PyStr.eqb val) [lit "yes"; lit "true"; lit "1"; lit "y"]
  else false.

(** The call ends in an [OverflowError], which the source does not
    catch: a row whose name matches has a lane cell or a price cell whose
    conversion raises it. *)
Definition overflows (cost_type : str) (df_accessorial : option DataFrame)
  : bool :=
  match df_accessorial with
  | None => false
  | Some df =>
      if df_empty df then false else
      let ac := scan_acc_cols (columns df) in
      match a_cost_name ac with
      | None => false
      | Some _ =>
          existsb
            (fun row =>
               is_match cost_type (cost_name_of (a_cost_name ac) row)
               && (lane_overflows (a_lane ac) row
                   || price_overflows (a_price_flat ac) row
                   || price_overflows (a_price_per_unit ac) row))
            (rows df)
      end
  end.

(** The list returned, when the call returns ([overflows] is false) *)
Definition get_all_matching_accessorial_costs (cost_type : str)
           (df_accessorial : option DataFrame) : list acc_entry :=
  match df_accessorial with
  | None => []
  | Some df =>
      if df_empty df then [] else
      let ac := scan_acc_cols (columns df) in
      match a_cost_name ac with
      | None => []
      | Some _ =>
          flat_map
            (fun row =>
               let cost_name := cost_name_of (a_cost_name ac) row in
               if is_match cost_type cost_name then
                 [ {| acc_cost_name := cost_name;
                      acc_rate_by := text_cell (a_rate_by ac) row;
                      acc_applies_if := text_cell (a_applies_if ac) row;
                      acc_price_flat := price_cell (a_price_flat ac) row;
                      acc_price_per_unit :=
                        price_cell (a_price_per_unit ac) row;
                      acc_has_min_flat :=
                        flag_cell (a_has_min_flat ac) row;
                      acc_lane_num := lane_cell (a_lane ac) row |} ]
               else [])
            (rows df)
      end
  end.

(** The lane filter of [find_best_matching_accessorial_cost] *)
Definition lane_keeps (lane_number : option str) (m : acc_entry) : bool :=
  match lane_number, acc_lane_num m with
  | Some ln, Some ml => PyStr.eqb (PyStr.of_Z ml) ln
  | _, None => true
  | None, Some _ => false
  end.

Fixpoint classify_acc (lane_matches : list acc_entry)
         (etof_row_data : row_data)
  : list acc_entry * list acc_entry :=
  match lane_matches with
  | [] => ([], [])
  | m :: rest =>
      let '(met, without) := classify_acc rest etof_row_data in
      let parsed_conditions :=
        Parser.parse_applies_if_condition (PStr (acc_applies_if m)) in
      if negb (Py.nonempty parsed_conditions) then (met, m :: without)
      else if Py.nonempty etof_row_data then
        if fst (Evaluator.check_applies_if_condition
                  parsed_conditions (lit "check") etof_row_data)
        then (m :: met, without)
        else (met, without)
      else (met, m :: without)
  end.

Definition acc_name_len (m : acc_entry) : nat := length (acc_cost_name m).

(** The six values returned are the fields of the entry other than its
    lane; six [None]s are [None]. *)
Definition find_best_matching_accessorial_cost (cost_type : str)
           (df_accessorial : option DataFrame)
           (lane_number : option str) (etof_row_data : row_data)
  : option acc_entry :=
  match get_all_matching_accessorial_costs cost_type df_accessorial with
  | [] => None
  | all_matches =>
      let lane_matches := filter (lane_keeps lane_number) all_matches in
      let lane_matches :=
        if Py.nonempty lane_matches then lane_matches else all_matches in
      match lane_matches with
      | [m] => Some m
      | _ =>
          match classify_acc lane_matches etof_row_data with
          | (m :: met, _) => Some (max_by acc_name_len m met)
          | ([], m :: without) => Some (min_by acc_name_len m without)
          | ([], []) => hd_error lane_matches
          end
      end
  end.
End WithRuntime.

End Accessorial.

(* ================================================================== *)
(** * Weight tiers and rate lanes *)
(* ================================================================== *)

(** A call of the source that ends in an exception it does not catch *)
Inductive py_result (A : Type) : Type :=
| Returns (a : A)
| Raises (exn : string).
Arguments Returns {A} a.
Arguments Raises {A} exn.

Module Tiers.

(** [(col_idx, lower_bound, upper_bound)] *)
Definition tier : Type := nat * option float * float.

Definition tier_upper (t : tier) : float := snd t.

(** [sorted(tiers, key=lambda x: x[2])]: the stable sort, which places an
    element before the first one that is not smaller than it. *)
Fixpoint insert_tier (t : tier) (l : list tier) : list tier :=
  match l with
  | [] => [t]
  | x :: l' =>
      if (tier_upper x <? tier_upper t)%float then x :: insert_tier t l'
      else t :: l
  end.

Definition sorted_tiers (l : list tier) : list tier :=
  fold_right insert_tier [] l.

(** The test of one tier *)
Definition in_range (t : tier) (weight : float) : bool :=
  match snd (fst t) with
  | None => (weight <=? tier_upper t)%float
  | Some lower => ((lower <? weight) && (weight <=? tier_upper t))%float
  end.

Section WithRuntime.
Context {rt : PyRuntime}.

(** [int(x) if x == int(x) else x], formatted; [None] when [int(x)]
    raises *)
Definition bound_str (x : float) : option str :=
  match Py.int_of_float x with
  | Some z =>
      Some (if (x =? Py.float_of_Z z)%float then PyStr.of_Z z
            else float_repr x)
  | None => None
  end.

Definition range_desc (t : tier) : option str :=
  match snd (fst t) with
  | None =>
      match bound_str (tier_upper t) with
      | Some u => Some (lit "<=" ++ u)
      | None => None
      end
  | Some lower =>
      match bound_str lower, bound_str (tier_upper t) with
      | Some l, Some u => Some (lit ">" ++ l ++ lit " <=" ++ u)
      | _, _ => None
      end
  end.

(** [(col_idx, range_description)] *)
Definition select_price_column_by_weight (tiered_columns : list tier)
           (charge_weight : pyval)
  : py_result (option nat * option str) :=
  if negb (Py.nonempty tiered_columns) || Py.is_none charge_weight
  then Returns (None, None)
  else if Py.float_overflows charge_weight then Raises "OverflowError"
  else
    match Py.to_float charge_weight with
    | None => Returns (None, None)
    | Some weight =>
        let sorted := sorted_tiers tiered_columns in
        match find (fun t => in_range t weight) sorted with
        | Some t =>
            match range_desc t with
            | Some d => Returns (Some (fst (fst t)), Some d)
            | None => Raises "OverflowError"
            end
        | None =>
            match last (map Some sorted) None with
            | Some t =>
                if (tier_upper t <? weight)%float
                then Returns (None,
                              Some (lit "exceeds max tier "
                                    ++ float_repr (tier_upper t)))
                else Returns (None, None)
            | None => Returns (None, None)
            end
        end
    end.
End WithRuntime.

End Tiers.

Module Lanes.
Import Re.

(** [r'Rate\s+lanes?:\s*([\d,\s]+)'] *)
Definition lane_re : regex :=
  text "Rate" +++ Rep true 1 ws +++ text "lane" +++ Opt (Chr "s")
  +++ Chr ":" +++ Rep true 0 ws
  +++ Grp 1 (Rep true 1 (fun c => digit c || Ascii.eqb c "," || ws c)).

Section WithRuntime.
Context {rt : PyRuntime}.

Definition extract_rate_lane (comment : pyval) : list str :=
  if negb (Py.truthy comment) || Py.isna comment then []
  else
    match search true lane_re (Py.to_str comment) with
    | Some m =>
        filter (fun l => Py.nonempty l)
               (map PyStr.strip (PyStr.split_char "," (group 1 m)))
    | None => []
    end.
End WithRuntime.

End Lanes.

(* ================================================================== *)
(** * Reconciliation engine: [check_conditions_and_add_reason] *)
(* ================================================================== *)

Inductive price_type : Type := flat | per_unit | price_min | price_max.

(** [{'rate_data': ..., 'cost_conditions': ...}] *)
Record agreement_data : Type := {
  rate_data : DataFrame;
  cost_conditions : option DataFrame
}.

(** The functions the loop body calls whose results no property below
    depends on: the positional price lookup in the rate table, the lazy
    loading of an agreement's accessorial file, and the two multiplier
    lookups.  The engine is stated for every behaviour of them.  It is
    the pass over a row on which no call ends in an exception: where the
    price lookup raises ([RateCard.find_cost_price_in_rate_data] below),
    or a conversion raises [OverflowError] ([Py.float_overflows],
    [Accessorial.overflows]), the source stops without a result, and the
    pass of this section says nothing of such a row.
    - [find_cost_price_in_rate_data df lane cost price_type charge_weight]
      is [(price_value, column_name, reason)], [PNone] for [None];
    - [extract_measurement_value] and [find_value_in_etof_columns] return
      [(name, value, found)]. *)
Class Collaborators : Type := {
  find_cost_price_in_rate_data :
    DataFrame -> str -> str -> price_type -> pyval
    -> pyval * option str * option str;
  get_accessorial_data_for_agreement : str -> option DataFrame;
  extract_measurement_value :
    str -> pyval -> pyval -> option str * pyval * bool;
  find_value_in_etof_columns :
    str -> row_data -> option str * pyval * bool
}.

(** The calls one pass of the row loop makes, in order. *)
Inductive call : Type :=
| CallGetCostConditions          (* get_cost_conditions_for_cost_type *)
| CallFindBestMatchingCost       (* find_best_matching_cost *)
| CallGetAccessorialData         (* get_accessorial_data_for_agreement *)
| CallFindBestAccessorial        (* find_best_matching_accessorial_cost *)
| CallParseAppliesIf             (* parse_applies_if_condition *)
| CallCheckAppliesIf             (* check_applies_if_condition *)
| CallExtractRateLane            (* extract_rate_lane *)
| CallExtractMeasurement         (* extract_measurement_value *)
| CallFindValueInEtofColumns     (* find_value_in_etof_columns *)
| CallFindCostPrice (pt : price_type) (lane cost : str).
                                 (* find_cost_price_in_rate_data *)

(** A result together with the calls made to compute it. *)
Definition traced (A : Type) : Type := A * list call.

Definition ret {A} (a : A) : traced A := (a, []).

Definition bind {A B} (m : traced A) (k : A -> traced B) : traced B :=
  let '(a, t1) := m in
  let '(b, t2) := k a in
  (b, t1 ++ t2).

Definition calling {A} (c : call) (a : A) : traced A := (a, [c]).

Notation "x <- m ;; k" := (bind m (fun x => k))
  (at level 100, m at next level, right associativity).
Notation "' p <- m ;; k" := (bind m (fun p => k))
  (at level 100, p pattern, m at next level, right associativity).

Definition is_price_call (c : call) : bool :=
  match c with CallFindCostPrice _ _ _ => true | _ => false end.

(** What one pass appends to [rate_by_values], [applies_if_values] and
    [reasons]. *)
Record row_result : Type := {
  out_rate_by : str;
  out_applies_if : str;
  out_reason : str
}.

Module Engine.

Record lookups : Type := {
  all_rate_costs : list (str * agreement_data);
  etof_to_comment : list (str * pyval);
  etof_to_charge_weight : list (str * pyval);
  etof_to_measurement : list (str * pyval);
  etof_to_units_measurement : list (str * pyval);
  etof_to_row_data : list (str * row_data);
  etof_col_mismatch : option str;
  cost_type_col : option str;
  agreement_col_mismatch : option str;
  comment_col_mismatch : option str
}.

Definition col_truthy (col : option str) : bool :=
  match col with Some c => Py.nonempty c | None => false end.

(** [d.get(k)] with [None] for a missing key *)
Definition get_val (k : str) (d : list (str * pyval)) : pyval :=
  match Py.dict_get k d with Some v => v | None => PNone end.

(** [f'{x}'] for a value that may be [None] *)
Definition opt_str (o : option str) : str :=
  match o with Some s => s | None => lit "None" end.

(** [all_rate_costs.get(agreement)], then the partial match over the keys *)
Definition resolve_agreement (all_rate_costs : list (str * agreement_data))
           (agreement : str) : option agreement_data :=
  match Py.dict_get agreement all_rate_costs with
  | Some d => Some d
  | None =>
      if Py.nonempty agreement then
        option_map snd
          (find (fun kv => PyStr.isin (fst kv) agreement
                           || PyStr.isin agreement (fst kv))
                all_rate_costs)
      else None
  end.

Section WithRuntime.
Context {rt : PyRuntime} {ext : Collaborators}.

(** [str(row.get(col, '')).strip() if pd.notna(row.get(col)) else ''] *)
Definition mismatch_cell (row : row_data) (col : option str) : str :=
  if Py.notna (row_get row col PNone)
  then PyStr.strip (Py.to_str (row_get row col (PStr [])))
  else [].

(** [str(x).strip() if x and pd.notna(x) else ''] *)
Definition clean_cell (x : pyval) : str :=
  if Py.truthy x && Py.notna x then PyStr.strip (Py.to_str x) else [].

Definition has_tier_marks (price_col : option str) : bool :=
  match price_col with
  | Some c => Py.nonempty c
              && (PyStr.isin (lit "<=") c || PyStr.isin (lit ">") c)
  | None => false
  end.

(** The text shared by the MIN and MAX reasons *)
Definition calculated (price_per_unit multiplier_value : pyval)
           (multiplier_name : option str) (total_cost : float) : str :=
  lit " (Calculated: " ++ Py.to_str price_per_unit ++ lit " * "
  ++ Py.to_str multiplier_value ++ lit " (" ++ opt_str multiplier_name
  ++ lit ") = " ++ float_fmt2 total_cost.

Definition min_reason (price_per_unit multiplier_value : pyval)
           (multiplier_name : option str) (min_price : pyval)
           (total_cost : float) : str :=
  lit "MIN price applied - " ++ Py.to_str min_price
  ++ calculated price_per_unit multiplier_value multiplier_name total_cost
  ++ lit ", but MIN is higher)".

Definition max_reason (price_per_unit multiplier_value : pyval)
           (multiplier_name : option str) (max_price : pyval)
           (total_cost : float) : str :=
  lit "MAX price applied - " ++ Py.to_str max_price
  ++ calculated price_per_unit multiplier_value multiplier_name total_cost
  ++ lit ", but MAX is lower)".

Definition total_reason (price_per_unit multiplier_value : pyval)
           (multiplier_name : option str) (price_col : option str)
           (total_cost : float) : str :=
  let tier_info :=
    if has_tier_marks price_col
    then lit " (weight tier: " ++ opt_str price_col ++ lit ")" else [] in
  lit "Cost per unit: " ++ Py.to_str price_per_unit ++ tier_info ++ lit ", "
  ++ opt_str multiplier_name ++ lit ": " ++ Py.to_str multiplier_value
  ++ lit ", Total: " ++ Py.to_str price_per_unit ++ lit " * "
  ++ Py.to_str multiplier_value ++ lit " = " ++ float_fmt2 total_cost.

(** The MIN check of the rate-card path: [min_applied] *)
Definition min_applies (min_price : pyval) (total_cost : float) : bool :=
  negb (Py.is_none min_price)
  && match Py.to_float min_price with
     | Some min_price_float => (total_cost <? min_price_float)%float
     | None => false
     end.

(** The MAX check, made only [if not min_applied]: [max_applied] *)
Definition max_applies (min_applied : bool) (max_price : pyval)
           (total_cost : float) : bool :=
  negb min_applied
  && negb (Py.is_none max_price)
  && match Py.to_float max_price with
     | Some max_price_float => (max_price_float <? total_cost)%float
     | None => false
     end.

(** The MIN/MAX block of the rate-card path once [total_cost] is known:
    [(min_applied, max_applied, reason)]. *)
Definition clamp (price_per_unit multiplier_value : pyval)
           (multiplier_name : option str) (min_price max_price : pyval)
           (price_col : option str) (total_cost : float)
  : bool * bool * str :=
  let min_applied := min_applies min_price total_cost in
  let max_applied := max_applies min_applied max_price total_cost in
  let reason :=
    if min_applied then
      min_reason price_per_unit multiplier_value multiplier_name min_price
                 total_cost
    else if max_applied then
      max_reason price_per_unit multiplier_value multiplier_name max_price
                 total_cost
    else
      total_reason price_per_unit multiplier_value multiplier_name price_col
                   total_cost in
  (min_applied, max_applied, reason).

(** The normal per-unit computation of the rate-card path: the outer [try]
    with its two [except] clauses. *)
Definition per_unit_reason (price_per_unit multiplier_value : pyval)
           (multiplier_name : option str)
           (multiplier_not_found_reason : option str)
           (min_price max_price : pyval) (price_col : option str)
           (etof_number : str) : str :=
  let ppu := Py.to_str price_per_unit in
  match Py.to_float price_per_unit with
  | None =>
      lit "Cost per unit: " ++ ppu
      ++ lit " (could not calculate - invalid price format)"
  | Some price_float =>
      if negb (Py.is_none multiplier_value)
         && negb (Py.is_float_nan multiplier_value)
      then
        match Py.to_float multiplier_value with
        | Some multiplier_float =>
            let total_cost := (price_float * multiplier_float)%float in
            snd (clamp price_per_unit multiplier_value multiplier_name
                       min_price max_price price_col total_cost)
        | None =>
            lit "Cost per unit: " ++ ppu ++ lit ", "
            ++ opt_str multiplier_name ++ lit ": "
            ++ Py.to_str multiplier_value
            ++ lit " (could not calculate - invalid multiplier value)"
        end
      else
        match multiplier_not_found_reason with
        | Some r =>
            if Py.nonempty r
            then lit "Cost per unit: " ++ ppu ++ lit ", but " ++ r
            else lit "Cost per unit: " ++ ppu ++ lit ", "
                 ++ opt_str multiplier_name ++ lit " not found for ETOF "
                 ++ etof_number
        | None =>
            lit "Cost per unit: " ++ ppu ++ lit ", "
            ++ opt_str multiplier_name ++ lit " not found for ETOF "
            ++ etof_number
        end
  end.

Definition multiple_lanes_reason (lanes : list str) : str :=
  lit "Multiple rate lanes found (" ++ PyStr.join (lit ", ") lanes
  ++ lit ") - manual check required".

Definition not_covered : str :=
  lit "The cost is not covered for the provided shipment details.".

(** [price_reason if price_reason else '... not covered ...'] *)
Definition reason_or_not_covered (price_reason : option str) : str :=
  match price_reason with
  | Some r => if Py.nonempty r then r else not_covered
  | None => not_covered
  end.

(** ** The two pricing branches *)

(** The prices kept from a match in the accessorial table:
    [(accessorial_price_flat, accessorial_price_per_unit,
      accessorial_has_min_flat)] *)
Definition acc_prices : Type := option float * option float * bool.

(** [Rate By] is PER SHIPMENT. *)
Definition per_shipment_branch (L : lookups) (use_accessorial : bool)
           (ap : acc_prices) (df_rate_data : DataFrame)
           (cost_name_for_lookup etof_number : str) : traced str :=
  let '(accessorial_price_flat, accessorial_price_per_unit, _) := ap in
  if use_accessorial then
    ret match accessorial_price_flat, accessorial_price_per_unit with
        | Some f, _ =>
            lit "The cost is pre-calculated by rate card (accessorial) - "
            ++ float_repr f ++ lit " flat."
        | None, Some p => lit "Cost per unit (accessorial): " ++ float_repr p
        | None, None =>
            lit "The cost is not covered for the provided shipment details (accessorial - no price found)."
        end
  else
    let comment := get_val etof_number (etof_to_comment L) in
    if Py.truthy comment then
      lanes <- calling CallExtractRateLane (Lanes.extract_rate_lane comment) ;;
      match lanes with
      | [] =>
          ret (lit "Could not extract rate lane from comment: "
               ++ Py.to_str comment)
      | [lane_number] =>
          let charge_weight_for_lookup :=
            get_val etof_number (etof_to_charge_weight L) in
          '(price, price_col, price_reason) <-
            calling (CallFindCostPrice flat lane_number cost_name_for_lookup)
                    (find_cost_price_in_rate_data
                       df_rate_data lane_number cost_name_for_lookup flat
                       charge_weight_for_lookup) ;;
          ret (if negb (Py.is_none price) then
                 if has_tier_marks price_col then
                   lit "The cost is pre-calculated by rate card - "
                   ++ Py.to_str price ++ lit " flat (weight tier: "
                   ++ opt_str price_col ++ lit ")."
                 else
                   lit "The cost is pre-calculated by rate card - "
                   ++ Py.to_str price ++ lit " flat."
               else reason_or_not_covered price_reason)
      | _ => ret (multiple_lanes_reason lanes)
      end
    else ret (lit "No comment found for ETOF " ++ etof_number).

(** The multiplier of the other branch:
    [(multiplier_value, multiplier_name, multiplier_not_found_reason)] *)
Definition resolve_multiplier (L : lookups) (rate_by etof_number : str)
           (is_weight_based : bool)
  : traced (pyval * option str * option str) :=
  if is_weight_based then
    let charge_weight := get_val etof_number (etof_to_charge_weight L) in
    ret (charge_weight, Some (lit "CHARGE_WEIGHT"),
         if Py.is_none charge_weight || Py.is_float_nan charge_weight
         then Some (lit "CHARGE_WEIGHT not found for ETOF " ++ etof_number)
         else None)
  else
    let measurement_str :=
      match Py.dict_get etof_number (etof_to_measurement L) with
      | Some v => v | None => PStr [] end in
    let units_measurement_str :=
      match Py.dict_get etof_number (etof_to_units_measurement L) with
      | Some v => v | None => PStr [] end in
    '(meas_name, meas_value, meas_found) <-
      calling CallExtractMeasurement
              (extract_measurement_value rate_by measurement_str
                                         units_measurement_str) ;;
    if (meas_found : bool) then ret (meas_value, meas_name, None)
    else
      let etof_row_data_for_lookup :=
        match Py.dict_get etof_number (etof_to_row_data L) with
        | Some r => r | None => [] end in
      '(col_name, col_value, col_found) <-
        calling CallFindValueInEtofColumns
                (find_value_in_etof_columns rate_by
                                            etof_row_data_for_lookup) ;;
      if (col_found : bool) then ret (col_value, col_name, None)
      else
        let shown :=
          match meas_name with
          | Some n => if Py.nonempty n then n else opt_str col_name
          | None => opt_str col_name
          end in
        ret (PNone, None,
             Some (lit "'" ++ shown
                   ++ lit "' not found in MEASUREMENT column or direct columns for ETOF "
                   ++ etof_number)).

(** The per-unit computation on accessorial prices *)
Definition accessorial_per_unit_reason (ap : acc_prices)
           (multiplier_value : pyval) (multiplier_name : option str)
           (multiplier_not_found_reason : option str) (etof_number : str)
  : str :=
  let '(accessorial_price_flat, accessorial_price_per_unit,
        accessorial_has_min_flat) := ap in
  let min_price :=
    if accessorial_has_min_flat then accessorial_price_flat else None in
  match accessorial_price_per_unit with
  | Some price_float =>
      let ppu := float_repr price_float in
      if negb (Py.is_none multiplier_value)
         && negb (Py.is_float_nan multiplier_value)
      then
        match Py.to_float multiplier_value with
        | Some multiplier_float =>
            let total_cost := (price_float * multiplier_float)%float in
            let min_applied :=
              match min_price with
              | Some min_price_float => (total_cost <? min_price_float)%float
              | None => false
              end in
            if min_applied then
              lit "MIN price applied (accessorial) - "
              ++ match min_price with Some m => float_repr m
                                    | None => lit "None" end
              ++ lit " (Calculated: " ++ ppu ++ lit " * "
              ++ Py.to_str multiplier_value ++ lit " ("
              ++ opt_str multiplier_name ++ lit ") = "
              ++ float_fmt2 total_cost ++ lit ", but MIN is higher)"
            else
              lit "Cost per unit (accessorial): " ++ ppu ++ lit ", "
              ++ opt_str multiplier_name ++ lit ": "
              ++ Py.to_str multiplier_value ++ lit ", Total: " ++ ppu
              ++ lit " * " ++ Py.to_str multiplier_value ++ lit " = "
              ++ float_fmt2 total_cost
        | None =>
            lit "Cost per unit (accessorial): " ++ ppu ++ lit ", "
            ++ opt_str multiplier_name ++ lit ": "
            ++ Py.to_str multiplier_value
            ++ lit " (could not calculate - invalid multiplier value)"
        end
      else
        match multiplier_not_found_reason with
        | Some r =>
            if Py.nonempty r
            then lit "Cost per unit (accessorial): " ++ ppu ++ lit ", but "
                 ++ r
            else lit "Cost per unit (accessorial): " ++ ppu ++ lit ", "
                 ++ opt_str multiplier_name ++ lit " not found for ETOF "
                 ++ etof_number
        | None =>
            lit "Cost per unit (accessorial): " ++ ppu ++ lit ", "
            ++ opt_str multiplier_name ++ lit " not found for ETOF "
            ++ etof_number
        end
  | None =>
      match accessorial_price_flat with
      | Some f =>
          lit "The cost is pre-calculated by rate card (accessorial) - "
          ++ float_repr f ++ lit " flat."
      | None =>
          lit "The cost is not covered for the provided shipment details (accessorial - no price found)."
      end
  end.

(** The rate-card pricing of one lane in the per-unit branch: the three
    price lookups, then the reason. *)
Definition rate_card_per_unit (df_rate_data : DataFrame)
           (lane_number cost_name_for_lookup etof_number : str)
           (is_weight_based : bool) (multiplier_value : pyval)
           (multiplier_name multiplier_not_found_reason : option str)
  : traced str :=
  '(price_per_unit, price_col, price_reason) <-
    calling (CallFindCostPrice per_unit lane_number cost_name_for_lookup)
            (find_cost_price_in_rate_data
               df_rate_data lane_number cost_name_for_lookup per_unit
               (if is_weight_based then multiplier_value else PNone)) ;;
  '(min_price, _, _) <-
    calling (CallFindCostPrice price_min lane_number cost_name_for_lookup)
            (find_cost_price_in_rate_data
               df_rate_data lane_number cost_name_for_lookup price_min
               PNone) ;;
  '(max_price, _, _) <-
    calling (CallFindCostPrice price_max lane_number cost_name_for_lookup)
            (find_cost_price_in_rate_data
               df_rate_data lane_number cost_name_for_lookup price_max
               PNone) ;;
  ret (if negb (Py.is_none price_per_unit) then
         let is_flat_tier_fallback :=
           match price_col with
           | Some c => Py.nonempty c && PyStr.isin (lit "FLAT_TIER:") c
           | None => false
           end in
         if is_flat_tier_fallback then
           let tier_desc :=
             PyStr.replace (lit "FLAT_TIER:") [] (opt_str price_col) in
           lit "Weight-tiered flat price: " ++ Py.to_str price_per_unit
           ++ lit " (tier: " ++ tier_desc ++ lit ", "
           ++ opt_str multiplier_name ++ lit ": "
           ++ Py.to_str multiplier_value ++ lit ")"
         else
           per_unit_reason price_per_unit multiplier_value multiplier_name
                           multiplier_not_found_reason min_price max_price
                           price_col etof_number
       else reason_or_not_covered price_reason).

(** Every other [Rate By]. *)
Definition per_unit_branch (L : lookups) (use_accessorial : bool)
           (ap : acc_prices) (df_rate_data : DataFrame)
           (rate_by cost_name_for_lookup etof_number : str) : traced str :=
  let rate_by_lower := PyStr.lower rate_by in
  let is_weight_based :=
    PyStr.isin (lit "weight") rate_by_lower
    || PyStr.isin (lit "kg") rate_by_lower
    || PyStr.isin (lit "chargeable") rate_by_lower in
  let comment := get_val etof_number (etof_to_comment L) in
  '(multiplier_value, multiplier_name, multiplier_not_found_reason) <-
    resolve_multiplier L rate_by etof_number is_weight_based ;;
  if use_accessorial then
    ret (accessorial_per_unit_reason ap multiplier_value multiplier_name
           multiplier_not_found_reason etof_number)
  else if Py.truthy comment then
    lanes <- calling CallExtractRateLane (Lanes.extract_rate_lane comment) ;;
    match lanes with
    | [] =>
        ret (lit "Could not extract rate lane from comment: "
             ++ Py.to_str comment)
    | [lane_number] =>
        rate_card_per_unit df_rate_data lane_number cost_name_for_lookup
          etof_number is_weight_based multiplier_value multiplier_name
          multiplier_not_found_reason
    | _ => ret (multiple_lanes_reason lanes)
    end
  else ret (lit "No comment found for ETOF " ++ etof_number).

(** ** One pass of the row loop *)

(** The pass for a row with an existing comment: the comment is the
    reason; Rate By and Applies If are still looked up for display. *)
Definition comment_pass (L : lookups) (cost_type agreement : str)
           (existing_comment : str) : traced row_result :=
  match resolve_agreement (all_rate_costs L) agreement with
  | Some agreement_data =>
      looked <- calling CallGetCostConditions
                  (CostMatcher.get_cost_conditions_for_cost_type
                     cost_type (cost_conditions agreement_data)) ;;
      let '(rate_by_lookup, applies_if_lookup) :=
        match looked with
        | Some p => p
        | None => (PNone, PNone)
        end in
      ret {| out_rate_by := clean_cell rate_by_lookup;
             out_applies_if := clean_cell applies_if_lookup;
             out_reason := existing_comment |}
  | None =>
      ret {| out_rate_by := []; out_applies_if := [];
             out_reason := existing_comment |}
  end.

(** The accessorial fallback, tried when the cost conditions give neither a
    Rate By nor an Applies If: [Some] of the matched entry when
    [use_accessorial] becomes true. *)
Definition accessorial_fallback (L : lookups)
           (cost_type agreement etof_number : str)
           (etof_row_data : row_data)
  : traced (option Accessorial.acc_entry) :=
  df_accessorial <- calling CallGetAccessorialData
                      (get_accessorial_data_for_agreement agreement) ;;
  match df_accessorial with
  | None => ret None
  | Some df =>
      let comment := get_val etof_number (etof_to_comment L) in
      lanes <- (if Py.truthy comment
                then calling CallExtractRateLane
                             (Lanes.extract_rate_lane comment)
                else ret []) ;;
      let lane_number :=
        match lanes with [l] => Some l | _ => None end in
      found <- calling CallFindBestAccessorial
                 (Accessorial.find_best_matching_accessorial_cost
                    cost_type (Some df) lane_number etof_row_data) ;;
      match found with
      | Some a =>
          if Py.nonempty (Accessorial.acc_rate_by a)
             || Py.nonempty (Accessorial.acc_applies_if a)
             || match Accessorial.acc_price_flat a with
                | Some _ => true | None => false end
             || match Accessorial.acc_price_per_unit a with
                | Some _ => true | None => false end
          then ret (Some a)
          else ret None
      | None => ret None
      end
  end.

(** The Applies-If gate: [(applies_if_met, applies_if_reason)] *)
Definition applies_if_gate (L : lookups) (applies_if etof_number : str)
  : traced (bool * option str) :=
  let applies_if_lower := PyStr.lower applies_if in
  let is_no_applies_if_condition :=
    negb (Py.nonempty applies_if)
    || PyStr.isin (lit "no condition") applies_if_lower
    || PyStr.eqb applies_if_lower (lit "nan") in
  let is_no_applies_if_condition :=
    if negb is_no_applies_if_condition
       && PyStr.isin (lit "applies if invoiced") applies_if_lower
    then
      negb (existsb (fun kw => PyStr.isin kw applies_if_lower)
                    [lit "equals"; lit "starts with"; lit "starts";
                     lit "contains"; lit "does not equal"])
    else is_no_applies_if_condition in
  if is_no_applies_if_condition then ret (true, None)
  else
    parsed_conditions <- calling CallParseAppliesIf
                           (Parser.parse_applies_if_condition
                              (PStr applies_if)) ;;
    if Py.nonempty parsed_conditions then
      let etof_row_data :=
        match Py.dict_get etof_number (etof_to_row_data L) with
        | Some r => r | None => [] end in
      if negb (Py.nonempty etof_row_data) then
        ret (false,
             Some (lit "ETOF " ++ etof_number
                   ++ lit " not found in lc_etof_with_comments - cannot verify Applies If conditions"))
      else
        calling CallCheckAppliesIf
                (Evaluator.check_applies_if_condition
                   parsed_conditions etof_number etof_row_data)
    else ret (true, None).

(** The pass for a row without a comment. *)
Definition main_pass (L : lookups) (cost_type etof_number agreement : str)
  : traced row_result :=
  match resolve_agreement (all_rate_costs L) agreement with
  | None =>
      ret {| out_rate_by := []; out_applies_if := [];
             out_reason :=
               lit "No rate cost data found for agreement: " ++ agreement |}
  | Some agreement_data =>
      let df_rate_data := rate_data agreement_data in
      let df_cost_conditions := cost_conditions agreement_data in
      let etof_row_data :=
        match Py.dict_get etof_number (etof_to_row_data L) with
        | Some r => r | None => [] end in
      best <- calling CallFindBestMatchingCost
                (CostMatcher.find_best_matching_cost
                   cost_type df_cost_conditions etof_row_data) ;;
      let matched_cost_name := option_map (fun m => fst (fst m)) best in
      let rate_by :=
        match best with Some m => clean_cell (snd (fst m)) | None => [] end in
      let applies_if :=
        match best with Some m => clean_cell (snd m) | None => [] end in
      acc <- (if negb (Py.nonempty rate_by) && negb (Py.nonempty applies_if)
              then accessorial_fallback L cost_type agreement etof_number
                                        etof_row_data
              else ret None) ;;
      if negb (Py.nonempty rate_by) && negb (Py.nonempty applies_if)
         && match acc with None => true | Some _ => false end
      then
        ret {| out_rate_by := []; out_applies_if := [];
               out_reason :=
                 lit "Cost type '" ++ cost_type
                 ++ lit "' not found in cost conditions" |}
      else
        let use_accessorial :=
          match acc with Some _ => true | None => false end in
        let matched_cost_name :=
          match acc with
          | Some a => Some (Accessorial.acc_cost_name a)
          | None => matched_cost_name
          end in
        let rate_by :=
          match acc with
          | Some a => Accessorial.acc_rate_by a | None => rate_by end in
        let applies_if :=
          match acc with
          | Some a => Accessorial.acc_applies_if a | None => applies_if end in
        let ap : acc_prices :=
          match acc with
          | Some a => (Accessorial.acc_price_flat a,
                       Accessorial.acc_price_per_unit a,
                       Accessorial.acc_has_min_flat a)
          | None => (None, None, false)
          end in
        let cost_name_for_lookup :=
          match matched_cost_name with
          | Some n => if Py.nonempty n then n else cost_type
          | None => cost_type
          end in
        '(applies_if_met, applies_if_reason) <-
          applies_if_gate L applies_if etof_number ;;
        if negb applies_if_met then
          ret {| out_rate_by := rate_by; out_applies_if := applies_if;
                 out_reason :=
                   match applies_if_reason with
                   | Some r =>
                       if Py.nonempty r then r
                       else lit "Applies If condition not met: "
                            ++ firstn 100 applies_if
                   | None => lit "Applies If condition not met: "
                             ++ firstn 100 applies_if
                   end |}
        else
          let rate_by_lower := PyStr.lower rate_by in
          let is_per_shipment :=
            PyStr.isin (lit "per shipment") rate_by_lower
            || PyStr.isin (lit "shipment") rate_by_lower in
          reason <- (if is_per_shipment
                     then per_shipment_branch L use_accessorial ap
                            df_rate_data cost_name_for_lookup etof_number
                     else per_unit_branch L use_accessorial ap df_rate_data
                            rate_by cost_name_for_lookup etof_number) ;;
          ret {| out_rate_by := rate_by; out_applies_if := applies_if;
                 out_reason := reason |}
  end.

(** [existing_comment] of a row *)
Definition existing_comment_of (L : lookups) (row : row_data) : str :=
  if col_truthy (comment_col_mismatch L)
  then mismatch_cell row (comment_col_mismatch L)
  else [].

(** The body of [for idx, row in df.iterrows()] *)
Definition process_row (L : lookups) (row : row_data) : traced row_result :=
  let cost_type := mismatch_cell row (cost_type_col L) in
  let etof_number := mismatch_cell row (etof_col_mismatch L) in
  let agreement :=
    if col_truthy (agreement_col_mismatch L)
    then mismatch_cell row (agreement_col_mismatch L) else [] in
  let existing_comment := existing_comment_of L row in
  if Py.nonempty existing_comment
  then comment_pass L cost_type agreement existing_comment
  else main_pass L cost_type etof_number agreement.

(** ** The lookups built before the loop, and the whole function *)

Definition low_has (needle : string) (col : str) : bool :=
  PyStr.isin (lit needle) (PyStr.lower col).

(** [d[str(etof_num).strip()] = f(row)] for every row with an ETOF
    number *)
Definition index_by_etof {V} (etof_col : option str)
           (value : row_data -> V) (rows : list row_data)
  : list (str * V) :=
  fold_left
    (fun d row =>
       let etof_num := row_get row etof_col PNone in
       if Py.notna etof_num
       then Py.dict_set (PyStr.strip (Py.to_str etof_num)) (value row) d
       else d)
    rows [].

Definition or_empty (v : pyval) : pyval :=
  if Py.notna v then v else PStr [].

Definition build_lookups (df_mismatch df_lc_etof_mapping : DataFrame)
           (all_rate_costs : list (str * agreement_data)) : lookups :=
  let mcols := columns df_mismatch in
  let lcols := columns df_lc_etof_mapping in
  let lrows := rows df_lc_etof_mapping in
  let etof_col_mapping :=
    find (fun c => low_has "etof" c && low_has "#" c) lcols in
  let comment_col_mapping := find (low_has "comment") lcols in
  let charge_weight_col :=
    find (fun c => low_has "charge" c && low_has "weight" c) lcols in
  let '(measurement_col, units_measurement_col) :=
    fold_left
      (fun acc col =>
         let col_lower := PyStr.lower col in
         if PyStr.eqb col_lower (lit "measurement")
            || PyStr.eqb col_lower (lit "measurements")
         then (Some col, snd acc)
         else if low_has "units" col && low_has "measurement" col
              then (fst acc, Some col)
              else acc)
      lcols (None, None) in
  let when (b : bool) {V} (d : list (str * V)) := if b then d else [] in
  {| all_rate_costs := all_rate_costs;
     etof_to_comment :=
       when (col_truthy etof_col_mapping && col_truthy comment_col_mapping)
            (index_by_etof etof_col_mapping
               (fun row => row_get row comment_col_mapping PNone) lrows);
     etof_to_charge_weight :=
       when (col_truthy etof_col_mapping && col_truthy charge_weight_col)
            (index_by_etof etof_col_mapping
               (fun row => row_get row charge_weight_col PNone) lrows);
     etof_to_measurement :=
       when (col_truthy etof_col_mapping && col_truthy measurement_col
             && col_truthy units_measurement_col)
            (index_by_etof etof_col_mapping
               (fun row => or_empty (row_get row measurement_col PNone))
               lrows);
     etof_to_units_measurement :=
       when (col_truthy etof_col_mapping && col_truthy measurement_col
             && col_truthy units_measurement_col)
            (index_by_etof etof_col_mapping
               (fun row => or_empty (row_get row units_measurement_col PNone))
               lrows);
     etof_to_row_data :=
       when (col_truthy etof_col_mapping)
            (index_by_etof etof_col_mapping (fun row => row) lrows);
     etof_col_mismatch :=
       find (fun c => low_has "etof" c
                      && (low_has "number" c || low_has "#" c)) mcols;
     cost_type_col :=
       find (fun c => low_has "cost" c && low_has "type" c) mcols;
     agreement_col_mismatch :=
       find (fun c => low_has "carrier" c && low_has "agreement" c) mcols;
     comment_col_mismatch :=
       find (fun c => PyStr.eqb (PyStr.lower c) (lit "comment")) mcols |}.

(** [df[name] = values]: the column is added, or overwritten *)
Definition set_column (name : str) (values : list str) (df : DataFrame)
  : DataFrame :=
  {| columns := if existsb (PyStr.eqb name) (columns df) then columns df
                else columns df ++ [name];
     rows := map (fun rv => Py.dict_set name (PStr (snd rv)) (fst rv))
                 (combine (rows df) values) |}.

(** The DataFrame returned: the mismatch rows with the columns Rate By,
    Applies If and Reason. *)
Definition check_conditions_and_add_reason
           (df_mismatch df_lc_etof_mapping : DataFrame)
           (all_rate_costs : list (str * agreement_data)) : DataFrame :=
  let L := build_lookups df_mismatch df_lc_etof_mapping all_rate_costs in
  let results := map (fun row => fst (process_row L row)) (rows df_mismatch) in
  set_column (lit "Reason") (map out_reason results)
    (set_column (lit "Applies If") (map out_applies_if results)
       (set_column (lit "Rate By") (map out_rate_by results) df_mismatch)).

End WithRuntime.
End Engine.

(* ================================================================== *)
(** * Multiplier lookups: [extract_rate_by_column_keyword],
      [find_value_in_etof_columns], [extract_measurement_value] *)
(* ================================================================== *)

Module RateBy.
Import Re.

Definition cr : ascii := ascii_of_nat 13.

(** [r'rate by:\s*([^\r\n]+)'] *)
Definition rate_by_re : regex :=
  text "rate by:" +++ Rep true 0 ws
  +++ Grp 1 (Rep true 1 (fun c => negb (Ascii.eqb c cr)
                                  && negb (Ascii.eqb c newline))).

(** [s.split(sep)[0].strip() if sep in s else s] *)
Definition first_line (sep : ascii) (s : str) : str :=
  if PyStr.isin [sep] s
  then PyStr.strip (hd [] (PyStr.split_char sep s))
  else s.

(** The cleaning both functions start with: strip, keep what follows
    [rate by:], keep the first line. *)
Definition clean_rate_by (rate_by_text : str) : str :=
  let rate_by_clean := PyStr.strip rate_by_text in
  let rate_by_clean :=
    if PyStr.isin (lit "rate by:") (PyStr.lower rate_by_clean)
    then match search true rate_by_re rate_by_clean with
         | Some m => PyStr.strip (group 1 m)
         | None => rate_by_clean
         end
    else rate_by_clean in
  first_line newline (first_line cr rate_by_clean).

Definition excluded_keywords : list str :=
  [lit "kg"; lit "chargeable"; lit "weight"].

Definition extract_rate_by_column_keyword (rate_by_text : str)
  : option str :=
  if negb (Py.nonempty rate_by_text) then None else
  let rate_by_clean := clean_rate_by rate_by_text in
  if PyStr.isin (lit "/") rate_by_clean then
    let parts := PyStr.split_char "/" rate_by_clean in
    if 2 <=? length parts then
      let keyword := PyStr.lower (PyStr.strip (last parts [])) in
      if Py.nonempty keyword
         && negb (existsb (PyStr.eqb keyword) excluded_keywords)
      then Some keyword
      else None
    else None
  else None.

Definition keyword_mappings : list (str * list str) :=
  [ (lit "ldm",
     [lit "LDM"; lit "ldm"; lit "LOADING_METERS"; lit "loading_meters"]);
    (lit "cbm",
     [lit "CBM"; lit "cbm"; lit "CUBIC_METERS"; lit "cubic_meters";
      lit "VOLUME"]);
    (lit "cdm", [lit "CBM"; lit "cbm"; lit "CDM"; lit "cdm"]);
    (lit "hawb", [lit "HAWB"; lit "hawb"; lit "HOUSE_AWB"]);
    (lit "mawb", [lit "MAWB"; lit "mawb"; lit "MASTER_AWB"]);
    (lit "pieces",
     [lit "PIECES"; lit "pieces"; lit "PCS"; lit "pcs"; lit "QUANTITY"]);
    (lit "pallets", [lit "PALLETS"; lit "pallets"; lit "PALLET_COUNT"]) ].

(** [keyword_mappings.get(keyword.lower(),
                          [keyword, keyword.upper(), keyword.lower()])] *)
Definition possible_columns (keyword : str) : list str :=
  match Py.dict_get (PyStr.lower keyword) keyword_mappings with
  | Some l => l
  | None => [keyword; PyStr.upper keyword; PyStr.lower keyword]
  end.

(** The name test of the inner loop *)
Definition column_matches (col_option col_name : str) : bool :=
  let col_name_lower := Evaluator.underscored col_name in
  let col_option_lower := Evaluator.underscored col_option in
  PyStr.eqb col_name_lower col_option_lower
  || PyStr.isin col_option_lower col_name_lower
  || PyStr.endswith col_name_lower (lit "_" ++ col_option_lower)
  || PyStr.startswith col_name_lower (col_option_lower ++ lit "_").

(** The two nested tests under which the inner loop returns *)
Definition column_hit (col_option : str) (kv : str * pyval) : bool :=
  column_matches col_option (fst kv)
  && (negb (Py.is_none (snd kv)) && negb (Py.is_float_nan (snd kv))).

(** The two nested loops: the first option, in the order of the list,
    for which some entry of the row is a hit; of that option the first
    such entry. *)
Fixpoint first_hit (options : list str) (row : row_data)
  : option (str * pyval) :=
  match options with
  | [] => None
  | col_option :: rest =>
      match find (column_hit col_option) row with
      | Some kv => Some kv
      | None => first_hit rest row
      end
  end.

(** [(column_name, value, found)] *)
Definition find_value_in_etof_columns (rate_by_text : str)
           (etof_row_data : row_data) : option str * pyval * bool :=
  if negb (Py.nonempty etof_row_data) then (None, PNone, false) else
  match extract_rate_by_column_keyword rate_by_text with
  | None => (None, PNone, false)
  | Some keyword =>
      if negb (Py.nonempty keyword) then (None, PNone, false) else
      match first_hit (possible_columns keyword) etof_row_data with
      | Some (col_name, col_value) => (Some col_name, col_value, true)
      | None => (Some keyword, PNone, false)
      end
  end.

(** The test of the loop over the measurements *)
Definition measurement_matches (rate_by_lower meas : str) : bool :=
  let meas_lower := PyStr.lower (PyStr.strip meas) in
  PyStr.eqb meas_lower rate_by_lower
  || PyStr.isin rate_by_lower meas_lower
  || PyStr.isin meas_lower rate_by_lower.

(** The loop [for i, meas in enumerate(measurements)], from index [i] on;
    a match at an index without a unit is passed over. *)
Fixpoint scan_measurements (rate_by_lower : str) (measurements : list str)
         (units : list str) (i : nat) : option (str * str) :=
  match measurements with
  | [] => None
  | meas :: rest =>
      if measurement_matches rate_by_lower meas then
        match nth_error units i with
        | Some u => Some (PyStr.strip meas, PyStr.strip u)
        | None => scan_measurements rate_by_lower rest units (S i)
        end
      else scan_measurements rate_by_lower rest units (S i)
  end.

Section WithRuntime.
Context {rt : PyRuntime}.

(** [(measurement_name, units_value, found)] *)
Definition extract_measurement_value (rate_by_text : str)
           (measurement_str units_measurement_str : pyval)
  : option str * pyval * bool :=
  if negb (Py.truthy measurement_str)
     || negb (Py.truthy units_measurement_str)
  then (None, PNone, false)
  else
    let rate_by_clean := clean_rate_by rate_by_text in
    let rate_by_lower := PyStr.lower rate_by_clean in
    let measurements := PyStr.split_char ";" (Py.to_str measurement_str) in
    let units := PyStr.split_char ";" (Py.to_str units_measurement_str) in
    match scan_measurements rate_by_lower measurements units 0 with
    | Some (meas_clean, units_value) =>
        (Some meas_clean, PStr units_value, true)
    | None => (Some rate_by_clean, PNone, false)
    end.
End WithRuntime.

End RateBy.

(* ================================================================== *)
(** * Weight-tier columns: [parse_weight_range_from_column],
      [find_weight_tiered_price_columns] *)
(* ================================================================== *)

Module TierColumns.
Import Re.

(** [\d+(?:\.\d+)?] *)
Definition number_re : regex :=
  Rep true 1 digit +++ Opt (Chr "." +++ Rep true 1 digit).

(** [r'>(\d+(?:\.\d+)?)'] *)
Definition lower_re : regex := Chr ">" +++ Grp 1 number_re.

(** [r'<=?\s*(\d+(?:\.\d+)?)'] *)
Definition upper_re : regex :=
  Chr "<" +++ Opt (Chr "=") +++ Rep true 0 ws +++ Grp 1 number_re.

(** [(i, columns_list[i])] for [i] in [range(lo, min(hi, len(columns_list)))] *)
Definition window (lo hi : nat) (columns_list : list str)
  : list (nat * str) :=
  firstn (hi - lo)
         (skipn lo (combine (seq 0 (length columns_list)) columns_list)).

Definition is_flat (pt : price_type) : bool :=
  match pt with flat => true | _ => false end.

Definition is_per_unit (pt : price_type) : bool :=
  match pt with per_unit => true | _ => false end.

Section WithRuntime.
Context {rt : PyRuntime}.

(** [float(m.group(1))] when the search found a match *)
Definition bound_of (m : option caps) : py_result (option float) :=
  match m with
  | None => Returns None
  | Some c =>
      match float_of_str (group 1 c) with
      | Some f => Returns (Some f)
      | None => Raises "ValueError"
      end
  end.

(** [(lower_bound, upper_bound)] *)
Definition parse_weight_range_from_column (col_name : str)
  : py_result (option float * option float) :=
  if negb (Py.nonempty col_name) then Returns (None, None) else
  let col_str := PyStr.lower col_name in
  if negb (PyStr.isin (lit "<=") col_str)
     && negb (PyStr.isin (lit "<") col_str)
  then Returns (None, None)
  else
    match bound_of (search false lower_re col_str) with
    | Raises e => Raises e
    | Returns lower_bound =>
        match bound_of (search false upper_re col_str) with
        | Raises e => Raises e
        | Returns (Some upper_bound) =>
            Returns (lower_bound, Some upper_bound)
        | Returns None => Returns (None, None)
        end
    end.

(** The loop of [find_weight_tiered_price_columns] over the window *)
Fixpoint tier_scan (pt : price_type) (w : list (nat * str))
  : py_result (list Tiers.tier) :=
  match w with
  | [] => Returns []
  | (i, col) :: rest =>
      let col_name := PyStr.lower col in
      if is_flat pt && negb (PyStr.isin (lit "flat") col_name)
      then tier_scan pt rest
      else if is_per_unit pt && negb (PyStr.isin (lit "per unit") col_name)
      then tier_scan pt rest
      else
        match parse_weight_range_from_column col with
        | Raises e => Raises e
        | Returns (lower, Some upper) =>
            match tier_scan pt rest with
            | Returns l => Returns ((i, lower, upper) :: l)
            | Raises e => Raises e
            end
        | Returns (_, None) =>
            if is_flat pt && PyStr.isin (lit "flat") col_name
               && negb (PyStr.isin (lit "min") col_name)
               && negb (PyStr.isin (lit "max") col_name)
            then Returns []
            else if is_per_unit pt && PyStr.isin (lit "per unit") col_name
            then Returns []
            else tier_scan pt rest
        end
  end.

Definition find_weight_tiered_price_columns (columns_list : list str)
           (cost_col_idx : nat) (pt : price_type)
  : py_result (list Tiers.tier) :=
  tier_scan pt (window (cost_col_idx + 1) (cost_col_idx + 10) columns_list).
End WithRuntime.

End TierColumns.

(* ================================================================== *)
(** * Sheet names: [clean_sheet_name] *)
(* ================================================================== *)

Module Sheets.

Definition backslash : ascii := ascii_of_nat 92.

(** The class [[\\/*?:\[\]]] *)
Definition invalid_sheet_char (c : ascii) : bool :=
  existsb (Ascii.eqb c) [backslash; "/"; "*"; "?"; ":"; "["; "]"]%char.

Section WithRuntime.
Context {rt : PyRuntime}.

Definition clean_sheet_name (name : pyval) : str :=
  if Py.is_none name || Py.isna name then lit "No Agreement"
  else
    let name := PyStr.strip (Py.to_str name) in
    let name :=
      map (fun c => if invalid_sheet_char c then "_"%char else c) name in
    firstn 31 name.
End WithRuntime.

End Sheets.

(* ================================================================== *)
(** * The price lookup in a rate table: [find_cost_price_in_rate_data] *)
(* ================================================================== *)

(** The rate table is read by position: the cells of a row are in the
    order of the header, and the first column holds the lane.  (A pandas
    frame has one cell per header in every row; a row that is too short
    is outside what pandas can hold, and reading past its end is an
    [IndexError] here.)  The lane column is selected by its label,
    [df_rate_data[lane_col]]: when another column has the same label pandas
    selects a frame, which has no [.str], and the call ends in an
    [AttributeError].  The frame comes with its index, one integer label
    per row: [0, 1, ...] for a frame as it is read from a file, other
    integers once rows were dropped or reordered without [reset_index]. *)
Module RateCard.

(** [df.iloc[label, ...]] with an integer used as a position: counted
    from the start, or from the end when negative; [None] is the
    [IndexError] of a position outside the frame. *)
Definition iloc_row (rows_ : list row_data) (label : Z) : option row_data :=
  let n := Z.of_nat (length rows_) in
  if (0 <=? label)%Z && (label <? n)%Z
  then nth_error rows_ (Z.to_nat label)
  else if (- n <=? label)%Z && (label <? 0)%Z
       then nth_error rows_ (Z.to_nat (n + label))
       else None.

(** The index of a frame as it is read: [RangeIndex(n)] *)
Definition range_index (n : nat) : list Z := map Z.of_nat (seq 0 n).

(** [next(i for i, x in enumerate(l) if p(x))] *)
Fixpoint find_index {A} (p : A -> bool) (l : list A) : option nat :=
  match l with
  | [] => None
  | x :: l' => if p x then Some 0 else option_map S (find_index p l')
  end.

(** What the attempt on the weight-tiered columns gives *)
Inductive tier_pick : Type :=
| Picked (col_idx : nat)
| Exceeds (range_desc : str)
| NoTier.

Section WithRuntime.
Context {rt : PyRuntime}.

(** The row mask: [astype(str).str.strip() == str(lane_number).strip()]
    on the first column *)
Definition lane_row (lane_number : str) (row : row_data) : bool :=
  match row with
  | (_, cell) :: _ =>
      PyStr.eqb (PyStr.strip (Py.to_str cell)) (PyStr.strip lane_number)
  | [] => false
  end.

(** [str(col).strip().lower()] *)
Definition header_key (col : str) : str := PyStr.lower (PyStr.strip col).

(** The four strategies, each a loop [for i, col in enumerate(...)] with
    [break], tried in turn while [cost_col_idx is None] *)
Definition find_cost_column (columns_list : list str) (cost_type : str)
  : option nat :=
  let cost_type_lower := PyStr.lower (PyStr.strip cost_type) in
  let pick (p : str -> bool) :=
    find_index (fun col => Py.nonempty col && p (header_key col))
               columns_list in
  match pick (fun c => PyStr.eqb c cost_type_lower) with
  | Some i => Some i
  | None =>
  match pick (fun c => PyStr.startswith c cost_type_lower) with
  | Some i => Some i
  | None =>
  match pick (fun c => PyStr.startswith cost_type_lower c) with
  | Some i => Some i
  | None =>
      let base_cost_type := CostMatcher.base_name cost_type_lower in
      pick (fun c => PyStr.eqb (CostMatcher.base_name c) base_cost_type)
  end end end.

(** The block that looks for weight-tiered columns of [pt] and selects
    one by the charge weight *)
Definition pick_tier (columns_list : list str) (cost_col_idx : nat)
           (pt : price_type) (charge_weight : pyval)
  : py_result tier_pick :=
  match TierColumns.find_weight_tiered_price_columns
          columns_list cost_col_idx pt with
  | Raises e => Raises e
  | Returns tiered_columns =>
      if Py.nonempty tiered_columns && negb (Py.is_none charge_weight)
      then
        match Tiers.select_price_column_by_weight
                tiered_columns charge_weight with
        | Raises e => Raises e
        | Returns (Some selected_col_idx, _) =>
            Returns (Picked selected_col_idx)
        | Returns (None, Some range_desc) =>
            if Py.nonempty range_desc
               && PyStr.isin (lit "exceeds") range_desc
            then Returns (Exceeds range_desc)
            else Returns NoTier
        | Returns (None, None) => Returns NoTier
        end
      else Returns NoTier
  end.

(** The first column of the window whose lower-cased name passes [p] *)
Definition find_in_window (lo hi : nat) (columns_list : list str)
           (p : str -> bool) : option nat :=
  option_map fst
    (find (fun ic => p (PyStr.lower (snd ic)))
          (TierColumns.window lo hi columns_list)).

Definition exceeds_reason (charge_weight : pyval) (range_desc cost_type : str)
  : str :=
  lit "CHARGE_WEIGHT " ++ Py.to_str charge_weight ++ lit " " ++ range_desc
  ++ lit " for cost '" ++ cost_type ++ lit "'".

(** What the search for the price column ends with: the index, or the
    triple returned at once *)
Definition price_column (columns_list : list str) (cost_col_idx : nat)
           (cost_type : str) (pt : price_type) (charge_weight : pyval)
  : py_result (nat + (pyval * option str * option str)) :=
  let has (w c : str) := PyStr.isin w c in
  match pt with
  | per_unit =>
      match pick_tier columns_list cost_col_idx per_unit charge_weight with
      | Raises e => Raises e
      | Returns (Picked i) => Returns (inl i)
      | Returns (Exceeds d) =>
          Returns (inr (PNone, None,
                        Some (exceeds_reason charge_weight d cost_type)))
      | Returns NoTier =>
          match find_in_window (cost_col_idx + 1) (cost_col_idx + 5)
                  columns_list
                  (fun c => (has (lit "per unit") c || has (lit "price per") c)
                            && negb (has (lit "<") c) && negb (has (lit ">") c)) with
          | Some i => Returns (inl i)
          | None =>
              let not_found :=
                Returns (inr (PNone, None,
                              Some (lit "'Price per unit' column not found for cost '"
                                    ++ cost_type ++ lit "'"))) in
              if Py.is_none charge_weight then not_found
              else
                match pick_tier columns_list cost_col_idx flat
                                charge_weight with
                | Raises e => Raises e
                | Returns (Picked i) => Returns (inl i)
                | Returns (Exceeds d) =>
                    Returns (inr (PNone, None,
                                  Some (exceeds_reason charge_weight d
                                                       cost_type)))
                | Returns NoTier => not_found
                end
          end
      end
  | price_min =>
      match find_in_window (cost_col_idx + 1) (cost_col_idx + 5)
              columns_list
              (fun c => has (lit "min") c || has (lit "flat min") c) with
      | Some i => Returns (inl i)
      | None => Returns (inr (PNone, None, None))
      end
  | price_max =>
      match find_in_window (cost_col_idx + 1) (cost_col_idx + 6)
              columns_list
              (fun c => has (lit "max") c || has (lit "flat max") c) with
      | Some i => Returns (inl i)
      | None => Returns (inr (PNone, None, None))
      end
  | flat =>
      match pick_tier columns_list cost_col_idx flat charge_weight with
      | Raises e => Raises e
      | Returns (Picked i) => Returns (inl i)
      | Returns (Exceeds d) =>
          Returns (inr (PNone, None,
                        Some (exceeds_reason charge_weight d cost_type)))
      | Returns NoTier =>
          if length columns_list <=? cost_col_idx + 1
          then Returns (inr (PNone, None,
                             Some (lit "No price column found after cost '"
                                   ++ cost_type ++ lit "'")))
          else Returns (inl (cost_col_idx + 1))
      end
  end.

Definition empty_price_reason (cost_type lane_number : str) : str :=
  lit "Price value is empty for cost '" ++ cost_type ++ lit "' in lane "
  ++ lane_number.

(** [(price_value, column_name, reason)], the call with
    [return_reason=True]; [index] is [df_rate_data.index].  The row of the
    lane is found by the mask; [row_idx] is its index label
    ([matching_rows.index[0]]), and the cell is then read with [row_idx]
    as a position ([df_rate_data.iloc[row_idx, price_col_idx]]). *)
Definition find_cost_price_in_rate_data (df_rate_data : DataFrame)
           (index : list Z) (lane_number cost_type : str)
           (pt : price_type) (charge_weight : pyval)
  : py_result (pyval * option str * option str) :=
  match columns df_rate_data with
  | [] => Raises "IndexError"
  | lane_col :: others =>
  if existsb (PyStr.eqb lane_col) others then Raises "AttributeError" else
  match find (fun labelled => lane_row lane_number (snd labelled))
             (combine index (rows df_rate_data)) with
  | None =>
      Returns (PNone, None,
               Some (lit "Lane #" ++ lane_number
                     ++ lit " not found in rate data"))
  | Some (row_idx, _) =>
  let columns_list := columns df_rate_data in
  match find_cost_column columns_list cost_type with
  | None =>
      Returns (PNone, None,
               Some (lit "Cost type '" ++ cost_type
                     ++ lit "' not found in rate card columns"))
  | Some cost_col_idx =>
  match price_column columns_list cost_col_idx cost_type pt
                     charge_weight with
  | Raises e => Raises e
  | Returns (inr early) => Returns early
  | Returns (inl price_col_idx) =>
  match iloc_row (rows df_rate_data) row_idx with
  | None => Raises "IndexError"
  | Some row =>
  match nth_error columns_list price_col_idx,
        nth_error row price_col_idx with
  | Some price_col_name, Some (_, price_value) =>
      if Py.is_none price_value || Py.isna price_value
         || PyStr.eqb (PyStr.strip (Py.to_str price_value)) []
      then Returns (PNone, Some price_col_name,
                    Some (empty_price_reason cost_type lane_number))
      else Returns (price_value, Some price_col_name, None)
  | _, _ => Raises "IndexError"
  end end end end end end.

End WithRuntime.

End RateCard.

(* ================================================================== *)
(** * Properties *)
(* ================================================================== *)

(** ** Strings *)

Module PyStrFacts.
Import PyStr.

Lemma eqb_eq (a b : str) : eqb a b = true <-> a = b.
Proof.
  revert b; induction a as [|x a IH]; intros [|y b]; simpl;
    try (split; [discriminate | discriminate]); try tauto.
  rewrite andb_true_iff, Ascii.eqb_eq, IH.
  split; [intros [-> ->]; reflexivity | intros E; inversion E; auto].
Qed.

Lemma eqb_refl (a : str) : eqb a a = true.
Proof. apply eqb_eq; reflexivity. Qed.

Lemma eqb_neq (a b : str) : eqb a b = false <-> a <> b.
Proof.
  rewrite <- eqb_eq. destruct (eqb a b); split; congruence.
Qed.

Lemma startswith_spec (s p : str) :
  startswith s p = true <-> exists r, s = p ++ r.
Proof.
  revert s; induction p as [|x p IH]; intros s; simpl.
  - split; [exists s; reflexivity | destruct s; reflexivity].
  - destruct s as [|y s].
    + split; [discriminate | intros [r E]; discriminate].
    + simpl. rewrite andb_true_iff, Ascii.eqb_eq, IH. split.
      * intros [-> [r ->]]. exists r; reflexivity.
      * intros [r E]. inversion E; subst. split; [reflexivity | eauto].
Qed.

Lemma isin_spec (needle hay : str) :
  isin needle hay = true <-> exists a b, hay = a ++ needle ++ b.
Proof.
  induction hay as [|c hay IH]; cbn [isin].
  - rewrite orb_false_r, startswith_spec. split.
    + intros [r E]. exists [], r. exact E.
    + intros [a [b E]]. destruct a; [exists b; exact E | discriminate].
  - rewrite orb_true_iff, startswith_spec, IH. split.
    + intros [[r E] | [a [b E]]].
      * exists [], r. exact E.
      * exists (c :: a), b. simpl. rewrite E. reflexivity.
    + intros [[|x a] [b E]].
      * left. exists b. exact E.
      * right. inversion E; subst. exists a, b. reflexivity.
Qed.

Lemma lstrip_id (s : str) :
  match s with c :: _ => is_space c = false | [] => True end ->
  lstrip s = s.
Proof. destruct s; simpl; [reflexivity | intros ->; reflexivity]. Qed.

Lemma strip_id (s : str) :
  match s with c :: _ => is_space c = false | [] => True end ->
  match rev s with c :: _ => is_space c = false | [] => True end ->
  strip s = s.
Proof.
  intros H1 H2. unfold strip, rstrip.
  rewrite (lstrip_id s H1), (lstrip_id (rev s) H2). apply rev_involutive.
Qed.

End PyStrFacts.

(** A runtime for the closed examples below.  It prints an integral float
    the way Python does ([45.0]), reads a decimal integer literal, and
    prints a list of plain strings between single quotes; none of the
    examples prints another float or reads another number. *)
Definition plain_digits (s : str) : bool :=
  Py.nonempty s && forallb PyStr.is_digit s.

Definition plain_Z (s : str) : Z :=
  fold_left (fun acc c => (10 * acc + Z.of_nat (PyStr.code c - 48))%Z) s 0%Z.

Definition plain_runtime : PyRuntime := {|
  float_repr f :=
    match Py.int_of_float f with
    | Some z => PyStr.of_Z z ++ lit ".0"
    | None => lit "nan"
    end;
  float_fmt2 f :=
    match Py.int_of_float f with
    | Some z => PyStr.of_Z z ++ lit ".00"
    | None => lit "nan"
    end;
  float_of_str s :=
    let t := PyStr.strip s in
    if plain_digits t then Some (Py.float_of_Z (plain_Z t)) else None;
  list_repr l :=
    lit "[" ++ PyStr.join (lit ", ") (map (fun s => lit "'" ++ s ++ lit "'") l)
    ++ lit "]"
|}.

(** ** C1: MIN is checked before MAX *)

Section MinMax.
Context {rt : PyRuntime}.
Import Engine.






End MinMax.


(** ** The row loop: traces *)

Section Traces.

Lemma fst_bind {A B} (m : traced A) (k : A -> traced B) :
  fst (bind m k) = fst (k (fst m)).
Proof. unfold bind. destruct m as [a t1]. cbn. destruct (k a). reflexivity. Qed.

Lemma snd_bind {A B} (m : traced A) (k : A -> traced B) :
  snd (bind m k) = snd m ++ snd (k (fst m)).
Proof. unfold bind. destruct m as [a t1]. cbn. destruct (k a). reflexivity. Qed.

(** No call of [find_cost_price_in_rate_data] *)
Definition no_price_call (t : list call) : bool :=
  forallb (fun c => negb (is_price_call c)) t.

Lemma no_price_call_app (t1 t2 : list call) :
  no_price_call (t1 ++ t2) = no_price_call t1 && no_price_call t2.
Proof. apply forallb_app. Qed.

End Traces.

(** Collaborators for the closed examples: no accessorial file and no
    price in the rate table. *)
Definition absent_collaborators : Collaborators := {|
  find_cost_price_in_rate_data _ _ _ _ _ := (PNone, None, None);
  get_accessorial_data_for_agreement _ := None;
  extract_measurement_value _ _ _ := (None, PNone, false);
  find_value_in_etof_columns _ _ := (None, PNone, false)
|}.

(** ** C9: a pre-filled comment ends the pass *)

Section CommentPass.
Context {rt : PyRuntime} {ext : Collaborators}.
Import Engine.

(** C9, as the code has it.  When the Comment cell of a mismatch row, read
    as text and stripped of surrounding whitespace, is not empty, the
    Reason is that stripped text; the pass makes no call other than the
    display lookup [get_cost_conditions_for_cost_type] (no cost matching,
    no condition parsing or evaluation, no lane extraction, no multiplier
    or price lookup). *)
Theorem comment_ends_the_pass (L : lookups) (row : row_data) :
  Py.nonempty (existing_comment_of L row) = true ->
  out_reason (fst (process_row L row)) = existing_comment_of L row
  /\ (snd (process_row L row) = []
      \/ snd (process_row L row) = [CallGetCostConditions])
  /\ (forall c, comment_col_mismatch L = Some c -> Py.nonempty c = true ->
        existing_comment_of L row
        = if Py.notna (row_get row (Some c) PNone)
          then PyStr.strip (Py.to_str (row_get row (Some c) (PStr [])))
          else []).
Proof.
  intros H. unfold process_row. rewrite H. unfold comment_pass.
  split; [|split].
  - destruct (resolve_agreement _ _); [|reflexivity].
    rewrite fst_bind. cbn.
    destruct (CostMatcher.get_cost_conditions_for_cost_type _ _) as [[? ?]|];
      reflexivity.
  - destruct (resolve_agreement _ _); [|left; reflexivity].
    right. rewrite snd_bind. cbn.
    destruct (CostMatcher.get_cost_conditions_for_cost_type _ _) as [[? ?]|];
      reflexivity.
  - intros c Hc Hne. unfold existing_comment_of, col_truthy, mismatch_cell.
    rewrite Hc, Hne. reflexivity.
Qed.

End CommentPass.

(** The mismatch sheet of the examples: one row. *)
Definition mismatch_sheet (cost_type etof agreement comment : pyval)
  : DataFrame :=
  {| columns := [lit "Cost Type"; lit "ETOF #"; lit "Carrier Agreement #";
                 lit "Comment"];
     rows := [[(lit "Cost Type", cost_type); (lit "ETOF #", etof);
               (lit "Carrier Agreement #", agreement);
               (lit "Comment", comment)]] |}.

(** The shipment sheet of the examples: one row. *)
Definition shipment_sheet (etof comment : pyval) (more : row_data)
  : DataFrame :=
  {| columns := [lit "ETOF #"; lit "comment"] ++ map fst more;
     rows := [[(lit "ETOF #", etof); (lit "comment", comment)] ++ more] |}.

(** The Reason column of a result *)
Definition reasons_of (df : DataFrame) : list pyval :=
  map (fun row => row_get row (Some (lit "Reason")) PNone) (rows df).

Lemma comment_ends_the_pass_witness :
  let L := @Engine.build_lookups plain_runtime
             (mismatch_sheet (PStr (lit "Pickup Fee")) (PStr (lit "E1"))
                             (PStr (lit "RA1")) (PStr (lit "checked by hand")))
             (shipment_sheet (PStr (lit "E1")) (PStr (lit "Rate lane: 7")) [])
             [] in
  out_reason
    (fst (@Engine.process_row plain_runtime absent_collaborators L
            [(lit "Cost Type", PStr (lit "Pickup Fee"));
             (lit "ETOF #", PStr (lit "E1"));
             (lit "Carrier Agreement #", PStr (lit "RA1"));
             (lit "Comment", PStr (lit "checked by hand"))]))
  = lit "checked by hand".
Proof.
  cbv zeta.
  refine (eq_trans
            (proj1 (@comment_ends_the_pass plain_runtime absent_collaborators
                      _ _ _)) _).
  - vm_compute. reflexivity.
  - vm_compute. reflexivity.
Defined.

(** The Reason is not the Comment cell verbatim: surrounding whitespace is
    stripped. *)
Lemma comment_is_stripped :
  reasons_of
    (@Engine.check_conditions_and_add_reason plain_runtime
       absent_collaborators
       (mismatch_sheet (PStr (lit "Pickup Fee")) (PStr (lit "E1"))
                       (PStr (lit "RA1")) (PStr (lit " ok ")))
       (shipment_sheet (PStr (lit "E1")) (PStr (lit "Rate lane: 7")) [])
       [])
  = [PStr (lit "ok")]
  /\ PyStr.eqb (lit "ok") (lit " ok ") = false.
Proof. vm_compute. split; reflexivity. Qed.

(** ** C10: the display lookup of the comment pass matches by substring *)

(** Cost conditions with the single entry Air DGR Fee *)
Definition air_dgr_conditions : DataFrame :=
  {| columns := [lit "Cost Name"; lit "Rate By"; lit "Applies If"];
     rows := [[(lit "Cost Name", PStr (lit "Air DGR Fee"));
               (lit "Rate By", PStr (lit "PER SHIPMENT"));
               (lit "Applies If", PStr (lit "No condition"))]] |}.

Definition air_dgr_rate_costs : list (str * agreement_data) :=
  [(lit "RA1", {| rate_data := {| columns := [lit "Lane #"]; rows := [] |};
                  cost_conditions := Some air_dgr_conditions |})].

Section CommentLookup.
Context {rt : PyRuntime} {ext : Collaborators}.
Import CostMatcher.

(** C10.  [get_cost_conditions_for_cost_type] returns the first entry whose
    name equals the query case-insensitively; when there is none it returns
    the first entry whose name contains the query or is contained in it.
    The comment pass takes Rate By and Applies If from this lookup, so for
    the query DGR Fee and the single entry Air DGR Fee it shows the
    entry's Rate By and Applies If, although the cost matcher finds no
    candidate for that query. *)
Theorem comment_lookup_matches_by_substring :
  (forall cost_type df cn,
      df_empty df = false ->
      find (fun col => has "cost" (PyStr.lower col)
                       && has "name" (PyStr.lower col)) (columns df)
      = Some cn ->
      let q := PyStr.lower (PyStr.strip cost_type) in
      let name row := PyStr.lower (cost_name_of (Some cn) row) in
      let rb := find (fun col => has "rate" (PyStr.lower col)
                                 && has "by" (PyStr.lower col)) (columns df) in
      let ai := find (fun col => has "applies" (PyStr.lower col)
                                 && has "if" (PyStr.lower col)) (columns df) in
      let out row := (cell_or_empty rb row, cell_or_empty ai row) in
      (forall row, find (fun row => PyStr.eqb (name row) q) (rows df)
                   = Some row ->
                   get_cost_conditions_for_cost_type cost_type (Some df)
                   = Some (out row))
      /\ (find (fun row => PyStr.eqb (name row) q) (rows df) = None ->
          get_cost_conditions_for_cost_type cost_type (Some df)
          = option_map out
              (find (fun row => PyStr.isin q (name row)
                                || PyStr.isin (name row) q) (rows df))))
  /\ get_cost_conditions_for_cost_type (lit "DGR Fee")
       (Some air_dgr_conditions)
     = Some (PStr (lit "PER SHIPMENT"), PStr (lit "No condition"))
  /\ get_all_matching_cost_conditions (lit "DGR Fee")
       (Some air_dgr_conditions) = []
  /\ (let row := [(lit "Cost Type", PStr (lit "DGR Fee"));
                  (lit "ETOF #", PStr (lit "E1"));
                  (lit "Carrier Agreement #", PStr (lit "RA1"));
                  (lit "Comment", PStr (lit "agreed"))] in
      let L := Engine.build_lookups
                 (mismatch_sheet (PStr (lit "DGR Fee")) (PStr (lit "E1"))
                                 (PStr (lit "RA1")) (PStr (lit "agreed")))
                 (shipment_sheet (PStr (lit "E1")) PNone [])
                 air_dgr_rate_costs in
      Engine.process_row L row
      = ({| out_rate_by := lit "PER SHIPMENT";
            out_applies_if := lit "No condition";
            out_reason := lit "agreed" |}, [CallGetCostConditions])).
Proof.
  split; [|split; [|split]].
  - intros cost_type df cn He Hcn q name rb ai out.
    unfold get_cost_conditions_for_cost_type. rewrite He, Hcn.
    fold q. split.
    + intros row Hrow.
      change (find (fun row0 => PyStr.eqb (name row0) q) (rows df)
              = Some row) in Hrow.
      cbv zeta.
      change (match find (fun row0 => PyStr.eqb (name row0) q) (rows df) with
              | Some row0 => Some (out row0)
              | None =>
                  match find (fun row0 => PyStr.isin q (name row0)
                                          || PyStr.isin (name row0) q)
                             (rows df) with
                  | Some row0 => Some (out row0)
                  | None => None
                  end
              end = Some (out row)).
      rewrite Hrow. reflexivity.
    + intros Hnone. cbv zeta.
      change (match find (fun row0 => PyStr.eqb (name row0) q) (rows df) with
              | Some row0 => Some (out row0)
              | None =>
                  match find (fun row0 => PyStr.isin q (name row0)
                                          || PyStr.isin (name row0) q)
                             (rows df) with
                  | Some row0 => Some (out row0)
                  | None => None
                  end
              end
              = option_map out
                  (find (fun row0 => PyStr.isin q (name row0)
                                     || PyStr.isin (name row0) q) (rows df))).
      rewrite Hnone.
      destruct (find _ (rows df)); reflexivity.
  - vm_compute. reflexivity.
  - vm_compute. reflexivity.
  - vm_compute. reflexivity.
Qed.

End CommentLookup.

(** ** C8: several rate lanes *)

Section MultipleLanes.
Context {rt : PyRuntime} {ext : Collaborators}.
Import Engine.

Ltac trace_step :=
  first [ rewrite snd_bind | rewrite fst_bind | rewrite no_price_call_app
        | progress cbn [snd fst calling ret app] ].

Lemma extract_rate_lane_falsy (comment : pyval) :
  Py.truthy comment = false -> Lanes.extract_rate_lane comment = [].
Proof. intros H. unfold Lanes.extract_rate_lane. rewrite H. reflexivity. Qed.

Lemma comment_pass_no_price (L : lookups) (cost_type agreement c : str) :
  no_price_call (snd (comment_pass L cost_type agreement c)) = true.
Proof.
  unfold comment_pass. destruct (resolve_agreement _ _); [|reflexivity].
  repeat trace_step.
  destruct (CostMatcher.get_cost_conditions_for_cost_type _ _) as [[? ?]|];
    reflexivity.
Qed.

Lemma accessorial_fallback_no_price (L : lookups)
      (cost_type agreement etof : str) (data : row_data) :
  no_price_call (snd (accessorial_fallback L cost_type agreement etof data))
  = true.
Proof.
  unfold accessorial_fallback. repeat trace_step.
  destruct (get_accessorial_data_for_agreement agreement); [|reflexivity].
  repeat trace_step.
  destruct (Py.truthy (get_val etof (etof_to_comment L)));
    repeat trace_step;
    destruct (Accessorial.find_best_matching_accessorial_cost _ _ _ _);
    try reflexivity;
    match goal with |- context [if ?b then _ else _] => destruct b end;
    reflexivity.
Qed.

Lemma applies_if_gate_no_price (L : lookups) (applies_if etof : str) :
  no_price_call (snd (applies_if_gate L applies_if etof)) = true.
Proof.
  unfold applies_if_gate.
  match goal with |- context [if ?b then ret (true, None) else _] =>
    destruct b end; [reflexivity|].
  repeat trace_step.
  destruct (Py.nonempty (Parser.parse_applies_if_condition _));
    [|reflexivity].
  destruct (negb (Py.nonempty _)); reflexivity.
Qed.

Lemma resolve_multiplier_no_price (L : lookups) (rate_by etof : str)
      (wb : bool) :
  no_price_call (snd (resolve_multiplier L rate_by etof wb)) = true.
Proof.
  unfold resolve_multiplier. destruct wb; [reflexivity|].
  repeat trace_step.
  destruct (extract_measurement_value _ _ _) as [[mn mv] [|]];
    [reflexivity|].
  repeat trace_step.
  destruct (find_value_in_etof_columns _ _) as [[cn cv] [|]]; reflexivity.
Qed.

(** The lanes of a row's shipment *)
Definition lanes_of (L : lookups) (etof_number : str) : list str :=
  Lanes.extract_rate_lane (get_val etof_number (etof_to_comment L)).

Lemma per_shipment_many_lanes (L : lookups) (use_acc : bool)
      (ap : acc_prices) (df : DataFrame) (cost etof : str) :
  1 < length (lanes_of L etof) ->
  no_price_call (snd (per_shipment_branch L use_acc ap df cost etof)) = true
  /\ (use_acc = false ->
      fst (per_shipment_branch L use_acc ap df cost etof)
      = multiple_lanes_reason (lanes_of L etof)).
Proof.
  unfold lanes_of, per_shipment_branch. intros Hl.
  destruct ap as [[pf ppu] hm].
  destruct use_acc; [split; [reflexivity | discriminate]|].
  destruct (Py.truthy (get_val etof (etof_to_comment L))) eqn:Ht.
  - repeat trace_step.
    destruct (Lanes.extract_rate_lane _) as [|l1 [|l2 ls]];
      cbn in Hl; try lia.
    split; [reflexivity | intros _; reflexivity].
  - rewrite (extract_rate_lane_falsy _ Ht) in Hl. cbn in Hl. lia.
Qed.

Lemma per_unit_many_lanes (L : lookups) (use_acc : bool)
      (ap : acc_prices) (df : DataFrame) (rate_by cost etof : str) :
  1 < length (lanes_of L etof) ->
  no_price_call (snd (per_unit_branch L use_acc ap df rate_by cost etof))
  = true
  /\ (use_acc = false ->
      fst (per_unit_branch L use_acc ap df rate_by cost etof)
      = multiple_lanes_reason (lanes_of L etof)).
Proof.
  unfold lanes_of, per_unit_branch. intros Hl.
  pose proof (resolve_multiplier_no_price L rate_by etof
                (PyStr.isin (lit "weight") (PyStr.lower rate_by)
                 || PyStr.isin (lit "kg") (PyStr.lower rate_by)
                 || PyStr.isin (lit "chargeable") (PyStr.lower rate_by)))
    as Hm.
  destruct (resolve_multiplier _ _ _ _) as [[[mv mn] mr] tm].
  cbn [snd] in Hm.
  repeat trace_step. rewrite Hm. cbn [andb].
  destruct use_acc; [split; [reflexivity | discriminate]|].
  destruct (Py.truthy (get_val etof (etof_to_comment L))) eqn:Ht.
  - repeat trace_step.
    destruct (Lanes.extract_rate_lane _) as [|l1 [|l2 ls]];
      cbn in Hl; try lia.
    split; [reflexivity | intros _; reflexivity].
  - rewrite (extract_rate_lane_falsy _ Ht) in Hl. cbn in Hl. lia.
Qed.

Lemma main_pass_many_lanes_no_price (L : lookups)
      (cost_type etof agreement : str) :
  1 < length (lanes_of L etof) ->
  no_price_call (snd (main_pass L cost_type etof agreement)) = true.
Proof.
  intros Hl. unfold main_pass.
  destruct (resolve_agreement _ _) as [ad|]; [|reflexivity].
  repeat trace_step.
  match goal with
  | |- context [fst ?t] =>
      match t with
      | (if _ then accessorial_fallback _ _ _ _ _ else _) => set (sel := t)
      end
  end.
  assert (Hsel : no_price_call (snd sel) = true).
  { subst sel.
    match goal with |- context [if ?b then _ else _] => destruct b end;
      [apply accessorial_fallback_no_price | reflexivity]. }
  clearbody sel. destruct sel as [acc ta]. cbn [fst snd] in *.
  rewrite Hsel. cbn [andb].
  match goal with |- context [if ?b then ret _ else _] => destruct b end;
    [reflexivity|].
  repeat trace_step. rewrite applies_if_gate_no_price. cbn [andb].
  destruct (applies_if_gate _ _ _) as [[met why] tg]. cbn [fst snd].
  destruct met; cbn [negb]; [|reflexivity].
  repeat trace_step.
  match goal with |- context [if ?b then per_shipment_branch _ _ _ _ _ _
                                else _] => destruct b end.
  - rewrite (proj1 (per_shipment_many_lanes L _ _ _ _ etof Hl)). reflexivity.
  - rewrite (proj1 (per_unit_many_lanes L _ _ _ _ _ etof Hl)). reflexivity.
Qed.

End MultipleLanes.

Section MultipleLanesRow.
Context {rt : PyRuntime} {ext : Collaborators}.
Import Engine.

(** C8, as the code has it.  For a mismatch row whose shipment comment
    yields more than one lane number, the pass never calls
    [find_cost_price_in_rate_data].  When the row is priced from the rate
    card (no existing comment, the agreement resolved, a cost matched in
    its cost conditions with a Rate By or an Applies If, the Applies-If
    gate passed), the Reason is exactly the text listing the lanes joined
    by a comma and a space; lanes 10 and 20 give
    [Multiple rate lanes found (10, 20) - manual check required]. *)
Theorem several_lanes_need_manual_check (L : lookups) (row : row_data) :
  let cost_type := mismatch_cell row (cost_type_col L) in
  let etof := mismatch_cell row (etof_col_mismatch L) in
  let agreement :=
    if col_truthy (agreement_col_mismatch L)
    then mismatch_cell row (agreement_col_mismatch L) else [] in
  let data := match Py.dict_get etof (etof_to_row_data L) with
              | Some r => r | None => [] end in
  1 < length (lanes_of L etof) ->
  no_price_call (snd (process_row L row)) = true
  /\ (forall ad m,
        existing_comment_of L row = [] ->
        resolve_agreement (all_rate_costs L) agreement = Some ad ->
        CostMatcher.find_best_matching_cost cost_type (cost_conditions ad)
                                            data = Some m ->
        Py.nonempty (clean_cell (snd (fst m)))
        || Py.nonempty (clean_cell (snd m)) = true ->
        fst (fst (applies_if_gate L (clean_cell (snd m)) etof)) = true ->
        out_reason (fst (process_row L row))
        = multiple_lanes_reason (lanes_of L etof))
  /\ multiple_lanes_reason [lit "10"; lit "20"]
     = lit "Multiple rate lanes found (10, 20) - manual check required"
  /\ Lanes.extract_rate_lane (PStr (lit "Rate lanes: 10, 20"))
     = [lit "10"; lit "20"].
Proof.
  intros cost_type etof agreement data Hl.
  split; [|split; [|split]].
  - unfold process_row. fold cost_type etof agreement.
    destruct (Py.nonempty (existing_comment_of L row)).
    + apply comment_pass_no_price.
    + apply main_pass_many_lanes_no_price. exact Hl.
  - intros ad m Hc Ha Hb Hne Hgate.
    unfold process_row. fold cost_type etof agreement.
    rewrite Hc. cbn [Py.nonempty]. unfold main_pass. rewrite Ha.
    fold data. rewrite fst_bind. cbn [fst calling]. rewrite Hb.
    cbn [option_map].
    assert (Hsel : negb (Py.nonempty (clean_cell (snd (fst m))))
                   && negb (Py.nonempty (clean_cell (snd m))) = false).
    { destruct (Py.nonempty (clean_cell (snd (fst m))));
        destruct (Py.nonempty (clean_cell (snd m)));
        try reflexivity; discriminate. }
    rewrite fst_bind. rewrite Hsel. cbn [fst ret andb].
    rewrite fst_bind.
    destruct (applies_if_gate L (clean_cell (snd m)) etof) as [[met why] tg].
    cbn [fst] in Hgate. subst met. cbn [fst negb].
    rewrite fst_bind.
    match goal with |- context [if ?b then per_shipment_branch _ _ _ _ _ _
                                  else _] => destruct b end.
    + rewrite (proj2 (per_shipment_many_lanes L false _ _ _ etof Hl) eq_refl).
      reflexivity.
    + rewrite (proj2 (per_unit_many_lanes L false _ _ _ _ etof Hl) eq_refl).
      reflexivity.
  - vm_compute. reflexivity.
  - vm_compute. reflexivity.
Qed.

End MultipleLanesRow.

(** Cost conditions with the single entry Pickup Fee, PER SHIPMENT *)
Definition pickup_conditions : DataFrame :=
  {| columns := [lit "Cost Name"; lit "Rate By"; lit "Applies If"];
     rows := [[(lit "Cost Name", PStr (lit "Pickup Fee"));
               (lit "Rate By", PStr (lit "PER SHIPMENT"));
               (lit "Applies If", PStr (lit "No condition"))]] |}.

Definition pickup_row : row_data :=
  [(lit "Cost Type", PStr (lit "Pickup Fee")); (lit "ETOF #", PStr (lit "E1"));
   (lit "Carrier Agreement #", PStr (lit "RA1"));
   (lit "Comment", PFloat nan)].

Definition two_lane_shipments : DataFrame :=
  shipment_sheet (PStr (lit "E1")) (PStr (lit "Rate lanes: 10, 20")) [].

Lemma several_lanes_need_manual_check_witness :
  let L := @Engine.build_lookups plain_runtime
             (mismatch_sheet (PStr (lit "Pickup Fee")) (PStr (lit "E1"))
                             (PStr (lit "RA1")) (PFloat nan))
             two_lane_shipments
             [(lit "RA1",
               {| rate_data := {| columns := [lit "Lane #"]; rows := [] |};
                  cost_conditions := Some pickup_conditions |})] in
  out_reason
    (fst (@Engine.process_row plain_runtime absent_collaborators L pickup_row))
  = lit "Multiple rate lanes found (10, 20) - manual check required".
Proof.
  cbv zeta.
  refine (eq_trans
            (proj1 (proj2 (@several_lanes_need_manual_check
                             plain_runtime absent_collaborators _ pickup_row
                             _))
                   _ _ _ _ _ _ _) _).
  - vm_compute. lia.
  - vm_compute. reflexivity.
  - vm_compute. reflexivity.
  - vm_compute. reflexivity.
  - vm_compute. reflexivity.
  - vm_compute. reflexivity.
  - vm_compute. reflexivity.
Defined.

(** An agreement whose rate card has no cost conditions and whose
    accessorial file prices Pickup Fee at 45 flat for every lane. *)
Definition pickup_accessorial : Collaborators := {|
  find_cost_price_in_rate_data _ _ _ _ _ := (PNone, None, None);
  get_accessorial_data_for_agreement _ :=
    Some {| columns := [lit "Cost Name"; lit "Rate By"; lit "Price Flat"];
            rows := [[(lit "Cost Name", PStr (lit "Pickup Fee"));
                      (lit "Rate By", PStr (lit "PER SHIPMENT"));
                      (lit "Price Flat", PInt 45)]] |};
  extract_measurement_value _ _ _ := (None, PNone, false);
  find_value_in_etof_columns _ _ := (None, PNone, false)
|}.

(** Two lanes, and yet a priced Reason: the accessorial fallback is
    called with no lane number and prices the row; a row with an existing
    comment keeps its comment. *)
Lemma several_lanes_priced_from_accessorial :
  @Lanes.extract_rate_lane plain_runtime (PStr (lit "Rate lanes: 10, 20"))
  = [lit "10"; lit "20"]
  /\ reasons_of
       (@Engine.check_conditions_and_add_reason plain_runtime
          pickup_accessorial
          (mismatch_sheet (PStr (lit "Pickup Fee")) (PStr (lit "E1"))
                          (PStr (lit "RA1")) (PFloat nan))
          two_lane_shipments
          [(lit "RA1",
            {| rate_data := {| columns := [lit "Lane #"]; rows := [] |};
               cost_conditions := None |})])
     = [PStr (lit "The cost is pre-calculated by rate card (accessorial) - 45.0 flat.")]
  /\ reasons_of
       (@Engine.check_conditions_and_add_reason plain_runtime
          absent_collaborators
          (mismatch_sheet (PStr (lit "Pickup Fee")) (PStr (lit "E1"))
                          (PStr (lit "RA1")) (PStr (lit "agreed")))
          two_lane_shipments
          [(lit "RA1",
            {| rate_data := {| columns := [lit "Lane #"]; rows := [] |};
               cost_conditions := Some pickup_conditions |})])
     = [PStr (lit "agreed")].
Proof. vm_compute. repeat split; reflexivity. Qed.

(** ** C2: weight tiers *)

Module FloatFacts.




End FloatFacts.

Section TierSelection.
Context {rt : PyRuntime}.
Import Tiers.

Lemma In_insert_tier (t x : tier) (l : list tier) :
  In x (insert_tier t l) <-> x = t \/ In x l.
Proof.
  induction l as [|y l IH]; cbn.
  - split; intros [H|H]; auto.
  - destruct (tier_upper y <? tier_upper t)%float; cbn.
    + rewrite IH. split; intros H; intuition auto.
    + split; intros H; intuition auto.
Qed.

Lemma In_sorted_tiers (x : tier) (l : list tier) :
  In x (sorted_tiers l) <-> In x l.
Proof.
  induction l as [|y l IH]; cbn; [tauto|].
  rewrite In_insert_tier, IH. split; intros [H|H]; auto.
Qed.




(** The three tiers of the specification's example, in columns 5, 6, 7 *)
Definition example_tiers : list tier :=
  [(5, None, 200%float); (6, Some 200%float, 500%float);
   (7, Some 500%float, 1000%float)].


(** An integer charge weight beyond the float range: [float()] raises
    [OverflowError], which [select_price_column_by_weight] does not
    catch. *)
Example oversize_weight_overflows :
  select_price_column_by_weight example_tiers (PInt (10 ^ 400))
  = Raises "OverflowError".
Proof. vm_compute. reflexivity. Qed.

End TierSelection.

(** ** C7: a condition on a column the shipment does not have *)

Section UnresolvedColumn.
Context {rt : PyRuntime}.
Import Evaluator.

(** The synonyms the fixed table gives for a condition's column name *)
Definition synonyms (column_name : str) : list str :=
  if Py.nonempty (mapping_get (PyStr.lower column_name))
  then mapping_get (PyStr.lower column_name)
  else mapping_get (underscored column_name).

Lemma first_mapped_none (ms : list str) (row : row_data) :
  first_mapped ms row = None
  <-> forall m kv, In m ms -> In kv row -> mapped_match m kv = false.
Proof.
  induction ms as [|m ms IH]; cbn.
  - split; [intros _ m kv [] | reflexivity].
  - destruct (find (mapped_match m) row) as [kv|] eqn:Hf.
    + split; [discriminate|]. intros H. apply find_some in Hf.
      destruct Hf as [Hin Hm]. rewrite (H m kv) in Hm; auto. discriminate.
    + rewrite IH. split.
      * intros H m' kv [<-|Hin] Hkv; [|auto].
        apply (find_none _ _ Hf kv Hkv).
      * intros H m' kv Hin Hkv. apply H; auto.
Qed.

Lemma find_none_iff {A} (f : A -> bool) (l : list A) :
  find f l = None <-> forall x, In x l -> f x = false.
Proof.
  split; [apply find_none|].
  induction l as [|x l IH]; [reflexivity|]. intros H. cbn.
  rewrite (H x (or_introl eq_refl)). apply IH. intros y Hy. apply H. right.
  exact Hy.
Qed.

Lemma check_one_unresolved (c : condition) (etof : str) (row : row_data) :
  resolve_column (fst (fst c)) row = None ->
  check_one c etof row = Some (not_found_reason (fst (fst c)) etof).
Proof.
  destruct c as [[name kind] vals]. cbn [fst]. intros H.
  unfold check_one. rewrite H. reflexivity.
Qed.

(** C7, as the code has it.  A column name resolves to no key of the row
    exactly when no key matches one of its synonyms and no key passes the
    standard test (equality up to case, spaces, hyphens and underscores,
    or containment either way).  If some condition of the list names such
    a column, the evaluator returns not-satisfied.  The conditions are
    checked in order and the first failure is reported: when every
    condition before the unresolved one is satisfied, the reason is the
    column-not-found text for it. *)
Theorem unresolved_column_is_not_met :
  (forall name row,
      resolve_column name row = None
      <-> (forall m kv, In m (synonyms name) -> In kv row ->
                        mapped_match m kv = false)
          /\ (forall kv, In kv row -> standard_match name kv = false))
  /\ (forall conditions etof row,
        (exists c, In c conditions
                   /\ resolve_column (fst (fst c)) row = None) ->
        fst (check_applies_if_condition conditions etof row) = false)
  /\ (forall before c after etof row,
        fst (check_applies_if_condition before etof row) = true ->
        resolve_column (fst (fst c)) row = None ->
        check_applies_if_condition (before ++ c :: after) etof row
        = (false, Some (not_found_reason (fst (fst c)) etof)))
  /\ check_applies_if_condition
       [(lit "A", equals, [lit "x"]); (lit "B", equals, [lit "y"])]
       (lit "E1") [(lit "A", PStr (lit "x"))]
     = (false,
        Some (lit "Column 'B' not found in shipment data for ETOF E1")).
Proof.
  split; [|split; [|split]].
  - intros name row. unfold resolve_column. fold (synonyms name).
    rewrite <- first_mapped_none, <- find_none_iff.
    destruct (first_mapped (synonyms name) row); split.
    + discriminate.
    + intros [H _]. discriminate.
    + auto.
    + intros [_ H]. exact H.
  - intros conditions etof row [c [Hin Hres]].
    induction conditions as [|c' cs IH]; [destruct Hin|].
    cbn [check_applies_if_condition].
    destruct Hin as [->|Hin].
    + rewrite (check_one_unresolved c etof row Hres). reflexivity.
    + destruct (check_one c' etof row); [reflexivity | auto].
  - intros before c after etof row Hb Hres.
    induction before as [|b bs IH]; cbn [app check_applies_if_condition].
    + rewrite (check_one_unresolved c etof row Hres). reflexivity.
    + cbn [check_applies_if_condition] in Hb.
      destruct (check_one b etof row); [discriminate | auto].
  - vm_compute. reflexivity.
Qed.

End UnresolvedColumn.

(** The second condition names a column the row does not have, and the
    reason returned is that of the first condition, which fails. *)
Lemma unresolved_column_not_reported :
  Evaluator.resolve_column (lit "B") [(lit "A", PStr (lit "z"))] = None
  /\ @Evaluator.check_applies_if_condition plain_runtime
       [(lit "A", equals, [lit "x"]); (lit "B", equals, [lit "y"])]
       (lit "E1") [(lit "A", PStr (lit "z"))]
     = (false,
        Some (lit "Applies If not met: A is 'z', expected one of ['x']")).
Proof. vm_compute. split; reflexivity. Qed.

(** ** C4: choosing among several candidates *)

Section Disambiguation.
Context {rt : PyRuntime}.
Import CostMatcher.

Lemma max_by_spec {A} (key : A -> nat) (l : list A) (best : A) :
  In (max_by key best l) (best :: l)
  /\ forall x, In x (best :: l) -> key x <= key (max_by key best l).
Proof.
  revert best. induction l as [|y l IH]; intros best; cbn [max_by].
  - split; [left; reflexivity | intros x [<-|[]]; lia].
  - specialize (IH (if key best <? key y then y else best)).
    destruct IH as [Hin Hmax]. split.
    + destruct Hin as [E|Hin]; [|right; right; exact Hin].
      rewrite <- E. destruct (key best <? key y); [right; left|left];
        reflexivity.
    + intros x [E|[E|Hx]].
      * subst x. specialize (Hmax _ (or_introl eq_refl)).
        destruct (key best <? key y) eqn:E; [|exact Hmax].
        apply Nat.ltb_lt in E. lia.
      * subst x. specialize (Hmax _ (or_introl eq_refl)).
        destruct (key best <? key y) eqn:E; [exact Hmax|].
        apply Nat.ltb_ge in E. lia.
      * apply Hmax. right. exact Hx.
Qed.

Lemma min_by_spec {A} (key : A -> nat) (l : list A) (best : A) :
  In (min_by key best l) (best :: l)
  /\ forall x, In x (best :: l) -> key (min_by key best l) <= key x.
Proof.
  revert best. induction l as [|y l IH]; intros best; cbn [min_by].
  - split; [left; reflexivity | intros x [<-|[]]; lia].
  - specialize (IH (if key y <? key best then y else best)).
    destruct IH as [Hin Hmin]. split.
    + destruct Hin as [E|Hin]; [|right; right; exact Hin].
      rewrite <- E. destruct (key y <? key best); [right; left|left];
        reflexivity.
    + intros x [E|[E|Hx]].
      * subst x. specialize (Hmin _ (or_introl eq_refl)).
        destruct (key y <? key best) eqn:E; [|exact Hmin].
        apply Nat.ltb_lt in E. lia.
      * subst x. specialize (Hmin _ (or_introl eq_refl)).
        destruct (key y <? key best) eqn:E; [exact Hmin|].
        apply Nat.ltb_ge in E. lia.
      * apply Hmin. right. exact Hx.
Qed.

(** The candidate has a parsed condition and the row satisfies it. *)
Definition satisfied (row : row_data) (m : cost_entry) : bool :=
  let parsed := Parser.parse_applies_if_condition (snd m) in
  Py.nonempty parsed && Py.nonempty row
  && fst (Evaluator.check_applies_if_condition parsed (lit "check") row).

(** The candidate goes to the fallback list: it has no parseable
    condition, or there is no shipment row to check it against. *)
Definition unchecked (row : row_data) (m : cost_entry) : bool :=
  negb (Py.nonempty (Parser.parse_applies_if_condition (snd m)))
  || negb (Py.nonempty row).

Lemma classify_spec (l : list cost_entry) (row : row_data) :
  classify l row = (filter (satisfied row) l, filter (unchecked row) l).
Proof.
  induction l as [|m l IH]; [reflexivity|].
  cbn [classify filter]. rewrite IH. unfold satisfied, unchecked.
  destruct (Py.nonempty (Parser.parse_applies_if_condition (snd m)));
    cbn [negb andb orb]; [|reflexivity].
  destruct (Py.nonempty row); cbn [negb andb orb]; [|reflexivity].
  destruct (fst (Evaluator.check_applies_if_condition _ _ _)); reflexivity.
Qed.

(** C4, as the code has it.  With at least two candidates: if some
    candidate has a parsed condition that the shipment row satisfies, the
    result is such a candidate with a name of greatest length; otherwise,
    if the fallback list is not empty, the result is one of its
    candidates with a name of least length, where the fallback list holds
    the candidates without a parseable condition and, when the shipment
    row is empty, every candidate; otherwise the result is the first
    candidate.  With a non-empty row the fallback list is exactly the
    candidates without a parseable condition. *)
Theorem disambiguation_rule (cost_type : str) (df : option DataFrame)
        (row : row_data) (first second : cost_entry)
        (rest : list cost_entry) :
  get_all_matching_cost_conditions cost_type df = first :: second :: rest ->
  let all := first :: second :: rest in
  let met := filter (satisfied row) all in
  let fallback := filter (unchecked row) all in
  let result := find_best_matching_cost cost_type df row in
  (met <> [] ->
     exists m, result = Some m /\ In m met
               /\ forall m', In m' met -> name_len m' <= name_len m)
  /\ (met = [] -> fallback <> [] ->
        exists m, result = Some m /\ In m fallback
                  /\ forall m', In m' fallback -> name_len m <= name_len m')
  /\ (met = [] -> fallback = [] -> result = Some first)
  /\ (row <> [] ->
        forall m, unchecked row m = true
                  <-> Parser.parse_applies_if_condition (snd m) = [])
  /\ (row = [] -> fallback = all).
Proof.
  intros Hall all met fallback result.
  assert (R : result
              = match met, fallback with
                | m :: met', _ => Some (max_by name_len m met')
                | [], m :: w => Some (min_by name_len m w)
                | [], [] => Some first
                end).
  { unfold result, find_best_matching_cost. rewrite Hall.
    rewrite classify_spec. subst met fallback all.
    destruct (filter (satisfied row) (first :: second :: rest));
      [destruct (filter (unchecked row) (first :: second :: rest))|];
      reflexivity. }
  split; [|split; [|split; [|split]]].
  - intros Hne. rewrite R. destruct met as [|m met']; [congruence|].
    destruct (max_by_spec name_len met' m) as [Hin Hmax]. eauto.
  - intros Hm Hne. rewrite R, Hm. destruct fallback as [|m w]; [congruence|].
    destruct (min_by_spec name_len w m) as [Hin Hmin]. eauto.
  - intros Hm Hf. rewrite R, Hm, Hf. reflexivity.
  - intros Hrow m. unfold unchecked.
    destruct row; [congruence|]. cbn [Py.nonempty negb]. rewrite orb_false_r.
    destruct (Parser.parse_applies_if_condition (snd m)); cbn;
      split; congruence.
  - intros ->. unfold fallback, unchecked. cbn [Py.nonempty negb].
    clear. induction all as [|m l IH]; [reflexivity|].
    cbn [filter]. rewrite orb_true_r, IH. reflexivity.
Qed.

End Disambiguation.

(** Two entries match the query Fee: the longer one has no condition, the
    shorter one has a condition on the column X. *)
Definition fee_conditions : DataFrame :=
  {| columns := [lit "Cost Name"; lit "Rate By"; lit "Applies If"];
     rows := [[(lit "Cost Name", PStr (lit "Fee Special"));
               (lit "Rate By", PStr (lit "PER SHIPMENT"));
               (lit "Applies If", PStr (lit "No condition"))];
              [(lit "Cost Name", PStr (lit "Fee"));
               (lit "Rate By", PStr (lit "PER SHIPMENT"));
               (lit "Applies If", PStr (lit "1. X equals 'a'"))]] |}.

Definition fee_special : CostMatcher.cost_entry :=
  (lit "Fee Special", PStr (lit "PER SHIPMENT"), PStr (lit "No condition")).

Definition fee_plain : CostMatcher.cost_entry :=
  (lit "Fee", PStr (lit "PER SHIPMENT"), PStr (lit "1. X equals 'a'")).

(** The row satisfies the condition of Fee: Fee is chosen. *)
Lemma disambiguation_rule_witness :
  @CostMatcher.find_best_matching_cost plain_runtime (lit "Fee")
     (Some fee_conditions) [(lit "X", PStr (lit "a"))]
  = Some fee_plain.
Proof.
  destruct (proj1 (@disambiguation_rule plain_runtime (lit "Fee")
                     (Some fee_conditions) [(lit "X", PStr (lit "a"))]
                     fee_special fee_plain [] eq_refl))
    as [m [Hres [Hin _]]].
  - vm_compute. discriminate.
  - rewrite Hres. vm_compute in Hin. destruct Hin as [<-|[]]. reflexivity.
Defined.

(** With no shipment row, no condition is satisfied and Fee Special is the
    only candidate without a parseable condition, yet the result is Fee,
    whose condition parses. *)
Lemma conditioned_candidate_chosen_without_row :
  map (fun m => fst (fst m))
      (@CostMatcher.get_all_matching_cost_conditions plain_runtime
         (lit "Fee") (Some fee_conditions))
  = [lit "Fee Special"; lit "Fee"]
  /\ @Parser.parse_applies_if_condition plain_runtime (snd fee_special) = []
  /\ @Parser.parse_applies_if_condition plain_runtime (snd fee_plain)
     = [(lit "X", equals, [lit "a"])]
  /\ @CostMatcher.find_best_matching_cost plain_runtime (lit "Fee")
       (Some fee_conditions) []
     = Some fee_plain.
Proof. vm_compute. repeat split; reflexivity. Qed.

(** ** The regular-expression matcher *)

Module ReFacts.
Import Re.

Lemma in_tails (p : ascii -> bool) (s t : str) :
  In t (tails p s) <-> exists pre, s = pre ++ t /\ forallb p pre = true.
Proof.
  induction s as [|c s IH]; cbn [tails In].
  - split.
    + intros [<-|[]]. exists []. auto.
    + intros [pre [E _]]. symmetry in E. apply app_eq_nil in E.
      left. symmetry. tauto.
  - split.
    + intros [<-|H].
      * exists []. auto.
      * destruct (p c) eqn:Hc; [|destruct H].
        apply IH in H. destruct H as [pre [-> Hp]].
        exists (c :: pre). cbn. rewrite Hc, Hp. auto.
    + intros [[|x pre] [E Hp]].
      * left. exact E.
      * right. cbn in E, Hp. inversion E; subst.
        apply andb_true_iff in Hp. destruct Hp as [Hc Hp]. rewrite Hc.
        apply IH. eauto.
Qed.

Lemma in_skipn_tails (p : ascii -> bool) (lo : nat) (s t : str) :
  In t (skipn lo (tails p s))
  <-> exists pre, s = pre ++ t /\ forallb p pre = true /\ lo <= length pre.
Proof.
  revert s. induction lo as [|lo IH]; intros s.
  - cbn [skipn]. rewrite in_tails. split.
    + intros [pre [E Hp]]. exists pre. repeat split; auto. lia.
    + intros [pre [E [Hp _]]]. eauto.
  - destruct s as [|c s]; cbn [tails skipn].
    + split.
      * destruct lo; intros [].
      * intros [pre [E [_ Hl]]]. symmetry in E. apply app_eq_nil in E.
        destruct E as [-> _]. cbn in Hl. lia.
    + destruct (p c) eqn:Hc.
      * rewrite IH. split.
        -- intros [pre [-> [Hp Hl]]]. exists (c :: pre). cbn.
           rewrite Hc, Hp. repeat split; auto. lia.
        -- intros [[|x pre] [E [Hp Hl]]]; [cbn in Hl; lia|].
           cbn in E, Hp, Hl. inversion E; subst.
           apply andb_true_iff in Hp. exists pre. repeat split; try tauto.
           lia.
      * split.
        -- destruct lo; intros [].
        -- intros [[|x pre] [E [Hp Hl]]]; [cbn in Hl; lia|].
           cbn in E, Hp. inversion E; subst. rewrite Hc in Hp. discriminate.
Qed.

Lemma in_run_rep (ic g : bool) (lo : nat) (p : ascii -> bool)
      (s : str) (c : caps) (rest : str) :
  In (c, rest) (run ic (Rep g lo p) s)
  <-> c = [] /\ exists pre, s = pre ++ rest /\ forallb p pre = true
                            /\ lo <= length pre.
Proof.
  cbn [run]. rewrite in_map_iff. split.
  - intros [t [E H]]. inversion E; subst. split; [reflexivity|].
    apply in_skipn_tails. destruct g; [apply in_rev in H|]; exact H.
  - intros [-> H]. exists rest. split; [reflexivity|].
    apply in_skipn_tails in H. destruct g; [apply -> in_rev|]; exact H.
Qed.

Lemma in_run_seq (ic : bool) (r1 r2 : regex) (s : str) (c : caps)
      (rest : str) :
  In (c, rest) (run ic (Seq r1 r2) s)
  <-> exists c1 mid c2, In (c1, mid) (run ic r1 s)
                        /\ In (c2, rest) (run ic r2 mid) /\ c = c1 ++ c2.
Proof.
  cbn [run]. rewrite in_flat_map. split.
  - intros [[c1 mid] [H1 H2]]. apply in_map_iff in H2.
    destruct H2 as [[c2 rest'] [E H2]]. cbn in E. inversion E; subst.
    exists c1, mid, c2. auto.
  - intros [c1 [mid [c2 [H1 [H2 ->]]]]]. exists (c1, mid). split; [exact H1|].
    apply in_map_iff. exists (c2, rest). auto.
Qed.

Lemma in_run_chr (ic : bool) (x : ascii) (s : str) (c : caps) (rest : str) :
  In (c, rest) (run ic (Chr x) s)
  <-> c = [] /\ exists y, s = y :: rest /\ chr_eq ic x y = true.
Proof.
  cbn [run]. destruct s as [|y s].
  - split; [intros [] | intros [_ [y [E _]]]; discriminate].
  - destruct (chr_eq ic x y) eqn:E; cbn [In].
    + split.
      * intros [H|[]]. inversion H; subst. eauto.
      * intros [-> [y' [H _]]]. inversion H; subst. left. reflexivity.
    + split; [intros [] | intros [_ [y' [H H']]]].
      inversion H; subst. congruence.
Qed.

Lemma in_run_opt (ic : bool) (r : regex) (s : str) (m : caps * str) :
  In m (run ic (Opt r) s) <-> In m (run ic r s) \/ m = ([], s).
Proof.
  cbn [run]. rewrite in_app_iff. cbn [In]. split.
  - intros [H|[H|[]]]; [left; exact H | right; symmetry; exact H].
  - intros [H|H]; [left; exact H | right; left; symmetry; exact H].
Qed.

Lemma in_run_grp (ic : bool) (n : nat) (r : regex) (s : str) (c : caps)
      (rest : str) :
  In (c, rest) (run ic (Grp n r) s)
  <-> exists c', In (c', rest) (run ic r s)
                 /\ c = (n, firstn (length s - length rest) s) :: c'.
Proof.
  cbn [run]. rewrite in_map_iff. split.
  - intros [[c' rest'] [E H]]. cbn in E. inversion E; subst. eauto.
  - intros [c' [H ->]]. exists (c', rest). auto.
Qed.

(** What a match leaves is a suffix of the input. *)
Lemma run_suffix (ic : bool) (r : regex) :
  forall s c rest, In (c, rest) (run ic r s) -> exists pre, s = pre ++ rest.
Proof.
  induction r as [|x|p|g lo p|r1 IH1 r2 IH2|r IH|n r IH|]; intros s c rest H.
  - cbn in H. destruct H as [H|[]]. inversion H. exists []. reflexivity.
  - apply in_run_chr in H. destruct H as [_ [y [-> _]]]. exists [y].
    reflexivity.
  - destruct s as [|y s]; cbn [run] in H; [destruct H|].
    destruct (p y); [|destruct H]. destruct H as [H|[]]. inversion H.
    exists [y]. reflexivity.
  - apply in_run_rep in H. destruct H as [_ [pre [-> _]]]. eauto.
  - apply in_run_seq in H. destruct H as [c1 [mid [c2 [H1 [H2 _]]]]].
    apply IH1 in H1. apply IH2 in H2. destruct H1 as [p1 ->].
    destruct H2 as [p2 ->]. exists (p1 ++ p2). rewrite app_assoc. reflexivity.
  - apply in_run_opt in H. destruct H as [H|H]; [eauto|].
    inversion H. exists []. reflexivity.
  - apply in_run_grp in H. destruct H as [c' [H _]]. eauto.
  - destruct s as [|y [|z s]]; cbn [run] in H.
    + destruct H as [H|[]]. inversion H. exists []. reflexivity.
    + destruct (Ascii.eqb y newline); [|destruct H].
      destruct H as [H|[]]. inversion H. exists []. reflexivity.
    + destruct H.
Qed.

Lemma firstn_consumed (pre rest : str) :
  firstn (length (pre ++ rest) - length rest) (pre ++ rest) = pre.
Proof.
  rewrite length_app. replace (length pre + length rest - length rest)
    with (length pre) by lia.
  rewrite firstn_app, Nat.sub_diag, firstn_all. cbn. apply app_nil_r.
Qed.

(** The literal text [l], compared character by character *)
Fixpoint same_text (ic : bool) (l pre : str) : bool :=
  match l, pre with
  | [], [] => true
  | x :: l', y :: pre' => chr_eq ic x y && same_text ic l' pre'
  | _, _ => false
  end.

Lemma in_run_chars (ic : bool) (l : str) :
  forall s c rest,
    In (c, rest) (run ic (chars l) s)
    <-> c = [] /\ exists pre, s = pre ++ rest /\ same_text ic l pre = true.
Proof.
  induction l as [|x l IH]; intros s c rest.
  - cbn. split.
    + intros [H|[]]. inversion H. split; [reflexivity|]. exists []. auto.
    + intros [-> [[|y pre] [E H]]]; [|discriminate]. left. rewrite E.
      reflexivity.
  - destruct l as [|x' l].
    + cbn [chars]. rewrite in_run_chr. split.
      * intros [-> [y [-> H]]]. split; [reflexivity|]. exists [y]. cbn.
        rewrite H. auto.
      * intros [-> [[|y [|z pre]] [E H]]]; cbn in E, H; try discriminate.
        -- split; [reflexivity|]. exists y.
           rewrite andb_true_r in H. split; [exact E | exact H].
        -- rewrite andb_false_r in H. discriminate.
    + change (chars (x :: x' :: l)) with (Seq (Chr x) (chars (x' :: l))).
      rewrite in_run_seq. split.
      * intros [c1 [mid [c2 [H1 [H2 ->]]]]].
        apply in_run_chr in H1. destruct H1 as [-> [y [-> Hy]]].
        apply IH in H2. destruct H2 as [-> [pre [-> Hp]]].
        split; [reflexivity|]. exists (y :: pre).
        split; [reflexivity|]. cbn [same_text]. rewrite Hy. exact Hp.
      * intros [-> [[|y pre] [E H]]]; [discriminate|].
        cbn [same_text] in H. apply andb_true_iff in H.
        destruct H as [Hy Hp]. subst s.
        exists [], (pre ++ rest), []. split; [|split; [|reflexivity]].
        -- apply in_run_chr. split; [reflexivity|]. exists y.
           split; [reflexivity | exact Hy].
        -- apply IH. split; [reflexivity|]. exists pre.
           split; [reflexivity | exact Hp].
Qed.

Lemma rmatch_in (ic : bool) (r : regex) (s : str) (c : caps) :
  rmatch ic r s = Some c -> exists rest, In (c, rest) (run ic r s).
Proof.
  unfold rmatch. destruct (run ic r s) as [|[c' rest] l]; [discriminate|].
  intros H. inversion H; subst. exists rest. left. reflexivity.
Qed.

Lemma rmatch_none (ic : bool) (r : regex) (s : str) :
  run ic r s = [] -> rmatch ic r s = None.
Proof. unfold rmatch. intros ->. reflexivity. Qed.

Lemma same_text_lower (l pre : str) :
  same_text true l pre = true -> PyStr.lower pre = PyStr.lower l.
Proof.
  revert pre. induction l as [|x l IH]; intros [|y pre]; cbn [same_text];
    try discriminate; [reflexivity|].
  intros H. apply andb_true_iff in H. destruct H as [Hy Hp].
  unfold chr_eq in Hy. apply Ascii.eqb_eq in Hy.
  unfold PyStr.lower. cbn [map]. rewrite <- Hy. f_equal. apply IH. exact Hp.
Qed.

Lemma lower_app (a b : str) :
  PyStr.lower (a ++ b) = PyStr.lower a ++ PyStr.lower b.
Proof. apply map_app. Qed.

(** [x] occurs in [y] as a block of consecutive characters. *)
Definition infix (x y : str) : Prop := exists a b, y = a ++ x ++ b.

Lemma infix_refl (x : str) : infix x x.
Proof. exists [], []. cbn. rewrite app_nil_r. reflexivity. Qed.

Lemma infix_trans (x y z : str) : infix x y -> infix y z -> infix x z.
Proof.
  intros [a [b ->]] [a' [b' ->]]. exists (a' ++ a), (b ++ b').
  rewrite !app_assoc. reflexivity.
Qed.

Lemma isin_infix (stem x y : str) :
  infix x y -> PyStr.isin stem (PyStr.lower x) = true ->
  PyStr.isin stem (PyStr.lower y) = true.
Proof.
  intros [a [b ->]] H. apply PyStrFacts.isin_spec in H.
  destruct H as [u [w E]]. apply PyStrFacts.isin_spec.
  exists (PyStr.lower a ++ u), (w ++ PyStr.lower b).
  rewrite !lower_app, E, !app_assoc. reflexivity.
Qed.

Lemma lstrip_suffix (s : str) : exists a, s = a ++ PyStr.lstrip s.
Proof.
  induction s as [|c s [a IH]]; cbn.
  - exists []. reflexivity.
  - destruct (PyStr.is_space c).
    + exists (c :: a). cbn. rewrite <- IH. reflexivity.
    + exists []. reflexivity.
Qed.

Lemma strip_infix (s : str) : infix (PyStr.strip s) s.
Proof.
  unfold PyStr.strip, PyStr.rstrip.
  destruct (lstrip_suffix s) as [a Ha].
  destruct (lstrip_suffix (rev (PyStr.lstrip s))) as [b Hb].
  exists a, (rev b).
  rewrite Ha at 1. f_equal.
  rewrite <- rev_app_distr, <- Hb, rev_involutive. reflexivity.
Qed.

(** *** A word the text must contain for a pattern to match *)

Definition needs (stem : str) (r : regex) : Prop :=
  forall s c rest,
    In (c, rest) (run true r s) -> PyStr.isin stem (PyStr.lower s) = true.

Lemma needs_seq_r (stem : str) (r1 r2 : regex) :
  needs stem r2 -> needs stem (Seq r1 r2).
Proof.
  intros H s c rest Hin. apply in_run_seq in Hin.
  destruct Hin as [c1 [mid [c2 [H1 [H2 _]]]]].
  apply run_suffix in H1. destruct H1 as [pre ->].
  apply isin_infix with (x := mid); [|eapply H; exact H2].
  exists pre, []. rewrite app_nil_r. reflexivity.
Qed.

Lemma needs_seq_text (l : str) (r2 : regex) :
  needs (PyStr.lower l) (Seq (chars l) r2).
Proof.
  intros s c rest Hin. apply in_run_seq in Hin.
  destruct Hin as [c1 [mid [c2 [H1 [H2 _]]]]].
  apply in_run_chars in H1. destruct H1 as [_ [pre [-> Hp]]].
  apply PyStrFacts.isin_spec. exists [], (PyStr.lower mid).
  rewrite lower_app, (same_text_lower _ _ Hp). reflexivity.
Qed.

Lemma needs_rmatch (stem : str) (r : regex) (s : str) :
  needs stem r -> PyStr.isin stem (PyStr.lower s) = false ->
  rmatch true r s = None.
Proof.
  intros Hn Hs. destruct (rmatch true r s) as [c|] eqn:E; [|reflexivity].
  apply rmatch_in in E. destruct E as [rest E]. apply Hn in E. congruence.
Qed.

(** *** Pieces of [re.split] and the result of an end-anchored [re.sub] *)

Lemma split_go_infix (ic : bool) (r : regex) :
  forall s skip cur piece,
    skip = 0 \/ cur = [] ->
    In piece (split_go ic r s skip cur) -> infix piece (rev cur ++ s).
Proof.
  induction s as [|c s IH]; intros skip cur piece Hinv Hin.
  - cbn in Hin. destruct Hin as [<-|[]]. rewrite app_nil_r. apply infix_refl.
  - cbn [split_go] in Hin. destruct skip as [|k].
    + destruct (match_len ic r (c :: s)) as [[|k]|].
      * apply IH in Hin; [|left; reflexivity]. cbn [rev] in Hin.
        rewrite <- app_assoc in Hin. exact Hin.
      * destruct Hin as [<-|Hin].
        -- exists [], (c :: s). reflexivity.
        -- apply IH in Hin; [|right; reflexivity]. cbn [rev app] in Hin.
           destruct Hin as [a [b E]]. exists (rev cur ++ c :: a), b.
           rewrite E, <- app_assoc. reflexivity.
      * apply IH in Hin; [|left; reflexivity]. cbn [rev] in Hin.
        rewrite <- app_assoc in Hin. exact Hin.
    + destruct Hinv as [Hinv| ->]; [discriminate|].
      apply IH in Hin; [|right; reflexivity]. cbn [rev app] in *.
      destruct Hin as [a [b E]]. exists (c :: a), b. rewrite E. reflexivity.
Qed.

Lemma split_infix (ic : bool) (r : regex) (s piece : str) :
  In piece (split ic r s) -> infix piece s.
Proof.
  intros H. apply split_go_infix in H; [exact H | auto].
Qed.

(** The first match, when there is one, runs to the end of the input. *)
Definition heads_end (l : list (caps * str)) : Prop :=
  match l with
  | [] => True
  | m :: _ => snd m = []
  end.

Lemma heads_end_flat_map {A} (f : A -> list (caps * str)) (l : list A) :
  (forall x, In x l -> heads_end (f x)) -> heads_end (flat_map f l).
Proof.
  induction l as [|a l IH]; intros H; [exact I|].
  cbn [flat_map]. destruct (f a) as [|m ms] eqn:E.
  - cbn. apply IH. intros x Hx. apply H. right. exact Hx.
  - pose proof (H a (or_introl eq_refl)) as Ha. rewrite E in Ha. exact Ha.
Qed.

Lemma heads_end_map (g : caps * str -> caps * str) (l : list (caps * str)) :
  (forall m, snd (g m) = snd m) -> heads_end l -> heads_end (map g l).
Proof.
  intros Hg H. destruct l as [|m ms]; [exact I|]. cbn. rewrite Hg. exact H.
Qed.

Lemma heads_end_seq (ic : bool) (r1 r2 : regex) (s : str) :
  (forall c mid, In (c, mid) (run ic r1 s) -> heads_end (run ic r2 mid)) ->
  heads_end (run ic (Seq r1 r2) s).
Proof.
  intros H. cbn [run]. apply heads_end_flat_map. intros [c mid] Hin.
  apply heads_end_map; [reflexivity|]. cbn [snd]. eapply H. exact Hin.
Qed.

Lemma sub_go_all (ic : bool) (r : regex) :
  forall s skip, length s <= skip -> sub_go ic r s skip = [].
Proof.
  induction s as [|c s IH]; intros skip H; [reflexivity|].
  cbn [sub_go]. destruct skip as [|k]; [cbn in H; lia|].
  apply IH. cbn in H. lia.
Qed.

Lemma sub_empty_prefix (ic : bool) (r : regex) :
  (forall s, heads_end (run ic r s)) ->
  forall s, exists b, s = sub_empty ic r s ++ b.
Proof.
  intros H. unfold sub_empty. induction s as [|c s [b IH]].
  - exists []. reflexivity.
  - cbn [sub_go]. unfold match_len.
    pose proof (H (c :: s)) as Hh.
    destruct (run ic r (c :: s)) as [|[c0 rest] ms].
    + exists b. cbn. rewrite <- IH. reflexivity.
    + cbn in Hh. subst rest. cbn [snd length]. rewrite Nat.sub_0_r.
      rewrite sub_go_all; [|lia]. exists (c :: s). reflexivity.
Qed.

End ReFacts.

(** ** C6: the parser drops what it cannot read *)

Module ParserFacts.
Import Re ReFacts Parser.

Lemma ws_newline : ws newline = true.
Proof. reflexivity. Qed.

Lemma eol_long (ic : bool) (c d : ascii) (s : str) :
  run ic Eol (c :: d :: s) = [].
Proof. reflexivity. Qed.

Lemma heads_end_app (l1 l2 : list (caps * str)) :
  heads_end l1 -> (l1 = [] -> heads_end l2) -> heads_end (l1 ++ l2).
Proof. destruct l1; cbn; auto. Qed.

(** [\s*$]: the first match takes all the whitespace. *)
Lemma ws_eol_heads_end (ic : bool) (s : str) :
  heads_end (run ic (Seq (Rep true 0 ws) Eol) s).
Proof.
  cbn [run skipn].
  set (G := fun m1 : caps * str =>
              map (fun m2 : caps * str => (fst m1 ++ fst m2, snd m2))
                  (run ic Eol (snd m1))).
  change (heads_end (flat_map G (map (fun t => ([], t)) (rev (tails ws s))))).
  induction s as [|c s IH].
  - cbn. reflexivity.
  - cbn [tails]. destruct (ws c) eqn:Hc.
    + cbn [rev]. rewrite map_app, flat_map_app. cbn [map flat_map].
      rewrite app_nil_r. apply heads_end_app; [exact IH|].
      intros Hnil. destruct s as [|d s].
      * cbn in Hnil. discriminate.
      * unfold G. cbn [snd]. rewrite eol_long. exact I.
    + cbn [rev app map flat_map]. rewrite app_nil_r. unfold G. cbn [snd].
      destruct s as [|d s]; [|rewrite eol_long; exact I].
      cbn [run]. destruct (Ascii.eqb c newline) eqn:E; [|exact I].
      apply Ascii.eqb_eq in E. subst c. rewrite ws_newline in Hc.
      discriminate.
Qed.

Lemma in_all_items_heads_end (s : str) :
  heads_end (run true in_all_items_re s).
Proof.
  unfold in_all_items_re. apply heads_end_seq. intros c1 m1 _.
  apply heads_end_seq. intros c2 m2 _. apply ws_eol_heads_end.
Qed.

Lemma sub_parts_infix (part sp : str) :
  In sp (sub_parts_of part) -> infix sp part.
Proof.
  unfold sub_parts_of.
  destruct (negb (Py.nonempty (PyStr.strip part))); [intros []|].
  intros H. apply split_infix in H.
  eapply infix_trans; [exact H|].
  eapply infix_trans; [|apply strip_infix].
  destruct (@sub_empty_prefix true in_all_items_re in_all_items_heads_end
                              (PyStr.strip part)) as [b Hb].
  exists [], b. exact Hb.
Qed.

Lemma needs_not_equal : needs (lit "equal") not_equal_re.
Proof.
  unfold not_equal_re. do 6 apply needs_seq_r.
  apply (needs_seq_text (lit "equal")).
Qed.

Lemma needs_not_contain : needs (lit "contain") not_contain_re.
Proof.
  unfold not_contain_re. do 6 apply needs_seq_r.
  apply (needs_seq_text (lit "contain")).
Qed.

Lemma needs_equals : needs (lit "equal") equals_re.
Proof.
  unfold equals_re. do 2 apply needs_seq_r.
  apply (needs_seq_text (lit "equal")).
Qed.

Lemma needs_starts : needs (lit "start") starts_re.
Proof.
  unfold starts_re. do 2 apply needs_seq_r.
  apply (needs_seq_text (lit "start")).
Qed.

Lemma needs_contains : needs (lit "contain") contains_re.
Proof.
  unfold contains_re. do 2 apply needs_seq_r.
  apply (needs_seq_text (lit "contain")).
Qed.

(** The text holds none of the words the five patterns look for. *)
Definition no_comparison_word (low : str) : Prop :=
  PyStr.isin (lit "equal") low = false
  /\ PyStr.isin (lit "contain") low = false
  /\ PyStr.isin (lit "start") low = false.

Lemma no_word_infix (x y : str) :
  infix x y -> no_comparison_word (PyStr.lower y) ->
  no_comparison_word (PyStr.lower x).
Proof.
  intros Hi [H1 [H2 H3]]. unfold no_comparison_word.
  repeat split.
  - destruct (PyStr.isin (lit "equal") (PyStr.lower x)) eqn:E; [|reflexivity].
    rewrite (@isin_infix _ x y Hi E) in H1. discriminate.
  - destruct (PyStr.isin (lit "contain") (PyStr.lower x)) eqn:E;
      [|reflexivity].
    rewrite (@isin_infix _ x y Hi E) in H2. discriminate.
  - destruct (PyStr.isin (lit "start") (PyStr.lower x)) eqn:E; [|reflexivity].
    rewrite (@isin_infix _ x y Hi E) in H3. discriminate.
Qed.

Lemma parse_sub_part_no_word (sp : str) :
  no_comparison_word (PyStr.lower sp) -> parse_sub_part sp = None.
Proof.
  intros H. apply (@no_word_infix _ sp (strip_infix sp)) in H.
  destruct H as [H1 [H2 H3]]. unfold parse_sub_part.
  destruct (negb (Py.nonempty (PyStr.strip sp))); [reflexivity|].
  rewrite (@needs_rmatch _ _ _ needs_not_equal H1).
  rewrite (@needs_rmatch _ _ _ needs_not_contain H2).
  rewrite (@needs_rmatch _ _ _ needs_equals H1).
  rewrite (@needs_rmatch _ _ _ needs_starts H3).
  rewrite (@needs_rmatch _ _ _ needs_contains H2).
  reflexivity.
Qed.

Lemma flat_map_nil {A B} (f : A -> list B) (l : list A) :
  (forall x, In x l -> f x = []) -> flat_map f l = [].
Proof.
  induction l as [|a l IH]; intros H; [reflexivity|].
  cbn. rewrite (H a (or_introl eq_refl)). apply IH. intros x Hx. apply H.
  right. exact Hx.
Qed.

(** A text none of whose sub-clauses yields a condition parses to the
    empty list. *)
Lemma parse_text_unreadable (text : str) :
  (forall part sp, In part (split false numbered_re text) ->
                   In sp (sub_parts_of part) -> parse_sub_part sp = None) ->
  flat_map parse_part (split false numbered_re text) = [].
Proof.
  intros H. apply flat_map_nil. intros part Hp. unfold parse_part.
  apply flat_map_nil. intros sp Hs. rewrite (H part sp Hp Hs). reflexivity.
Qed.

Lemma parse_text_no_word (text : str) :
  no_comparison_word (PyStr.lower text) ->
  flat_map parse_part (split false numbered_re text) = [].
Proof.
  intros H. apply parse_text_unreadable. intros part sp Hp Hs.
  apply parse_sub_part_no_word.
  apply no_word_infix with (y := text); [|exact H].
  eapply infix_trans; [apply sub_parts_infix; exact Hs|].
  apply split_infix with (ic := false) (r := numbered_re). exact Hp.
Qed.

End ParserFacts.

Section ParserTotal.
Context {rt : PyRuntime}.
Import Parser ParserFacts.

Lemma parse_unfold (v : pyval) :
  parse_applies_if_condition v = []
  \/ parse_applies_if_condition v
     = flat_map parse_part
         (Re.split false numbered_re (PyStr.strip (Py.to_str v))).
Proof.
  unfold parse_applies_if_condition.
  destruct (negb (Py.truthy v) || Py.isna v); [left; reflexivity|].
  match goal with |- context [if ?b then [] else _] => destruct b end;
    [left; reflexivity|].
  match goal with |- context [if ?b then [] else _] => destruct b end;
    [left; reflexivity | right; reflexivity].
Qed.

(** C6.  [parse_applies_if_condition] is a total function, and its result
    is the empty list: for None, NaN, the empty string and every other
    falsy or missing value; for a text that is blank or contains
    [no condition]; for an [applies if invoiced ... carrier] sentence that
    holds none of the words equal, contain, start of the five comparison
    patterns (and for every other text without them); for a text every
    sub-clause of which is unparseable, a sub-clause being unparseable
    when no pattern matches it or when the match holds no single-quoted
    value.  The evaluator returns satisfied, without a reason, on the
    empty list. *)
Theorem parser_drops_what_it_cannot_read :
  (forall v, Py.truthy v = false \/ Py.isna v = true ->
             parse_applies_if_condition v = [])
  /\ parse_applies_if_condition PNone = []
  /\ parse_applies_if_condition (PFloat nan) = []
  /\ parse_applies_if_condition (PStr []) = []
  /\ (forall v, PyStr.strip (Py.to_str v) = [] ->
                parse_applies_if_condition v = [])
  /\ (forall v, PyStr.isin (lit "no condition")
                           (PyStr.lower (PyStr.strip (Py.to_str v))) = true ->
                parse_applies_if_condition v = [])
  /\ (forall v,
        let low := PyStr.lower (PyStr.strip (Py.to_str v)) in
        PyStr.isin (lit "applies if invoiced") low = true ->
        PyStr.isin (lit "carrier") low = true ->
        no_comparison_word low ->
        parse_applies_if_condition v = [])
  /\ (forall v,
        no_comparison_word (PyStr.lower (PyStr.strip (Py.to_str v))) ->
        parse_applies_if_condition v = [])
  /\ (forall v,
        (forall part sp,
            In part (Re.split false numbered_re
                              (PyStr.strip (Py.to_str v))) ->
            In sp (sub_parts_of part) -> parse_sub_part sp = None) ->
        parse_applies_if_condition v = [])
  /\ (forall sp,
        let s := PyStr.strip sp in
        Re.rmatch true not_equal_re s = None ->
        Re.rmatch true not_contain_re s = None ->
        Re.rmatch true equals_re s = None ->
        Re.rmatch true starts_re s = None ->
        Re.rmatch true contains_re s = None ->
        parse_sub_part sp = None)
  /\ (forall kind m,
        Re.findall false quoted_re (PyStr.strip (Re.group 2 m)) = [] ->
        condition_of_match kind m = None)
  /\ parse_applies_if_condition (PStr (lit "1. Carrier Name equals DHL")) = []
  /\ parse_applies_if_condition (PStr (lit "Applies if invoiced by Carrier"))
     = []
  /\ (forall etof row,
        Evaluator.check_applies_if_condition [] etof row = (true, None)).
Proof.
  assert (NoWord : forall v,
             no_comparison_word (PyStr.lower (PyStr.strip (Py.to_str v))) ->
             parse_applies_if_condition v = []).
  { intros v H. destruct (parse_unfold v) as [E|E]; [exact E|].
    rewrite E. apply parse_text_no_word. exact H. }
  split; [|split; [|split; [|split; [|split; [|split; [|split; [|split;
    [|split; [|split; [|split; [|split; [|split]]]]]]]]]]]].
  - intros v H. unfold parse_applies_if_condition.
    destruct H as [H|H]; rewrite H; [reflexivity|].
    rewrite orb_true_r. reflexivity.
  - reflexivity.
  - reflexivity.
  - reflexivity.
  - intros v H. unfold parse_applies_if_condition. rewrite H.
    destruct (negb (Py.truthy v) || Py.isna v); reflexivity.
  - intros v H. unfold parse_applies_if_condition. rewrite H.
    rewrite orb_true_r.
    destruct (negb (Py.truthy v) || Py.isna v); reflexivity.
  - intros v low _ _ H. apply NoWord. exact H.
  - exact NoWord.
  - intros v H. destruct (parse_unfold v) as [E|E]; [exact E|].
    rewrite E. apply parse_text_unreadable. exact H.
  - intros sp s H1 H2 H3 H4 H5. unfold parse_sub_part. fold s.
    rewrite H1, H2, H3, H4, H5.
    destruct (negb (Py.nonempty s)); reflexivity.
  - intros kind m H. unfold condition_of_match. rewrite H. reflexivity.
  - vm_compute. reflexivity.
  - vm_compute. reflexivity.
  - reflexivity.
Qed.

End ParserTotal.

(** ** C5: the order of the comparison patterns *)

Module PatternFacts.
Import Re ReFacts Parser.

(** Not a single quote *)
Definition nq : ascii -> bool := non "'".

Lemma ws_nq (x : ascii) : ws x = true -> nq x = true.
Proof.
  unfold nq, non. destruct (Ascii.eqb x "'") eqn:E; [|reflexivity].
  apply Ascii.eqb_eq in E. subst x. intros H. discriminate H.
Qed.

Lemma chr_eq_nq (x y : ascii) :
  chr_eq true x y = true -> nq (PyStr.lower_char x) = true -> nq y = true.
Proof.
  unfold chr_eq, nq, non. intros H Hx.
  destruct (Ascii.eqb y "'") eqn:E; [|reflexivity].
  apply Ascii.eqb_eq in E. subst y. apply Ascii.eqb_eq in H.
  rewrite H in Hx. discriminate Hx.
Qed.

Lemma same_text_nq (l pre : str) :
  same_text true l pre = true ->
  forallb (fun x => nq (PyStr.lower_char x)) l = true ->
  forallb nq pre = true.
Proof.
  revert pre. induction l as [|x l IH]; intros [|y pre]; cbn [same_text];
    try discriminate; [reflexivity|].
  intros H Hl. cbn [forallb] in *. apply andb_true_iff in H, Hl.
  destruct H as [Hy Hp]. destruct Hl as [Hx Hl].
  rewrite (chr_eq_nq _ _ Hy Hx). cbn. apply IH; assumption.
Qed.

(** A pattern that captures nothing and consumes no single quote *)
Definition plain (r : regex) : Prop :=
  forall s c rest,
    In (c, rest) (run true r s) ->
    c = [] /\ exists pre, s = pre ++ rest /\ forallb nq pre = true.

Lemma plain_ws (g : bool) (lo : nat) : plain (Rep g lo ws).
Proof.
  intros s c rest H. apply in_run_rep in H.
  destruct H as [-> [pre [-> [Hp _]]]]. split; [reflexivity|].
  exists pre. split; [reflexivity|].
  apply forallb_forall. intros x Hx. apply ws_nq.
  rewrite forallb_forall in Hp. apply Hp. exact Hx.
Qed.

Lemma plain_chars (l : str) :
  forallb (fun x => nq (PyStr.lower_char x)) l = true -> plain (chars l).
Proof.
  intros Hl s c rest H. apply in_run_chars in H.
  destruct H as [-> [pre [-> Hp]]]. split; [reflexivity|].
  exists pre. split; [reflexivity|]. eapply same_text_nq; eassumption.
Qed.

Lemma plain_text (w : string) :
  forallb (fun x => nq (PyStr.lower_char x)) (lit w) = true ->
  plain (text w).
Proof. apply plain_chars. Qed.

Lemma plain_chr (x : ascii) :
  nq (PyStr.lower_char x) = true -> plain (Chr x).
Proof.
  intros Hx. apply (plain_chars [x]). cbn. rewrite Hx. reflexivity.
Qed.

Lemma plain_seq (r1 r2 : regex) : plain r1 -> plain r2 -> plain (Seq r1 r2).
Proof.
  intros H1 H2 s c rest H. apply in_run_seq in H.
  destruct H as [c1 [mid [c2 [Ha [Hb ->]]]]].
  apply H1 in Ha. apply H2 in Hb.
  destruct Ha as [-> [p1 [-> Hp1]]]. destruct Hb as [-> [p2 [-> Hp2]]].
  split; [reflexivity|]. exists (p1 ++ p2).
  rewrite app_assoc, forallb_app, Hp1, Hp2. auto.
Qed.

Lemma plain_opt (r : regex) : plain r -> plain (Opt r).
Proof.
  intros H s c rest Hin. apply in_run_opt in Hin.
  destruct Hin as [Hin|Hin]; [apply H; exact Hin|].
  inversion Hin; subst. split; [reflexivity|]. exists []. auto.
Qed.

(** A pattern that ends with group 2 and consumes no single quote before
    it *)
Definition tail_grp2 (r : regex) : Prop :=
  forall s c rest,
    In (c, rest) (run true r s) ->
    exists seg, s = seg ++ group 2 c ++ rest /\ forallb nq seg = true.

Lemma tail_grp2_base (g : bool) (lo : nat) (p : ascii -> bool) :
  tail_grp2 (Grp 2 (Rep g lo p)).
Proof.
  intros s c rest H. apply in_run_grp in H. destruct H as [c' [H ->]].
  apply in_run_rep in H. destruct H as [-> [pre [-> _]]].
  exists []. cbn [group Nat.eqb app]. rewrite firstn_consumed. auto.
Qed.

Lemma tail_grp2_seq (r1 r2 : regex) :
  plain r1 -> tail_grp2 r2 -> tail_grp2 (Seq r1 r2).
Proof.
  intros H1 H2 s c rest H. apply in_run_seq in H.
  destruct H as [c1 [mid [c2 [Ha [Hb ->]]]]].
  apply H1 in Ha. apply H2 in Hb.
  destruct Ha as [-> [p1 [-> Hp1]]]. destruct Hb as [seg [-> Hs]].
  exists (p1 ++ seg). cbn [app]. rewrite <- app_assoc, forallb_app, Hp1, Hs.
  auto.
Qed.

(** On a text without a line feed the first match runs to the end. *)
Definition ends_in_any (r : regex) : Prop :=
  forall s, forallb dot s = true -> heads_end (run true r s).

Lemma ends_in_any_seq (r1 r2 : regex) :
  ends_in_any r2 -> ends_in_any (Seq r1 r2).
Proof.
  intros H s Hs. apply heads_end_seq. intros c mid Hin. apply H.
  apply run_suffix in Hin. destruct Hin as [pre ->].
  rewrite forallb_app in Hs. apply andb_true_iff in Hs. tauto.
Qed.

Lemma greedy_head (p : ascii -> bool) (s : str) :
  forallb p s = true ->
  forall lo, match rev (skipn lo (tails p s)) with
             | [] => True
             | t :: _ => t = []
             end.
Proof.
  induction s as [|c s IH]; intros H lo.
  - cbn [tails]. destruct lo as [|[|lo]]; cbn; auto.
  - cbn [forallb] in H. apply andb_true_iff in H. destruct H as [Hc Hs].
    cbn [tails]. rewrite Hc. destruct lo as [|lo].
    + cbn [skipn rev]. specialize (IH Hs 0). cbn [skipn] in IH.
      destruct (rev (tails p s)) as [|t ts] eqn:E; [|exact IH].
      apply (f_equal (@rev str)) in E. rewrite rev_involutive in E.
      destruct s; discriminate E.
    + cbn [skipn]. apply IH. exact Hs.
Qed.

Lemma ends_in_any_base (n lo : nat) : ends_in_any (Grp n (Rep true lo dot)).
Proof.
  intros s Hs. cbn [run]. apply heads_end_map; [reflexivity|]. cbn [run].
  pose proof (greedy_head dot s Hs lo) as H.
  destruct (rev (skipn lo (tails dot s))); [exact I | exact H].
Qed.

(** *** The first match of a lazy group followed by a continuation *)

Lemma first_tail {B} (h : str -> list B) (p : ascii -> bool) :
  forall j s,
    j <= length s -> forallb p (firstn j s) = true ->
    h (skipn j s) <> [] ->
    exists i b more,
      i <= j /\ (exists more', h (skipn i s) = b :: more')
      /\ flat_map h (tails p s) = b :: more.
Proof.
  induction j as [|j IH]; intros s Hj Hp Hh.
  - cbn [skipn] in Hh. destruct (h s) as [|b m] eqn:E; [congruence|].
    exists 0, b. destruct s as [|c s]; cbn [tails flat_map]; rewrite E.
    + exists (m ++ []). split; [lia|]. split; [exists m; exact E|reflexivity].
    + eexists. split; [lia|]. split; [exists m; exact E|reflexivity].
  - destruct s as [|c s]; [cbn in Hj; lia|].
    cbn [firstn forallb] in Hp. apply andb_true_iff in Hp.
    destruct Hp as [Hc Hp]. cbn [skipn] in Hh.
    destruct (h (c :: s)) as [|b m] eqn:E.
    + destruct (IH s) as [i [b [more [Hi [[more' Hm] Hf]]]]];
        [cbn in Hj; lia | exact Hp | exact Hh |].
      exists (S i), b, more. split; [lia|]. split.
      * exists more'. exact Hm.
      * cbn [tails flat_map]. rewrite E, Hc. exact Hf.
    + exists 0, b. eexists. split; [lia|]. split.
      * exists m. exact E.
      * cbn [tails flat_map]. rewrite E. reflexivity.
Qed.

Lemma flat_map_map {A B C} (f : B -> list C) (g : A -> B) (l : list A) :
  flat_map f (map g l) = flat_map (fun x => f (g x)) l.
Proof.
  induction l as [|a l IH]; [reflexivity|]. cbn. rewrite IH. reflexivity.
Qed.

Lemma lazy_head (n : nat) (p : ascii -> bool) (K : regex) (t : str)
      (k0 : nat) :
  1 <= k0 -> k0 <= length t -> forallb p (firstn k0 t) = true ->
  run true K (skipn k0 t) <> [] ->
  exists k c2 rest more,
    1 <= k /\ k <= k0
    /\ (exists more2, run true K (skipn k t) = (c2, rest) :: more2)
    /\ run true (Seq (Grp n (Rep false 1 p)) K) t
       = ((n, firstn k t) :: c2, rest) :: more.
Proof.
  intros H1 Hk Hp HK.
  destruct t as [|c t]; [cbn in Hk; lia|].
  destruct k0 as [|j]; [lia|].
  cbn [firstn forallb] in Hp. apply andb_true_iff in Hp.
  destruct Hp as [Hc Hp]. cbn [skipn] in HK.
  set (h := fun u : str =>
              map (fun m2 : caps * str =>
                     ((n, firstn (length (c :: t) - length u) (c :: t))
                        :: fst m2, snd m2))
                  (run true K u)).
  assert (E : run true (Seq (Grp n (Rep false 1 p)) K) (c :: t)
              = flat_map h (tails p t)).
  { cbn [run tails skipn]. rewrite Hc. cbn [skipn].
    rewrite !flat_map_map. reflexivity. }
  destruct (@first_tail _ h p j t) as [i [b [more [Hi [[more' Hm] Hf]]]]].
  - cbn in Hk. lia.
  - exact Hp.
  - unfold h. destruct (run true K (skipn j t)); [congruence|discriminate].
  - unfold h in Hm.
    destruct (run true K (skipn i t)) as [|[c2 rest] more2] eqn:E2;
      [discriminate|].
    cbn [map fst snd] in Hm. inversion Hm; subst b more'.
    exists (S i), c2, rest, more. split; [lia|]. split; [lia|]. split.
    + exists more2. exact E2.
    + rewrite E, Hf.
      replace (firstn (S i) (c :: t))
        with (firstn (length (c :: t) - length (skipn i t)) (c :: t));
        [reflexivity|].
      f_equal. rewrite length_skipn. cbn [length] in *. lia.
Qed.

(** *** Quoted values *)

(** Number of single quotes *)
Fixpoint quotes (s : str) : nat :=
  match s with
  | [] => 0
  | c :: s' => (if Ascii.eqb c "'" then 1 else 0) + quotes s'
  end.

Lemma quotes_app (a b : str) : quotes (a ++ b) = quotes a + quotes b.
Proof. induction a as [|c a IH]; cbn; [reflexivity | rewrite IH; lia]. Qed.

Lemma quotes_nq (s : str) : forallb nq s = true -> quotes s = 0.
Proof.
  induction s as [|c s IH]; cbn; [reflexivity|]. intros H.
  apply andb_true_iff in H. destruct H as [Hc Hs]. unfold nq, non in Hc.
  destruct (Ascii.eqb c "'"); [discriminate | auto].
Qed.

Lemma quotes_rev (s : str) : quotes (rev s) = quotes s.
Proof.
  induction s as [|c s IH]; [reflexivity|]. cbn [rev].
  rewrite quotes_app, IH. cbn. lia.
Qed.

Lemma quotes_lstrip (s : str) : quotes (PyStr.lstrip s) = quotes s.
Proof.
  induction s as [|c s IH]; [reflexivity|]. cbn [PyStr.lstrip].
  destruct (PyStr.is_space c) eqn:E; [|reflexivity].
  rewrite IH. cbn [quotes]. apply ws_nq in E. unfold nq, non in E.
  destruct (Ascii.eqb c "'"); [discriminate | reflexivity].
Qed.

Lemma quotes_strip (s : str) : quotes (PyStr.strip s) = quotes s.
Proof.
  unfold PyStr.strip, PyStr.rstrip.
  rewrite quotes_rev, quotes_lstrip, quotes_rev, quotes_lstrip. reflexivity.
Qed.

Lemma split_at_quote (s : str) :
  1 <= quotes s ->
  exists pre post, s = pre ++ "'"%char :: post /\ forallb nq pre = true.
Proof.
  induction s as [|c s IH]; cbn [quotes]; [lia|].
  destruct (Ascii.eqb c "'") eqn:E.
  - intros _. apply Ascii.eqb_eq in E. subst c. exists [], s. auto.
  - intros H. destruct IH as [pre [post [-> Hp]]]; [lia|].
    exists (c :: pre), post. cbn. unfold nq at 1, non. rewrite E, Hp. auto.
Qed.

(** *** Building a match *)

Lemma seq_intro (ic : bool) (r1 r2 : regex) (s : str) (c1 : caps)
      (mid : str) (c2 : caps) (rest : str) :
  In (c1, mid) (run ic r1 s) -> In (c2, rest) (run ic r2 mid) ->
  In (c1 ++ c2, rest) (run ic (Seq r1 r2) s).
Proof. intros H1 H2. apply in_run_seq. exists c1, mid, c2. auto. Qed.

Lemma rep_intro (ic g : bool) (lo : nat) (p : ascii -> bool)
      (pre rest : str) :
  forallb p pre = true -> lo <= length pre ->
  In ([], rest) (run ic (Rep g lo p) (pre ++ rest)).
Proof. intros H1 H2. apply in_run_rep. split; [reflexivity|]. eauto. Qed.

Lemma text_intro (ic : bool) (w : string) (pre rest : str) :
  same_text ic (lit w) pre = true ->
  In ([], rest) (run ic (text w) (pre ++ rest)).
Proof. intros H. apply in_run_chars. split; [reflexivity|]. eauto. Qed.

Lemma chr_intro (ic : bool) (x y : ascii) (rest : str) :
  chr_eq ic x y = true -> In ([], rest) (run ic (Chr x) (y :: rest)).
Proof. intros H. apply in_run_chr. split; [reflexivity|]. eauto. Qed.

Lemma opt_intro (ic : bool) (r : regex) (s : str) (m : caps * str) :
  In m (run ic r s) -> In m (run ic (Opt r) s).
Proof. intros H. apply in_run_opt. left. exact H. Qed.

Lemma grp_intro (ic : bool) (n : nat) (r : regex) (pre rest : str)
      (c : caps) :
  In (c, rest) (run ic r (pre ++ rest)) ->
  In ((n, pre) :: c, rest) (run ic (Grp n r) (pre ++ rest)).
Proof.
  intros H. apply in_run_grp. exists c. split; [exact H|].
  rewrite firstn_consumed. reflexivity.
Qed.

Lemma rmatch_some (ic : bool) (r : regex) (s : str) (m : caps * str) :
  In m (run ic r s) -> exists c, rmatch ic r s = Some c.
Proof.
  unfold rmatch. destruct (run ic r s) as [|m' ms]; [intros []|].
  intros _. eauto.
Qed.

Lemma quoted_matches (u : str) :
  1 <= quotes u -> exists m, In m (run false quoted_re ("'"%char :: u)).
Proof.
  intros H. destruct (split_at_quote u H) as [pre [post [-> Hp]]].
  eexists. unfold quoted_re.
  eapply seq_intro; [apply chr_intro; reflexivity|].
  eapply seq_intro.
  - apply (grp_intro false 1 (Rep true 0 (non "'")) pre ("'"%char :: post)).
    apply rep_intro; [exact Hp | lia].
  - apply chr_intro. reflexivity.
Qed.

Lemma quoted_consumes (s : str) (m : caps * str) :
  In m (run false quoted_re s) -> exists k, length s - length (snd m) = S k.
Proof.
  destruct m as [c rest]. unfold quoted_re. intros H.
  apply in_run_seq in H. destruct H as [c1 [mid [c2 [H1 [H2 _]]]]].
  apply in_run_chr in H1. destruct H1 as [_ [y [-> _]]].
  apply run_suffix in H2. destruct H2 as [pre ->].
  cbn [snd length]. rewrite length_app. exists (length pre). lia.
Qed.

Lemma quoted_needs_quote (c : ascii) (s : str) :
  Ascii.eqb c "'" = false -> run false quoted_re (c :: s) = [].
Proof.
  intros H. unfold quoted_re. cbn [run]. unfold chr_eq.
  rewrite Ascii.eqb_sym, H. reflexivity.
Qed.

(** Two single quotes are enough for [re.findall] to find a value. *)
Lemma findall_quotes (s : str) :
  2 <= quotes s -> Py.nonempty (findall false quoted_re s) = true.
Proof.
  unfold findall. induction s as [|c s IH]; cbn [quotes]; [lia|].
  intros H. cbn [findall_go]. destruct (Ascii.eqb c "'") eqn:E.
  - apply Ascii.eqb_eq in E. subst c.
    destruct (quoted_matches s) as [m Hm]; [lia|].
    destruct (run false quoted_re ("'"%char :: s)) as [|m' ms] eqn:Er;
      [destruct Hm|].
    destruct (@quoted_consumes ("'"%char :: s) m') as [k Hk].
    { rewrite Er. left. reflexivity. }
    rewrite Hk. reflexivity.
  - rewrite (@quoted_needs_quote c s E). apply IH. lia.
Qed.

Lemma forallb_firstn {A} (p : A -> bool) (k : nat) (l : list A) :
  forallb p l = true -> forallb p (firstn k l) = true.
Proof.
  intros H. rewrite <- (firstn_skipn k l), forallb_app in H.
  apply andb_true_iff in H. tauto.
Qed.

Lemma forallb_skipn {A} (p : A -> bool) (k : nat) (l : list A) :
  forallb p l = true -> forallb p (skipn k l) = true.
Proof.
  intros H. rewrite <- (firstn_skipn k l), forallb_app in H.
  apply andb_true_iff in H. tauto.
Qed.

Lemma quotes_skipn (k : nat) (s : str) : quotes (skipn k s) <= quotes s.
Proof.
  rewrite <- (firstn_skipn k s) at 2. rewrite quotes_app. lia.
Qed.

(** *** The values of a negated clause

    [K] is what follows [(.+?)] in the pattern.  When [K] can match after
    [k0] characters of a one-line text, and two single quotes come later
    than that, [re.match] succeeds and [re.findall] finds a value in
    group 2. *)
Lemma values_found (K : regex) (t : str) (k0 : nat) :
  tail_grp2 K -> ends_in_any K -> forallb dot t = true ->
  1 <= k0 -> k0 <= length t ->
  run true K (skipn k0 t) <> [] -> 2 <= quotes (skipn k0 t) ->
  exists m,
    rmatch true (Seq (Grp 1 Parser.lazy_any) K) t = Some m
    /\ Py.nonempty
         (findall false Parser.quoted_re (PyStr.strip (group 2 m))) = true.
Proof.
  intros Ht He Hd H1 Hk HK H2.
  destruct (@lazy_head 1 dot K t k0 H1 Hk (@forallb_firstn _ dot k0 t Hd) HK)
    as [k [c2 [rest [more [Hk1 [Hk0 [[more2 HrK] Hrun]]]]]]].
  pose proof (He (skipn k t) (@forallb_skipn _ dot k t Hd)) as Hend.
  rewrite HrK in Hend. cbn [heads_end snd] in Hend. subst rest.
  destruct (Ht (skipn k t) c2 []) as [seg [Hs Hseg]].
  { rewrite HrK. left. reflexivity. }
  exists ((1, firstn k t) :: c2). split.
  - unfold rmatch, Parser.lazy_any. rewrite Hrun. reflexivity.
  - apply findall_quotes. rewrite quotes_strip. cbn [group Nat.eqb].
    assert (Hle : quotes (skipn k0 t) <= quotes (skipn k t)).
    { replace (skipn k0 t) with (skipn (k0 - k) (skipn k t)).
      - apply quotes_skipn.
      - rewrite skipn_skipn. f_equal. lia. }
    rewrite Hs, !quotes_app, (quotes_nq seg Hseg) in Hle.
    cbn [quotes] in Hle. lia.
Qed.

(** *** The two negated patterns after their column group *)

Definition not_equal_tail : regex :=
  Parser.ws_plus +++ text "does" +++ Parser.ws_plus +++ text "not"
  +++ Parser.ws_plus +++ text "equal" +++ Parser.ws_star
  +++ Opt (text "to" +++ Parser.ws_plus) +++ Grp 2 Parser.greedy_any.

Definition not_contain_tail : regex :=
  Parser.ws_plus +++ text "does" +++ Parser.ws_plus +++ text "not"
  +++ Parser.ws_plus +++ text "contain" +++ Parser.ws_star
  +++ Grp 2 Parser.greedy_any.

Lemma not_equal_re_tail :
  Parser.not_equal_re = Grp 1 Parser.lazy_any +++ not_equal_tail.
Proof. reflexivity. Qed.

Lemma not_contain_re_tail :
  Parser.not_contain_re = Grp 1 Parser.lazy_any +++ not_contain_tail.
Proof. reflexivity. Qed.

Ltac plain_step :=
  first [ apply plain_ws
        | apply plain_text; reflexivity
        | apply plain_opt; apply plain_seq; plain_step ].

Lemma not_equal_tail_grp2 : tail_grp2 not_equal_tail.
Proof.
  unfold not_equal_tail, Parser.ws_plus, Parser.ws_star, Parser.greedy_any.
  repeat (apply tail_grp2_seq; [plain_step|]). apply tail_grp2_base.
Qed.

Lemma not_contain_tail_grp2 : tail_grp2 not_contain_tail.
Proof.
  unfold not_contain_tail, Parser.ws_plus, Parser.ws_star,
    Parser.greedy_any.
  repeat (apply tail_grp2_seq; [plain_step|]). apply tail_grp2_base.
Qed.

Lemma not_equal_tail_ends : ends_in_any not_equal_tail.
Proof.
  unfold not_equal_tail, Parser.greedy_any.
  repeat apply ends_in_any_seq. apply ends_in_any_base.
Qed.

Lemma not_contain_tail_ends : ends_in_any not_contain_tail.
Proof.
  unfold not_contain_tail, Parser.greedy_any.
  repeat apply ends_in_any_seq. apply ends_in_any_base.
Qed.

Ltac match_step :=
  first [ apply rep_intro; [reflexivity | cbn; lia]
        | apply text_intro; reflexivity ].

(** The tail of the first pattern matches the operator text up to and
    with the opening quote. *)
Lemma not_equal_tail_matches (w : str) :
  exists c, In (c, w) (run true not_equal_tail
                         (lit " does not equal to '" ++ w)).
Proof.
  change (lit " does not equal to '" ++ w)
    with (lit " " ++ lit "does" ++ lit " " ++ lit "not" ++ lit " "
          ++ lit "equal" ++ lit " " ++ lit "to" ++ lit " " ++ lit "'" ++ w).
  eexists. unfold not_equal_tail.
  do 7 (eapply seq_intro; [match_step|]).
  eapply seq_intro.
  - apply opt_intro. eapply seq_intro; match_step.
  - apply grp_intro. match_step.
Qed.

Lemma not_contain_tail_matches (w : str) :
  exists c, In (c, w) (run true not_contain_tail
                         (lit " does not contain '" ++ w)).
Proof.
  change (lit " does not contain '" ++ w)
    with (lit " " ++ lit "does" ++ lit " " ++ lit "not" ++ lit " "
          ++ lit "contain" ++ lit " " ++ lit "'" ++ w).
  eexists. unfold not_contain_tail.
  do 7 (eapply seq_intro; [match_step|]).
  apply grp_intro. match_step.
Qed.

(** *** Clauses of the form column, operator, quoted value *)

(** A column text: it does not start with white space and holds no line
    feed. *)
Definition column_text (X : str) : Prop :=
  match X with c :: _ => PyStr.is_space c = false | [] => False end
  /\ forallb dot X = true.

(** [X + op + v + "'"], where [op] ends with the opening quote *)
Definition clause (X : str) (op : string) (v : str) : str :=
  X ++ lit op ++ v ++ lit "'".

Lemma clause_strip (X : str) (op : string) (v : str) :
  column_text X -> PyStr.strip (clause X op v) = clause X op v.
Proof.
  intros [H _]. apply PyStrFacts.strip_id.
  - destruct X; [destruct H | exact H].
  - unfold clause. rewrite !app_assoc, rev_app_distr. reflexivity.
Qed.

Lemma clause_nonempty (X : str) (op : string) (v : str) :
  column_text X -> Py.nonempty (clause X op v) = true.
Proof. intros [H _]. destruct X; [destruct H | reflexivity]. Qed.

Lemma column_length (X : str) : column_text X -> 1 <= length X.
Proof. intros [H _]. destruct X; [destruct H | cbn; lia]. Qed.

Lemma skipn_exact {A} (a b : list A) : skipn (length a) (a ++ b) = b.
Proof. induction a as [|x a IH]; [reflexivity | exact IH]. Qed.

(** The pattern matches the clause as soon as its tail matches the
    operator. *)
Lemma clause_match (K : regex) (X : str) (op : string) (v : str) :
  (forall w, exists c, In (c, w) (run true K (lit op ++ w))) ->
  column_text X ->
  exists m,
    rmatch true (Grp 1 Parser.lazy_any +++ K) (clause X op v) = Some m.
Proof.
  intros HK HX. destruct (HK (v ++ lit "'")) as [c Hc].
  eapply rmatch_some. eapply seq_intro; [|exact Hc].
  apply grp_intro. apply rep_intro; [apply HX | apply column_length, HX].
Qed.

(** On one line the first match also yields a value. *)
Lemma clause_values (K : regex) (X : str) (op : string) (v : str) :
  tail_grp2 K -> ends_in_any K ->
  (forall w, exists c, In (c, w) (run true K (lit op ++ w))) ->
  forallb dot (lit op) = true -> 1 <= quotes (lit op) ->
  column_text X -> forallb dot v = true ->
  exists m,
    rmatch true (Grp 1 Parser.lazy_any +++ K) (clause X op v) = Some m
    /\ Py.nonempty
         (findall false Parser.quoted_re (PyStr.strip (group 2 m))) = true.
Proof.
  intros Ht He HK Hop Hq HX Hv.
  apply values_found with (k0 := length X); try assumption.
  - unfold clause. rewrite !forallb_app, Hop, Hv.
    destruct HX as [_ ->]. reflexivity.
  - apply column_length, HX.
  - unfold clause. rewrite length_app. lia.
  - unfold clause. rewrite skipn_exact.
    destruct (HK (v ++ lit "'")) as [c Hc]. intros E. rewrite E in Hc.
    destruct Hc.
  - unfold clause. rewrite skipn_exact, !quotes_app.
    change (quotes (lit "'")) with 1. lia.
Qed.

Lemma condition_kind (k : condition_type) (m : caps) (c : condition) :
  Parser.condition_of_match k m = Some c -> snd (fst c) = k.
Proof.
  unfold Parser.condition_of_match. cbv zeta.
  destruct (Py.nonempty _); intros E; inversion E. reflexivity.
Qed.

Lemma parse_not_equal_clause (X v : str) :
  column_text X ->
  (forall c, Parser.parse_sub_part (clause X " does not equal to '" v)
             = Some c -> snd (fst c) = does_not_equal)
  /\ (forallb dot v = true ->
      exists col vals,
        Parser.parse_sub_part (clause X " does not equal to '" v)
        = Some (col, does_not_equal, vals)).
Proof.
  intros HX. unfold Parser.parse_sub_part. cbv zeta.
  rewrite (clause_strip _ _ HX), (clause_nonempty _ _ HX). cbn [negb].
  rewrite not_equal_re_tail. split.
  - destruct (@clause_match not_equal_tail X " does not equal to '" v
                not_equal_tail_matches HX) as [m ->].
    intros c. apply condition_kind.
  - intros Hv.
    destruct (@clause_values not_equal_tail X " does not equal to '" v
                not_equal_tail_grp2 not_equal_tail_ends
                not_equal_tail_matches eq_refl) as [m [-> Hf]];
      [cbn; lia | exact HX | exact Hv |].
    unfold Parser.condition_of_match. cbv zeta. rewrite Hf. eauto.
Qed.

Lemma parse_not_contain_clause (X v : str) :
  column_text X ->
  (forall c, Parser.parse_sub_part (clause X " does not contain '" v)
             = Some c ->
             snd (fst c) = does_not_contain
             \/ snd (fst c) = does_not_equal)
  /\ (forallb dot v = true ->
      rmatch true Parser.not_equal_re (clause X " does not contain '" v)
      = None ->
      exists col vals,
        Parser.parse_sub_part (clause X " does not contain '" v)
        = Some (col, does_not_contain, vals)).
Proof.
  intros HX. unfold Parser.parse_sub_part. cbv zeta.
  rewrite (clause_strip _ _ HX), (clause_nonempty _ _ HX). cbn [negb].
  rewrite not_contain_re_tail. split.
  - destruct (rmatch true Parser.not_equal_re _) as [m1|].
    + intros c Hc. right. exact (condition_kind _ _ Hc).
    + destruct (@clause_match not_contain_tail X " does not contain '" v
                  not_contain_tail_matches HX) as [m ->].
      intros c Hc. left. exact (condition_kind _ _ Hc).
  - intros Hv ->.
    destruct (@clause_values not_contain_tail X " does not contain '" v
                not_contain_tail_grp2 not_contain_tail_ends
                not_contain_tail_matches eq_refl) as [m [-> Hf]];
      [cbn; lia | exact HX | exact Hv |].
    unfold Parser.condition_of_match. cbv zeta. rewrite Hf. eauto.
Qed.

End PatternFacts.

(** ** The comparison patterns are tried in a fixed order *)

Section ComparisonOrder.
Import Re Parser PatternFacts.

(** The order the specification gives: each pattern with the kind of
    condition it produces. *)
Definition priority_order : list (regex * condition_type) :=
  [ (not_equal_re, does_not_equal);
    (not_contain_re, does_not_contain);
    (equals_re, equals);
    (starts_re, starts_with);
    (contains_re, contains) ].

(** The first pattern of the list that [re.match] accepts, with its
    groups; the patterns after it are not consulted. *)
Fixpoint first_in_priority_order (ps : list (regex * condition_type))
         (s : str) : option (condition_type * caps) :=
  match ps with
  | [] => None
  | (r, kind) :: ps' =>
      match rmatch true r s with
      | Some m => Some (kind, m)
      | None => first_in_priority_order ps' s
      end
  end.

(** C5.  For every sub-clause text, [parse_sub_part] takes the first of
    the patterns does-not-equal, does-not-contain, equals, starts-with,
    contains that matches the stripped text, in this order, and builds the
    condition from that match alone.  Consequently, for every column text
    [X] (not empty, no leading white space, one line):
    - [X does not equal to 'v'] never yields a condition of another kind
      than [does_not_equal], and when [v] is on one line it does yield a
      [does_not_equal] condition;
    - [X does not contain 'v'] never yields a [contains] condition: what
      it yields is of kind [does_not_contain] (or [does_not_equal], when
      the earlier pattern matches too), and when [v] is on one line and the
      clause does not hold the word [equal] it does yield a
      [does_not_contain] condition.
    The two closing examples show that the order matters: the equals
    pattern and the contains pattern match these clauses as well, with the
    column [Service Type does not]. *)
Theorem comparison_patterns_in_priority_order :
  (forall sp,
      parse_sub_part sp
      = let s := PyStr.strip sp in
        if negb (Py.nonempty s) then None
        else match first_in_priority_order priority_order s with
             | Some (kind, m) => condition_of_match kind m
             | None => None
             end)
  /\ (forall X v,
         column_text X ->
         (forall c,
             parse_sub_part (clause X " does not equal to '" v) = Some c ->
             snd (fst c) = does_not_equal)
         /\ (forallb dot v = true ->
             exists col vals,
               parse_sub_part (clause X " does not equal to '" v)
               = Some (col, does_not_equal, vals)))
  /\ (forall X v,
         column_text X ->
         (forall c,
             parse_sub_part (clause X " does not contain '" v) = Some c ->
             snd (fst c) = does_not_contain
             \/ snd (fst c) = does_not_equal)
         /\ (forallb dot v = true ->
             PyStr.isin (lit "equal")
                        (PyStr.lower (clause X " does not contain '" v))
             = false ->
             exists col vals,
               parse_sub_part (clause X " does not contain '" v)
               = Some (col, does_not_contain, vals)))
  /\ parse_sub_part (lit "Service Type does not equal to 'Express'")
     = Some (lit "Service Type", does_not_equal, [lit "Express"])
  /\ parse_sub_part (lit "Service Type does not contain 'Express'")
     = Some (lit "Service Type", does_not_contain, [lit "Express"])
  /\ option_map (group 1)
       (rmatch true equals_re
               (lit "Service Type does not equal to 'Express'"))
     = Some (lit "Service Type does not")
  /\ option_map (group 1)
       (rmatch true contains_re
               (lit "Service Type does not contain 'Express'"))
     = Some (lit "Service Type does not").
Proof.
  split; [|split; [|split; [|repeat split; vm_compute; reflexivity]]].
  - intros sp. unfold parse_sub_part. cbv zeta.
    destruct (negb (Py.nonempty (PyStr.strip sp))); [reflexivity|].
    cbn [first_in_priority_order priority_order].
    repeat (destruct (rmatch true _ (PyStr.strip sp)); [reflexivity|]).
    reflexivity.
  - intros X v HX. apply parse_not_equal_clause. exact HX.
  - intros X v HX.
    destruct (@parse_not_contain_clause X v HX) as [Hkind Hval].
    split; [exact Hkind|]. intros Hv Hword. apply Hval; [exact Hv|].
    apply (@ReFacts.needs_rmatch (lit "equal")); [|exact Hword].
    exact ParserFacts.needs_not_equal.
Qed.

End ComparisonOrder.

(** Why [column_text] asks for a column: a clause that starts with the
    operator itself is read by the equals pattern, with [does not] as its
    column. *)
Example operator_without_column :
  Parser.parse_sub_part (lit "does not equal to 'Express'")
  = Some (lit "does not", equals, [lit "Express"]).
Proof. vm_compute. reflexivity. Qed.

(* ================================================================== *)
(** * Further properties of the code *)
(* ================================================================== *)

(** ** Sheet names *)

Section SheetNames.
Context {rt : PyRuntime}.
Import Sheets.

Lemma replaced_char_valid (c : ascii) :
  invalid_sheet_char (if invalid_sheet_char c then "_"%char else c) = false.
Proof. destruct (invalid_sheet_char c) eqn:E; [reflexivity | exact E]. Qed.

(** X1.  Whatever the agreement cell holds, [clean_sheet_name] returns at
    most 31 characters, none of which is one of the seven characters a
    sheet name may not hold; None and NaN give [No Agreement]; for a text
    the result is the empty name exactly when the text is blank. *)
Theorem sheet_name_is_valid :
  (forall name,
      length (clean_sheet_name name) <= 31
      /\ forallb (fun c => negb (invalid_sheet_char c))
                 (clean_sheet_name name) = true)
  /\ clean_sheet_name PNone = lit "No Agreement"
  /\ (forall f, PrimFloat.is_nan f = true ->
                clean_sheet_name (PFloat f) = lit "No Agreement")
  /\ (forall s, clean_sheet_name (PStr s) = [] <-> PyStr.strip s = []).
Proof.
  split; [|split; [|split]].
  - intros name. unfold clean_sheet_name.
    destruct (Py.is_none name || Py.isna name).
    + split; [cbn; lia | reflexivity].
    + split; [apply firstn_le_length|].
      apply PatternFacts.forallb_firstn. apply forallb_forall.
      intros c Hc. apply in_map_iff in Hc. destruct Hc as [x [<- _]].
      rewrite replaced_char_valid. reflexivity.
  - reflexivity.
  - intros f Hf. unfold clean_sheet_name. cbn [Py.is_none Py.isna orb].
    rewrite Hf. reflexivity.
  - intros s. unfold clean_sheet_name. cbn [Py.is_none Py.isna orb Py.to_str].
    destruct (PyStr.strip s) as [|c t]; [tauto|].
    cbn [map firstn]. split; discriminate.
Qed.

End SheetNames.

(** ** The evaluator on lists of conditions *)

Section EvaluatorFacts.
Context {rt : PyRuntime}.
Import Evaluator.

(** The condition alone is met. *)
Definition holds (etof_number : str) (row : row_data) (c : condition)
  : bool :=
  fst (check_applies_if_condition [c] etof_number row).

Lemma holds_check_one (etof : str) (row : row_data) (c : condition) :
  holds etof row c
  = match check_one c etof row with None => true | Some _ => false end.
Proof.
  unfold holds. cbn [check_applies_if_condition].
  destruct (check_one c etof row); reflexivity.
Qed.

Lemma check_app (a b : list condition) (etof : str) (row : row_data) :
  check_applies_if_condition (a ++ b) etof row
  = if fst (check_applies_if_condition a etof row)
    then check_applies_if_condition b etof row
    else check_applies_if_condition a etof row.
Proof.
  induction a as [|c a IH]; [reflexivity|].
  cbn [app check_applies_if_condition].
  destruct (check_one c etof row); [reflexivity | exact IH].
Qed.

Lemma check_forallb (cs : list condition) (etof : str) (row : row_data) :
  fst (check_applies_if_condition cs etof row)
  = forallb (holds etof row) cs.
Proof.
  induction cs as [|c cs IH]; [reflexivity|].
  cbn [forallb]. rewrite holds_check_one.
  cbn [check_applies_if_condition].
  destruct (check_one c etof row); [reflexivity | exact IH].
Qed.

Lemma check_reason (cs : list condition) (etof : str) (row : row_data) :
  fst (check_applies_if_condition cs etof row) = true
  <-> snd (check_applies_if_condition cs etof row) = None.
Proof.
  induction cs as [|c cs IH]; [cbn; tauto|].
  cbn [check_applies_if_condition].
  destruct (check_one c etof row); [cbn; split; discriminate | exact IH].
Qed.

(** X2.  A list of conditions is a conjunction checked from left to
    right: the list is met exactly when each of its conditions is met on
    its own; two lists put together give the result of the second when the
    first is met and the result of the first otherwise; and a reason is
    returned exactly when the list is not met. *)
Theorem conditions_are_a_conjunction :
  (forall cs etof row,
      fst (check_applies_if_condition cs etof row)
      = forallb (holds etof row) cs)
  /\ (forall a b etof row,
         check_applies_if_condition (a ++ b) etof row
         = if fst (check_applies_if_condition a etof row)
           then check_applies_if_condition b etof row
           else check_applies_if_condition a etof row)
  /\ (forall cs etof row,
         fst (check_applies_if_condition cs etof row) = true
         <-> snd (check_applies_if_condition cs etof row) = None).
Proof.
  split; [|split].
  - exact check_forallb.
  - exact check_app.
  - exact check_reason.
Qed.

Lemma forallb_negb_existsb {A} (p : A -> bool) (l : list A) :
  forallb (fun x => negb (p x)) l = negb (existsb p l).
Proof.
  induction l as [|x l IH]; [reflexivity|]. cbn. rewrite IH.
  destruct (p x); reflexivity.
Qed.

(** X3.  On a column the row resolves, a negated condition is the
    complement of the positive one with the same values: [does_not_equal]
    is met exactly when [equals] is not, and [does_not_contain] exactly
    when [contains] is not. *)
Theorem negated_condition_is_the_complement
        (column_name : str) (values : list str) (etof : str)
        (row : row_data) (kv : str * pyval) :
  resolve_column column_name row = Some kv ->
  holds etof row (column_name, does_not_equal, values)
  = negb (holds etof row (column_name, equals, values))
  /\ holds etof row (column_name, does_not_contain, values)
     = negb (holds etof row (column_name, contains, values)).
Proof.
  intros H. rewrite !holds_check_one. unfold check_one. rewrite H.
  destruct kv as [k v]. cbv zeta. rewrite !forallb_negb_existsb.
  split.
  - destruct (existsb _ values); reflexivity.
  - destruct (existsb _ values); reflexivity.
Qed.

End EvaluatorFacts.

Definition origin_row : row_data := [(lit "Origin", PStr (lit "NL"))].

Lemma negated_condition_is_the_complement_witness :
  Evaluator.resolve_column (lit "Origin") origin_row
  = Some (lit "Origin", PStr (lit "NL"))
  /\ (@holds plain_runtime (lit "E1") origin_row
        (lit "Origin", does_not_equal, [lit "nl"])
      = negb (@holds plain_runtime (lit "E1") origin_row
                (lit "Origin", equals, [lit "nl"]))
      /\ @holds plain_runtime (lit "E1") origin_row
           (lit "Origin", does_not_contain, [lit "nl"])
         = negb (@holds plain_runtime (lit "E1") origin_row
                   (lit "Origin", contains, [lit "nl"]))).
Proof.
  split; [reflexivity|].
  apply (@negated_condition_is_the_complement plain_runtime
           (lit "Origin") [lit "nl"] (lit "E1") origin_row
           (lit "Origin", PStr (lit "NL"))).
  reflexivity.
Defined.

(** ** Comparisons ignore case *)

Module CaseFacts.
Import PyStr.

Lemma lower_upper_char (c : ascii) : lower_char (upper_char c) = lower_char c.
Proof. destruct c as [[] [] [] [] [] [] [] []]; reflexivity. Qed.

Lemma lower_lower_char (c : ascii) : lower_char (lower_char c) = lower_char c.
Proof. destruct c as [[] [] [] [] [] [] [] []]; reflexivity. Qed.

Lemma lower_upper (s : str) : lower (upper s) = lower s.
Proof.
  unfold lower, upper. rewrite map_map. apply map_ext.
  exact lower_upper_char.
Qed.

Lemma lower_lower (s : str) : lower (lower s) = lower s.
Proof.
  unfold lower. rewrite map_map. apply map_ext. exact lower_lower_char.
Qed.

End CaseFacts.

Section IgnoreCase.
Context {rt : PyRuntime}.
Import Evaluator.

(** A spelling of the condition that differs in case only *)
Definition respelled (f : str -> str) (c : condition) : condition :=
  let '(column_name, kind, values) := c in
  (f column_name, kind, map f values).

Lemma resolve_column_respelled (f : str -> str) (column_name : str)
      (row : row_data) :
  (forall s, PyStr.lower (f s) = PyStr.lower s) ->
  resolve_column (f column_name) row = resolve_column column_name row.
Proof.
  intros Hf. unfold resolve_column, standard_match, underscored, nospace.
  rewrite !Hf. reflexivity.
Qed.

Lemma holds_respelled (f : str -> str) (etof : str) (row : row_data)
      (c : condition) :
  (forall s, PyStr.lower (f s) = PyStr.lower s) ->
  holds etof row (respelled f c) = holds etof row c.
Proof.
  intros Hf. destruct c as [[column_name kind] values].
  rewrite !holds_check_one. unfold respelled, check_one.
  rewrite (resolve_column_respelled f column_name row Hf).
  destruct (resolve_column column_name row) as [[k v]|]; [|reflexivity].
  cbv zeta.
  assert (E : forall (p : str -> bool) (l : list str),
             existsb (fun ev => p (PyStr.lower ev)) (map f l)
             = existsb (fun ev => p (PyStr.lower ev)) l).
  { intros p l. induction l as [|x l IH]; [reflexivity|].
    cbn [map existsb]. rewrite Hf, IH. reflexivity. }
  assert (A : forall (p : str -> bool) (l : list str),
             forallb (fun ev => negb (p (PyStr.lower ev))) (map f l)
             = forallb (fun ev => negb (p (PyStr.lower ev))) l).
  { intros p l. induction l as [|x l IH]; [reflexivity|].
    cbn [map forallb]. rewrite Hf, IH. reflexivity. }
  destruct kind.
  - rewrite (E (PyStr.eqb _)). destruct (existsb _ values); reflexivity.
  - rewrite (A (PyStr.eqb _)). destruct (forallb _ values); reflexivity.
  - rewrite (E (PyStr.startswith _)). destruct (existsb _ values); reflexivity.
  - rewrite (E (fun e => PyStr.isin e _)).
    destruct (existsb _ values); reflexivity.
  - rewrite (A (fun e => PyStr.isin e _)).
    destruct (forallb _ values); reflexivity.
Qed.

(** Text of ASCII characters: on it [str.upper] and [str.lower] change
    the letters A-Z and a-z and nothing else *)
Definition ascii_text (s : str) : bool :=
  forallb (fun c => PyStr.code c <? 128) s.

Definition ascii_condition (c : condition) : bool :=
  let '(column_name, _, values) := c in
  ascii_text column_name && forallb ascii_text values.

(** X4.  Writing the column names and the expected values of a condition
    list in upper case, or in lower case, does not change whether the
    shipment row meets it, for conditions written in ASCII characters.
    (Outside ASCII [str.upper] is not undone by [str.lower]: the sharp s
    becomes SS.) *)
Theorem conditions_ignore_case (cs : list condition) (etof : str)
        (row : row_data) :
  forallb ascii_condition cs = true ->
  fst (check_applies_if_condition (map (respelled PyStr.upper) cs) etof row)
  = fst (check_applies_if_condition cs etof row)
  /\ fst (check_applies_if_condition (map (respelled PyStr.lower) cs)
                                     etof row)
     = fst (check_applies_if_condition cs etof row).
Proof.
  intros _. rewrite !check_forallb. split.
  - induction cs as [|c cs IH]; [reflexivity|]. cbn [map forallb].
    rewrite IH, (holds_respelled _ _ _ _ CaseFacts.lower_upper).
    reflexivity.
  - induction cs as [|c cs IH]; [reflexivity|]. cbn [map forallb].
    rewrite IH, (holds_respelled _ _ _ _ CaseFacts.lower_lower).
    reflexivity.
Qed.

End IgnoreCase.

Lemma conditions_ignore_case_witness :
  forallb ascii_condition [(lit "Origin", equals, [lit "nl"])] = true
  /\ fst (@Evaluator.check_applies_if_condition plain_runtime
            [(lit "ORIGIN", equals, [lit "NL"])] (lit "E1") origin_row)
     = fst (@Evaluator.check_applies_if_condition plain_runtime
              [(lit "Origin", equals, [lit "nl"])] (lit "E1") origin_row)
  /\ fst (@Evaluator.check_applies_if_condition plain_runtime
            [(lit "origin", equals, [lit "nl"])] (lit "E1") origin_row)
     = fst (@Evaluator.check_applies_if_condition plain_runtime
              [(lit "Origin", equals, [lit "nl"])] (lit "E1") origin_row).
Proof.
  split; [reflexivity|].
  exact (@conditions_ignore_case plain_runtime
           [(lit "Origin", equals, [lit "nl"])] (lit "E1") origin_row
           eq_refl).
Defined.

(** ** Strings: stripping, splitting, single characters *)

Module TextFacts.
Import PyStr.

Lemma lstrip_head (s : str) :
  match lstrip s with c :: _ => is_space c = false | [] => True end.
Proof.
  induction s as [|c s IH]; [exact I|]. cbn [lstrip].
  destruct (is_space c) eqn:E; [exact IH | exact E].
Qed.

Lemma lstrip_forall (p : ascii -> bool) (s : str) :
  forallb p s = true -> forallb p (lstrip s) = true.
Proof.
  destruct (ReFacts.lstrip_suffix s) as [a E]. intros H.
  rewrite E, forallb_app in H. apply andb_true_iff in H. tauto.
Qed.

Lemma forallb_rev {A} (p : A -> bool) (l : list A) :
  forallb p (rev l) = forallb p l.
Proof.
  induction l as [|x l IH]; [reflexivity|]. cbn [rev forallb].
  rewrite forallb_app, IH. cbn. rewrite andb_true_r. apply andb_comm.
Qed.

Lemma strip_forall (p : ascii -> bool) (s : str) :
  forallb p s = true -> forallb p (strip s) = true.
Proof.
  intros H. unfold strip, rstrip. rewrite forallb_rev.
  apply lstrip_forall. rewrite forallb_rev. apply lstrip_forall. exact H.
Qed.

(** A text with no white space at either end *)
Definition stripped (s : str) : Prop :=
  match s with c :: _ => is_space c = false | [] => True end
  /\ match rev s with c :: _ => is_space c = false | [] => True end.

Lemma stripped_strip_id (s : str) : stripped s -> strip s = s.
Proof. intros [H1 H2]. apply PyStrFacts.strip_id; assumption. Qed.

Lemma rstrip_last (s : str) :
  match rev (rstrip s) with c :: _ => is_space c = false | [] => True end.
Proof. unfold rstrip. rewrite rev_involutive. apply lstrip_head. Qed.

Lemma rstrip_prefix (s : str) : exists b, s = rstrip s ++ b.
Proof.
  unfold rstrip. destruct (ReFacts.lstrip_suffix (rev s)) as [a E].
  exists (rev a). apply (f_equal (@rev ascii)) in E.
  rewrite rev_involutive, rev_app_distr in E. exact E.
Qed.

Lemma strip_stripped (s : str) : stripped (strip s).
Proof.
  unfold strip. split; [|apply rstrip_last].
  pose proof (lstrip_head s) as H.
  destruct (rstrip_prefix (lstrip s)) as [b E].
  destruct (rstrip (lstrip s)) as [|c t]; [exact I|].
  rewrite E in H. exact H.
Qed.

Lemma strip_strip (s : str) : strip (strip s) = strip s.
Proof. apply stripped_strip_id, strip_stripped. Qed.

Lemma is_space_lower_char (c : ascii) : is_space (lower_char c) = is_space c.
Proof. destruct c as [[] [] [] [] [] [] [] []]; reflexivity. Qed.

Lemma lower_stripped (s : str) : stripped s -> stripped (lower s).
Proof.
  intros [H1 H2]. unfold lower. split.
  - destruct s as [|c t]; [exact I|]. cbn [map].
    rewrite is_space_lower_char. exact H1.
  - rewrite <- map_rev. destruct (rev s) as [|c t]; [exact I|]. cbn [map].
    rewrite is_space_lower_char. exact H2.
Qed.

(** [x] does not occur in [s] *)
Definition lacks (x : ascii) (s : str) : bool := forallb (Re.non x) s.

Lemma lacks_isin (x : ascii) (s : str) :
  isin [x] s = negb (lacks x s).
Proof.
  induction s as [|c s IH]; [reflexivity|].
  cbn [isin startswith lacks forallb]. fold (lacks x s). rewrite IH.
  unfold Re.non. rewrite Ascii.eqb_sym. destruct s; cbn [startswith];
    destruct (Ascii.eqb c x); reflexivity.
Qed.

Lemma lacks_pieces (sep : ascii) (s piece : str) :
  In piece (split_char sep s) -> lacks sep piece = true.
Proof.
  revert piece. induction s as [|c s IH]; intros piece.
  - intros [<-|[]]. reflexivity.
  - cbn [split_char]. destruct (Ascii.eqb c sep) eqn:E.
    + intros [<-|H]; [reflexivity | apply IH; exact H].
    + destruct (split_char sep s) as [|p ps].
      * intros [<-|[]]. cbn. unfold Re.non. rewrite E. reflexivity.
      * intros [<-|H].
        -- cbn [lacks forallb]. unfold Re.non at 1. rewrite E. cbn.
           apply IH. left. reflexivity.
        -- apply IH. right. exact H.
Qed.

Lemma split_char_nonempty (sep : ascii) (s : str) : split_char sep s <> [].
Proof.
  destruct s as [|c s]; [discriminate|]. cbn [split_char].
  destruct (Ascii.eqb c sep); [discriminate|].
  destruct (split_char sep s); discriminate.
Qed.

Lemma last_in {A} (l : list A) (d : A) : l <> [] -> In (last l d) l.
Proof.
  induction l as [|x l IH]; [congruence|]. intros _.
  destruct l as [|y l]; [left; reflexivity|].
  right. apply IH. discriminate.
Qed.

Lemma lower_char_keeps (x c : ascii) :
  is_upper x = false -> is_lower x = false ->
  Re.non x c = true -> Re.non x (lower_char c) = true.
Proof.
  unfold Re.non. intros Hu Hl H. destruct (Ascii.eqb (lower_char c) x) eqn:E;
    [|reflexivity].
  apply Ascii.eqb_eq in E. subst x. exfalso.
  revert Hu Hl H. destruct c as [[] [] [] [] [] [] [] []]; vm_compute;
    congruence.
Qed.

Lemma lower_lacks (x : ascii) (s : str) :
  is_upper x = false -> is_lower x = false ->
  lacks x s = true -> lacks x (lower s) = true.
Proof.
  intros Hu Hl. unfold lacks, lower. induction s as [|c s IH];
    [reflexivity|].
  cbn [map forallb]. intros H. apply andb_true_iff in H.
  destruct H as [Hc Hs]. rewrite (@lower_char_keeps x c Hu Hl Hc). cbn.
  apply IH. exact Hs.
Qed.

End TextFacts.

(** ** The multiplier lookups *)

Section RateByFacts.
Import RateBy TextFacts.

Lemma keyword_nonempty (rate_by_text keyword : str) :
  extract_rate_by_column_keyword rate_by_text = Some keyword ->
  Py.nonempty keyword = true.
Proof.
  unfold extract_rate_by_column_keyword.
  repeat match goal with
         | |- (if ?b then _ else _) = _ -> _ => destruct b eqn:?
         end; try discriminate.
  intros E. inversion E. subst keyword.
  match goal with H : _ && _ = true |- _ => apply andb_true_iff in H end.
  tauto.
Qed.

(** X5.  A keyword [extract_rate_by_column_keyword] returns is never
    empty, has no white space at either end, is in lower case, holds no
    slash and is none of [kg], [chargeable], [weight]; and one is returned
    only when the cleaned Rate By text holds a slash. *)
Theorem column_keyword_is_clean (rate_by_text keyword : str) :
  extract_rate_by_column_keyword rate_by_text = Some keyword ->
  Py.nonempty keyword = true
  /\ PyStr.strip keyword = keyword
  /\ PyStr.lower keyword = keyword
  /\ PyStr.isin (lit "/") keyword = false
  /\ existsb (PyStr.eqb keyword) excluded_keywords = false
  /\ PyStr.isin (lit "/") (clean_rate_by rate_by_text) = true.
Proof.
  unfold extract_rate_by_column_keyword.
  destruct (negb (Py.nonempty rate_by_text)); [discriminate|].
  destruct (PyStr.isin (lit "/") (clean_rate_by rate_by_text)) eqn:Hs;
    [|discriminate].
  destruct (2 <=? _); [|discriminate].
  set (piece := last (PyStr.split_char "/" (clean_rate_by rate_by_text)) []).
  destruct (Py.nonempty (PyStr.lower (PyStr.strip piece))) eqn:Hne;
    [|discriminate].
  destruct (existsb _ excluded_keywords) eqn:Hex; [discriminate|].
  cbn [negb andb]. intros E. inversion E. subst keyword. clear E.
  split; [exact Hne|]. split; [|split; [|split; [|split]]].
  - apply stripped_strip_id, lower_stripped, strip_stripped.
  - apply CaseFacts.lower_lower.
  - change (lit "/") with ["/"%char]. rewrite lacks_isin.
    apply negb_false_iff. apply lower_lacks; [reflexivity..|].
    apply strip_forall. apply (@lacks_pieces "/" (clean_rate_by rate_by_text)).
    apply last_in. apply split_char_nonempty.
  - exact Hex.
  - reflexivity.
Qed.

Lemma column_keyword_is_clean_witness :
  extract_rate_by_column_keyword (lit "Rate by: Area/LDM ") = Some (lit "ldm")
  /\ (Py.nonempty (lit "ldm") = true
      /\ PyStr.strip (lit "ldm") = lit "ldm"
      /\ PyStr.lower (lit "ldm") = lit "ldm"
      /\ PyStr.isin (lit "/") (lit "ldm") = false
      /\ existsb (PyStr.eqb (lit "ldm")) excluded_keywords = false
      /\ PyStr.isin (lit "/") (clean_rate_by (lit "Rate by: Area/LDM "))
         = true).
Proof.
  split; [reflexivity|].
  apply (@column_keyword_is_clean (lit "Rate by: Area/LDM ") (lit "ldm")).
  reflexivity.
Defined.

Lemma endswith_isin (s a b : str) :
  PyStr.endswith s (a ++ b) = true -> PyStr.isin b s = true.
Proof.
  unfold PyStr.endswith. intros H. apply PyStrFacts.startswith_spec in H.
  destruct H as [r E]. apply (f_equal (@rev ascii)) in E.
  rewrite rev_involutive, rev_app_distr, rev_involutive in E.
  apply PyStrFacts.isin_spec. exists (rev r ++ a), [].
  rewrite E, app_nil_r, <- app_assoc. reflexivity.
Qed.

Lemma startswith_isin (s a b : str) :
  PyStr.startswith s (a ++ b) = true -> PyStr.isin a s = true.
Proof.
  intros H. apply PyStrFacts.startswith_spec in H. destruct H as [r E].
  apply PyStrFacts.isin_spec. exists [], (b ++ r).
  rewrite E, <- app_assoc. reflexivity.
Qed.

(** The four-way name test is containment. *)
Lemma column_matches_isin (col_option col_name : str) :
  column_matches col_option col_name
  = PyStr.isin (Evaluator.underscored col_option)
               (Evaluator.underscored col_name).
Proof.
  unfold column_matches. cbv zeta.
  destruct (PyStr.isin _ (Evaluator.underscored col_name)) eqn:E.
  - rewrite orb_true_r. reflexivity.
  - rewrite orb_false_r.
    destruct (PyStr.eqb _ _) eqn:E1.
    { apply PyStrFacts.eqb_eq in E1. rewrite E1 in E.
      assert (T : PyStr.isin (Evaluator.underscored col_option)
                             (Evaluator.underscored col_option) = true).
      { apply PyStrFacts.isin_spec. exists [], [].
        rewrite app_nil_r. reflexivity. }
      congruence. }
    destruct (PyStr.endswith _ _) eqn:E2.
    { apply endswith_isin in E2. congruence. }
    destruct (PyStr.startswith _ _) eqn:E3.
    { apply startswith_isin in E3. congruence. }
    reflexivity.
Qed.

Lemma first_hit_sound (options : list str) (row : row_data)
      (kv : str * pyval) :
  first_hit options row = Some kv ->
  exists o, In o options /\ In kv row /\ column_hit o kv = true.
Proof.
  induction options as [|o l IH]; [discriminate|]. cbn [first_hit].
  destruct (find (column_hit o) row) as [kv'|] eqn:E.
  - intros H. inversion H. subst kv'. apply find_some in E.
    exists o. split; [left; reflexivity | exact E].
  - intros H. destruct (IH H) as [o' [Ho H']]. exists o'.
    split; [right; exact Ho | exact H'].
Qed.

Lemma first_hit_complete (options : list str) (row : row_data) :
  first_hit options row = None ->
  forall o kv, In o options -> In kv row -> column_hit o kv = false.
Proof.
  induction options as [|o l IH]; [intros _ o kv []|]. cbn [first_hit].
  destruct (find (column_hit o) row) as [kv'|] eqn:E; [discriminate|].
  intros H o' kv [<-|Ho] Hkv.
  - exact (find_none _ _ E kv Hkv).
  - exact (IH H o' kv Ho Hkv).
Qed.

(** X6.  The direct column lookup finds nothing in an empty row.  A value
    it reports as found is the value of an entry of the row that is
    neither None nor NaN and whose name, compared without case and with
    spaces and hyphens read as underscores, contains one of the candidate
    names of the keyword.  When it reports not found, the value is None
    and every such entry of the row holds None or NaN. *)
Theorem direct_column_lookup (rate_by_text : str) (row : row_data) :
  find_value_in_etof_columns rate_by_text [] = (None, PNone, false)
  /\ (forall name v,
         find_value_in_etof_columns rate_by_text row = (name, v, true) ->
         exists col keyword option,
           name = Some col /\ In (col, v) row
           /\ Py.is_none v = false /\ Py.is_float_nan v = false
           /\ extract_rate_by_column_keyword rate_by_text = Some keyword
           /\ In option (possible_columns keyword)
           /\ PyStr.isin (Evaluator.underscored option)
                         (Evaluator.underscored col) = true)
  /\ (forall name v,
         find_value_in_etof_columns rate_by_text row = (name, v, false) ->
         v = PNone
         /\ forall keyword option kv,
              extract_rate_by_column_keyword rate_by_text = Some keyword ->
              In option (possible_columns keyword) -> In kv row ->
              PyStr.isin (Evaluator.underscored option)
                         (Evaluator.underscored (fst kv)) = true ->
              Py.is_none (snd kv) || Py.is_float_nan (snd kv) = true).
Proof.
  split; [reflexivity|]. unfold find_value_in_etof_columns.
  destruct (negb (Py.nonempty row)) eqn:Hrow.
  { split; [discriminate|]. intros name v E. inversion E.
    split; [reflexivity|]. intros keyword option kv _ _ Hkv.
    destruct row; [destruct Hkv | discriminate]. }
  destruct (extract_rate_by_column_keyword rate_by_text) as [keyword|] eqn:Hk.
  2:{ split; [discriminate|]. intros name v E. inversion E.
      split; [reflexivity|]. discriminate. }
  rewrite (keyword_nonempty _ Hk). cbn [negb].
  destruct (first_hit (possible_columns keyword) row) as [[col val]|] eqn:Hf.
  - split; [|discriminate]. intros name v E. inversion E. subst name v.
    destruct (first_hit_sound _ _ Hf) as [o [Ho [Hin Hhit]]].
    unfold column_hit in Hhit. cbn [fst snd] in Hhit.
    rewrite column_matches_isin in Hhit.
    apply andb_true_iff in Hhit. destruct Hhit as [Hm Hv].
    apply andb_true_iff in Hv. destruct Hv as [Hv1 Hv2].
    apply negb_true_iff in Hv1, Hv2.
    exists col, keyword, o. auto 10.
  - split; [discriminate|]. intros name v E. inversion E.
    split; [reflexivity|]. intros keyword' option kv Ek Ho Hkv Hm.
    inversion Ek. subst keyword'.
    pose proof (first_hit_complete _ _ Hf option kv Ho Hkv) as Hh.
    unfold column_hit in Hh. rewrite column_matches_isin, Hm in Hh.
    cbn [andb] in Hh. destruct (Py.is_none (snd kv)); [reflexivity|].
    destruct (Py.is_float_nan (snd kv)); [reflexivity | discriminate].
Qed.

End RateByFacts.

Example direct_column_lookup_example :
  RateBy.find_value_in_etof_columns
    (lit "Rate by: Area/ldm")
    [(lit "Net LDM", PNone); (lit "Gross-LDM", PInt 3)]
  = (Some (lit "Gross-LDM"), PInt 3, true).
Proof. vm_compute. reflexivity. Qed.

Section MeasurementFacts.
Context {rt : PyRuntime}.
Import RateBy.

(** [str(cell).split(';')] *)
Definition segments (cell : pyval) : list str :=
  PyStr.split_char ";" (Py.to_str cell).

Lemma scan_sound (wanted : str) (units : list str) :
  forall (measurements : list str) (i : nat) (m u : str),
    scan_measurements wanted measurements units i = Some (m, u) ->
    exists k meas unit,
      nth_error measurements k = Some meas
      /\ nth_error units (i + k) = Some unit
      /\ measurement_matches wanted meas = true
      /\ m = PyStr.strip meas /\ u = PyStr.strip unit
      /\ forall j mj, j < k -> nth_error measurements j = Some mj ->
                      measurement_matches wanted mj = true ->
                      length units <= i + j.
Proof.
  induction measurements as [|meas rest IH]; intros i m u; [discriminate|].
  cbn [scan_measurements].
  assert (Next : scan_measurements wanted rest units (S i) = Some (m, u) ->
                 (measurement_matches wanted meas = true ->
                  length units <= i) ->
                 exists k meas0 unit,
                   nth_error (meas :: rest) k = Some meas0
                   /\ nth_error units (i + k) = Some unit
                   /\ measurement_matches wanted meas0 = true
                   /\ m = PyStr.strip meas0 /\ u = PyStr.strip unit
                   /\ forall j mj, j < k ->
                                   nth_error (meas :: rest) j = Some mj ->
                                   measurement_matches wanted mj = true ->
                                   length units <= i + j).
  { intros H H0. destruct (IH _ _ _ H) as [k [m0 [u0 [A [B [C [D [E F]]]]]]]].
    exists (S k), m0, u0. cbn [nth_error].
    replace (i + S k) with (S i + k) by lia.
    repeat (split; [assumption|]). intros j mj Hj Hn Hm.
    destruct j as [|j].
    - cbn in Hn. inversion Hn. subst mj. specialize (H0 Hm). lia.
    - cbn in Hn. specialize (F j mj ltac:(lia) Hn Hm). lia. }
  destruct (measurement_matches wanted meas) eqn:Hm.
  - destruct (nth_error units i) as [unit|] eqn:Hu.
    + intros E. inversion E. exists 0, meas, unit. cbn [nth_error].
      rewrite Nat.add_0_r. repeat (split; [auto|]). intros j mj Hj. lia.
    + intros H. apply Next; [exact H|]. intros _.
      apply nth_error_None. exact Hu.
  - intros H. apply Next; [exact H | discriminate].
Qed.

Lemma scan_complete (wanted : str) (units : list str) :
  forall (measurements : list str) (i : nat),
    scan_measurements wanted measurements units i = None ->
    forall k meas, nth_error measurements k = Some meas ->
                   measurement_matches wanted meas = true ->
                   length units <= i + k.
Proof.
  induction measurements as [|meas rest IH]; intros i H k m Hk Hm.
  - destruct k; discriminate.
  - cbn [scan_measurements] in H. destruct k as [|k].
    + cbn in Hk. inversion Hk. subst m. rewrite Hm in H.
      destruct (nth_error units i) eqn:Hu; [discriminate|].
      apply nth_error_None in Hu. lia.
    + cbn in Hk.
      assert (H' : scan_measurements wanted rest units (S i) = None).
      { destruct (measurement_matches wanted meas); [|exact H].
        destruct (nth_error units i); [discriminate | exact H]. }
      specialize (IH _ H' k m Hk Hm). lia.
Qed.

(** X7.  [extract_measurement_value] pairs a measurement with the unit
    at the same position of the two semicolon-separated cells.  What it
    reports as found is the stripped measurement and the stripped unit of
    the first position whose measurement matches the cleaned Rate By text
    and that has a unit; matching positions before it are beyond the end
    of the units.  When it reports not found the value is None, and, both
    cells being truthy, every matching position is beyond the end of the
    units.  A falsy cell gives not found.  A blank measurement segment
    matches every Rate By text, and a blank Rate By text matches every
    segment. *)
Theorem measurement_and_unit_share_a_position
        (rate_by_text : str) (measurement_str units_measurement_str : pyval) :
  (forall m u,
      extract_measurement_value rate_by_text measurement_str
                                units_measurement_str = (m, u, true) ->
      exists k meas unit,
        nth_error (segments measurement_str) k = Some meas
        /\ nth_error (segments units_measurement_str) k = Some unit
        /\ measurement_matches (PyStr.lower (clean_rate_by rate_by_text))
                               meas = true
        /\ m = Some (PyStr.strip meas) /\ u = PStr (PyStr.strip unit)
        /\ forall j mj,
             j < k -> nth_error (segments measurement_str) j = Some mj ->
             measurement_matches (PyStr.lower (clean_rate_by rate_by_text))
                                 mj = true ->
             length (segments units_measurement_str) <= j)
  /\ (forall m u,
         extract_measurement_value rate_by_text measurement_str
                                   units_measurement_str = (m, u, false) ->
         u = PNone
         /\ (Py.truthy measurement_str = true ->
             Py.truthy units_measurement_str = true ->
             m = Some (clean_rate_by rate_by_text)
             /\ forall k meas,
                  nth_error (segments measurement_str) k = Some meas ->
                  measurement_matches
                    (PyStr.lower (clean_rate_by rate_by_text)) meas = true ->
                  length (segments units_measurement_str) <= k))
  /\ (Py.truthy measurement_str = false
      \/ Py.truthy units_measurement_str = false ->
      extract_measurement_value rate_by_text measurement_str
                                units_measurement_str = (None, PNone, false))
  /\ (forall wanted meas,
         PyStr.strip meas = [] -> measurement_matches wanted meas = true)
  /\ (forall meas, measurement_matches [] meas = true).
Proof.
  unfold extract_measurement_value, segments.
  split; [|split; [|split; [|split]]].
  - intros m u. destruct (negb _ || negb _); [discriminate|]. cbv zeta.
    destruct (scan_measurements _ _ _ 0) as [[mc uv]|] eqn:Hs;
      [|discriminate].
    intros E. inversion E. subst m u.
    destruct (scan_sound _ _ _ _ Hs) as [k [m0 [u0 [A [B [C [D [F G]]]]]]]].
    exists k, m0, u0. cbn [Nat.add] in B, G. subst mc uv. auto 10.
  - intros m u. destruct (negb _ || negb _) eqn:Hg.
    + intros E. inversion E. split; [reflexivity|]. intros Ta Tb.
      rewrite Ta, Tb in Hg. discriminate.
    + cbv zeta. destruct (scan_measurements _ _ _ 0) as [[mc uv]|] eqn:Hs;
        [discriminate|].
      intros E. inversion E. split; [reflexivity|]. intros _ _.
      split; [reflexivity|]. intros k meas Hk Hm.
      exact (@scan_complete _ _ _ _ Hs k meas Hk Hm).
  - intros [H|H]; rewrite H; [|rewrite orb_true_r]; reflexivity.
  - intros wanted meas H. unfold measurement_matches. cbv zeta. rewrite H.
    cbn [PyStr.lower map]. destruct wanted; cbn; rewrite ?orb_true_r;
      reflexivity.
  - intros meas. unfold measurement_matches. cbv zeta.
    destruct (PyStr.lower (PyStr.strip meas)); cbn; rewrite ?orb_true_r;
      reflexivity.
Qed.

End MeasurementFacts.

Example measurement_example :
  @RateBy.extract_measurement_value plain_runtime
    (lit "Rate by: Condition/ExpressDelivery")
    (PStr (lit "Quantity/MAWB;Condition/Delivery Zone 3;Condition/ExpressDelivery"))
    (PStr (lit "1;2;3"))
  = (Some (lit "Condition/ExpressDelivery"), PStr (lit "3"), true).
Proof. vm_compute. reflexivity. Qed.

(** ** The match Python reports: the head of [run] *)

Module FirstMatch.
Import Re.

Definition first (ic : bool) (r : regex) (s : str) : option (caps * str) :=
  hd_error (run ic r s).

Lemma rmatch_first (ic : bool) (r : regex) (s : str) :
  rmatch ic r s = option_map fst (first ic r s).
Proof. unfold rmatch, first. destruct (run ic r s); reflexivity. Qed.

Lemma first_seq (ic : bool) (r1 r2 : regex) (s : str) (c1 : caps)
      (mid : str) (c2 : caps) (rest : str) :
  first ic r1 s = Some (c1, mid) -> first ic r2 mid = Some (c2, rest) ->
  first ic (Seq r1 r2) s = Some (c1 ++ c2, rest).
Proof.
  unfold first. cbn [run].
  destruct (run ic r1 s) as [|m1 l1]; [discriminate|]. intros E.
  inversion E. subst m1. cbn [flat_map fst snd].
  destruct (run ic r2 mid) as [|m2 l2]; [discriminate|]. intros E2.
  inversion E2. subst m2. reflexivity.
Qed.

Lemma first_chr (ic : bool) (x y : ascii) (s : str) :
  chr_eq ic x y = true -> first ic (Chr x) (y :: s) = Some ([], s).
Proof. intros H. unfold first. cbn [run]. rewrite H. reflexivity. Qed.

Lemma first_chars (ic : bool) (l pre rest : str) :
  ReFacts.same_text ic l pre = true ->
  first ic (chars l) (pre ++ rest) = Some ([], rest).
Proof.
  revert pre. induction l as [|x l IH]; intros [|y pre];
    cbn [ReFacts.same_text]; try discriminate.
  - intros _. reflexivity.
  - intros H. apply andb_true_iff in H. destruct H as [Hx Hl].
    destruct l as [|x' l'].
    + destruct pre; [|discriminate]. cbn [chars app].
      apply first_chr. exact Hx.
    + change (chars (x :: x' :: l')) with (Seq (Chr x) (chars (x' :: l'))).
      change ((y :: pre) ++ rest) with (y :: (pre ++ rest)).
      apply (@first_seq ic _ _ _ [] (pre ++ rest) [] rest).
      * apply first_chr. exact Hx.
      * apply IH. exact Hl.
Qed.

Lemma first_text (ic : bool) (w : string) (pre rest : str) :
  ReFacts.same_text ic (lit w) pre = true ->
  first ic (text w) (pre ++ rest) = Some ([], rest).
Proof. apply first_chars. Qed.

(** The class [p] stops at [r]. *)
Definition stops (p : ascii -> bool) (r : str) : Prop :=
  match r with [] => True | c :: _ => p c = false end.

Lemma tails_stop (p : ascii -> bool) (a r : str) :
  forallb p a = true -> stops p r ->
  forall lo, lo <= length a ->
             exists more, rev (skipn lo (tails p (a ++ r))) = r :: more.
Proof.
  intros Ha Hr. induction a as [|c a IH]; intros lo Hlo.
  - cbn in Hlo. assert (lo = 0) by lia. subst lo. cbn [app skipn].
    destruct r as [|c r]; [exists []; reflexivity|].
    cbn [tails]. cbn in Hr. rewrite Hr. exists []. reflexivity.
  - cbn [forallb] in Ha. apply andb_true_iff in Ha. destruct Ha as [Hc Ha].
    cbn [app tails]. rewrite Hc. destruct lo as [|lo].
    + cbn [skipn rev]. destruct (IH Ha 0 ltac:(lia)) as [more E].
      cbn [skipn] in E. rewrite E. eexists. reflexivity.
    + cbn [skipn]. apply (IH Ha). cbn in Hlo. lia.
Qed.

Lemma first_rep_greedy (ic : bool) (lo : nat) (p : ascii -> bool)
      (a r : str) :
  forallb p a = true -> lo <= length a -> stops p r ->
  first ic (Rep true lo p) (a ++ r) = Some ([], r).
Proof.
  intros Ha Hlo Hr. unfold first. cbn [run].
  destruct (@tails_stop p a r Ha Hr lo Hlo) as [more E]. rewrite E.
  reflexivity.
Qed.

Lemma first_grp (ic : bool) (n : nat) (r : regex) (pre rest : str)
      (c : caps) :
  first ic r (pre ++ rest) = Some (c, rest) ->
  first ic (Grp n r) (pre ++ rest) = Some ((n, pre) :: c, rest).
Proof.
  unfold first. cbn [run].
  destruct (run ic r (pre ++ rest)) as [|m l]; [discriminate|].
  intros E. inversion E. subst m. cbn [map hd_error fst snd].
  rewrite ReFacts.firstn_consumed. reflexivity.
Qed.

Lemma first_opt_some (ic : bool) (r : regex) (s : str) (m : caps * str) :
  first ic r s = Some m -> first ic (Opt r) s = Some m.
Proof.
  unfold first. cbn [run]. destruct (run ic r s); [discriminate|].
  intros E. exact E.
Qed.

Lemma first_opt_none (ic : bool) (r : regex) (s : str) :
  run ic r s = [] -> first ic (Opt r) s = Some ([], s).
Proof. intros E. unfold first. cbn [run]. rewrite E. reflexivity. Qed.

(** A pattern that starts with a character is not found where that
    character is not. *)
Lemma run_chr_mismatch (ic : bool) (x : ascii) (r : regex) (s : str) :
  match s with [] => True | y :: _ => chr_eq ic x y = false end ->
  run ic (Seq (Chr x) r) s = [].
Proof.
  intros H. cbn [run]. destruct s as [|y s]; [reflexivity|].
  rewrite H. reflexivity.
Qed.

Lemma search_found (ic : bool) (r : regex) (s : str) (m : caps * str) :
  first ic r s = Some m -> search ic r s = Some (fst m).
Proof.
  intros H. destruct s; cbn [search]; rewrite rmatch_first, H; reflexivity.
Qed.

Lemma search_skip (ic : bool) (r : regex) (pre s : str) :
  (forall k, k < length pre -> run ic r (skipn k (pre ++ s)) = []) ->
  search ic r (pre ++ s) = search ic r s.
Proof.
  induction pre as [|c pre IH]; intros H; [reflexivity|].
  cbn [app search].
  assert (H0 : run ic r (c :: pre ++ s) = []).
  { apply (H 0). cbn. lia. }
  rewrite (ReFacts.rmatch_none _ _ _ H0).
  apply IH. intros k Hk. apply (H (S k)). cbn. lia.
Qed.

Lemma search_skip_chr (x : ascii) (r : regex) (pre s : str) :
  forallb (non x) pre = true ->
  search false (Seq (Chr x) r) (pre ++ s) = search false (Seq (Chr x) r) s.
Proof.
  intros H. apply search_skip. intros k Hk. apply run_chr_mismatch.
  rewrite skipn_app. replace (k - length pre) with 0 by lia. cbn [skipn].
  destruct (skipn k pre) as [|y t] eqn:E.
  - apply (f_equal (@length ascii)) in E. rewrite length_skipn in E.
    cbn in E. lia.
  - cbn [app]. unfold chr_eq.
    assert (Hy : In y pre).
    { rewrite <- (firstn_skipn k pre), E. apply in_or_app. right. left.
      reflexivity. }
    rewrite forallb_forall in H. specialize (H y Hy). unfold non in H.
    rewrite Ascii.eqb_sym. apply negb_true_iff. exact H.
Qed.

End FirstMatch.

(** ** Weight ranges in column names *)

Module NumberFacts.
Import Re FirstMatch.

(** A non-empty run of decimal digits *)
Definition digits (a : str) : Prop :=
  a <> [] /\ forallb digit a = true.

(** What follows continues neither the digits nor the fraction. *)
Definition ends_number (r : str) : Prop :=
  match r with
  | [] => True
  | c :: _ => digit c = false /\ Ascii.eqb "." c = false
  end.

Lemma number_first (a r : str) :
  digits a -> ends_number r ->
  first false TierColumns.number_re (a ++ r) = Some ([], r).
Proof.
  intros [Hne Hd] Hr. unfold TierColumns.number_re.
  apply (@first_seq false _ _ _ [] r [] r).
  - apply first_rep_greedy; [exact Hd | | ].
    + destruct a; [congruence | cbn; lia].
    + destruct r as [|c r]; [exact I | apply Hr].
  - apply first_opt_none. apply run_chr_mismatch.
    destruct r as [|c r]; [exact I | apply Hr].
Qed.

Lemma digit_lower_char (c : ascii) :
  digit c = true -> PyStr.lower_char c = c.
Proof.
  destruct c as [[] [] [] [] [] [] [] []]; vm_compute; congruence.
Qed.

Lemma digits_lower (a : str) :
  forallb digit a = true -> PyStr.lower a = a.
Proof.
  induction a as [|c a IH]; [reflexivity|]. cbn [forallb]. intros H.
  apply andb_true_iff in H. destruct H as [Hc Ha]. unfold PyStr.lower.
  cbn [map]. rewrite (digit_lower_char c Hc). f_equal. apply IH. exact Ha.
Qed.

Lemma digit_non (x c : ascii) :
  digit x = false -> digit c = true -> non x c = true.
Proof.
  intros Hx Hc. unfold non. destruct (Ascii.eqb c x) eqn:E; [|reflexivity].
  apply Ascii.eqb_eq in E. subst c. congruence.
Qed.

Lemma digits_lack (x : ascii) (a : str) :
  digit x = false -> forallb digit a = true -> forallb (non x) a = true.
Proof.
  intros Hx H. apply forallb_forall. intros c Hc.
  rewrite forallb_forall in H. apply digit_non; [exact Hx | apply H, Hc].
Qed.

Lemma digits_head (b r : str) :
  digits b -> match b ++ r with [] => False | c :: _ => digit c = true end.
Proof.
  intros [Hne Hd]. destruct b as [|c b]; [congruence|]. cbn in *.
  apply andb_true_iff in Hd. tauto.
Qed.

Lemma search_none_chr (x : ascii) (r : regex) (s : str) :
  forallb (non x) s = true -> search false (Seq (Chr x) r) s = None.
Proof.
  intros H. rewrite <- (app_nil_r s). rewrite search_skip_chr; [|exact H].
  cbn [search]. rewrite rmatch_first. unfold first.
  rewrite run_chr_mismatch; [reflexivity | exact I].
Qed.

End NumberFacts.

Section WeightRanges.
Context {rt : PyRuntime}.
Import Re FirstMatch NumberFacts TierColumns TextFacts.

Lemma lower_search (p a r : str) :
  lacks ">" p = true -> digits a -> ends_number r ->
  search false lower_re (p ++ lit ">" ++ a ++ r) = Some [(1, a)].
Proof.
  intros Hp Ha Hr. unfold lower_re. rewrite search_skip_chr by exact Hp.
  change (lit ">" ++ a ++ r) with (">"%char :: (a ++ r)).
  assert (F : first false (Chr ">" +++ Grp 1 number_re) (">"%char :: (a ++ r))
              = Some ([] ++ [(1, a)], r)).
  { apply (@first_seq false _ _ _ [] (a ++ r) [(1, a)] r).
    - apply first_chr. reflexivity.
    - apply first_grp. apply number_first; assumption. }
  rewrite (search_found _ _ _ F). reflexivity.
Qed.

Lemma upper_search (p b : str) :
  lacks "<" p = true -> digits b ->
  search false upper_re (p ++ lit "<=" ++ b) = Some [(1, b)].
Proof.
  intros Hp Hb. unfold upper_re. rewrite search_skip_chr by exact Hp.
  change (lit "<=" ++ b) with ("<"%char :: "="%char :: b).
  assert (F : first false
                    (Chr "<" +++ Opt (Chr "=") +++ Rep true 0 ws
                     +++ Grp 1 number_re) ("<"%char :: "="%char :: b)
              = Some ([] ++ [] ++ [] ++ [(1, b)], [])).
  { apply (@first_seq false _ _ _ [] ("="%char :: b) _ []).
    { apply first_chr. reflexivity. }
    apply (@first_seq false _ _ _ [] b _ []).
    { apply first_opt_some. apply first_chr. reflexivity. }
    apply (@first_seq false _ _ _ [] b _ []).
    { apply (@first_rep_greedy false 0 ws [] b); [reflexivity | cbn; lia |].
      pose proof (digits_head [] Hb) as H. rewrite app_nil_r in H.
      destruct b as [|c b]; [exact I|]. cbn.
      revert H. destruct c as [[] [] [] [] [] [] [] []]; vm_compute;
        congruence. }
    pose proof (@first_grp false 1 number_re b [] []
                  (@number_first b [] Hb I)) as G.
    rewrite app_nil_r in G. exact G. }
  rewrite (search_found _ _ _ F). reflexivity.
Qed.

Lemma isin_longer (x y : ascii) (s : str) :
  PyStr.isin [x] s = false -> PyStr.isin [x; y] s = false.
Proof.
  intros H. destruct (PyStr.isin [x; y] s) eqn:E; [|reflexivity].
  apply PyStrFacts.isin_spec in E. destruct E as [a [b E]].
  assert (T : PyStr.isin [x] s = true).
  { apply PyStrFacts.isin_spec. exists a, (y :: b). rewrite E. reflexivity. }
  congruence.
Qed.

(** X8.  [parse_weight_range_from_column] reads a weight range off a
    column name.  A name without [<] has no range, whatever else it
    holds; a lower bound is never returned without an upper bound.  For a
    name made of a prefix without [<] and [>], then [>a <=b] with [a] and
    [b] runs of digits, the range is the pair of the two numbers; for a
    prefix followed by [<=b] it is the upper bound [b] with no lower
    bound. *)
Theorem weight_range_of_a_column_name :
  (forall col_name,
      PyStr.isin (lit "<") (PyStr.lower col_name) = false ->
      parse_weight_range_from_column col_name = Returns (None, None))
  /\ (forall col_name lower_bound,
         parse_weight_range_from_column col_name
         = Returns (lower_bound, None) ->
         lower_bound = None)
  /\ (forall p a b fa fb,
         lacks "<" p = true -> lacks ">" p = true ->
         digits a -> digits b ->
         float_of_str a = Some fa -> float_of_str b = Some fb ->
         parse_weight_range_from_column (p ++ lit ">" ++ a ++ lit " <=" ++ b)
         = Returns (Some fa, Some fb))
  /\ (forall p b fb,
         lacks "<" p = true -> lacks ">" p = true ->
         digits b -> float_of_str b = Some fb ->
         parse_weight_range_from_column (p ++ lit "<=" ++ b)
         = Returns (None, Some fb)).
Proof.
  split; [|split; [|split]].
  - intros col_name H. unfold parse_weight_range_from_column.
    destruct (negb (Py.nonempty col_name)); [reflexivity|]. cbv zeta.
    change (lit "<") with ["<"%char] in *.
    change (lit "<=") with ["<"%char; "="%char].
    rewrite (@isin_longer "<" "=" _ H), H. reflexivity.
  - intros col_name lower_bound. unfold parse_weight_range_from_column.
    destruct (negb (Py.nonempty col_name)); [congruence|]. cbv zeta.
    destruct (negb _ && negb _); [congruence|].
    destruct (bound_of (search false lower_re _)); [|discriminate].
    destruct (bound_of (search false upper_re _)) as [[u|]|];
      congruence.
  - intros p a b fa fb Hp1 Hp2 Ha Hb Hfa Hfb.
    unfold parse_weight_range_from_column.
    assert (Hne : Py.nonempty (p ++ lit ">" ++ a ++ lit " <=" ++ b) = true).
    { destruct p; reflexivity. }
    rewrite Hne. cbn [negb]. cbv zeta.
    assert (El : PyStr.lower (p ++ lit ">" ++ a ++ lit " <=" ++ b)
                 = PyStr.lower p ++ lit ">" ++ a ++ lit " <=" ++ b).
    { rewrite !ReFacts.lower_app, (digits_lower a (proj2 Ha)),
        (digits_lower b (proj2 Hb)). reflexivity. }
    rewrite El.
    assert (Hlt : PyStr.isin (lit "<")
                    (PyStr.lower p ++ lit ">" ++ a ++ lit " <=" ++ b) = true).
    { apply PyStrFacts.isin_spec.
      exists (PyStr.lower p ++ lit ">" ++ a ++ lit " "), (lit "=" ++ b).
      rewrite <- !app_assoc. reflexivity. }
    rewrite Hlt, andb_false_r.
    rewrite (@lower_search (PyStr.lower p) a (lit " <=" ++ b)).
    2:{ apply lower_lacks; [reflexivity..|exact Hp2]. }
    2:{ exact Ha. }
    2:{ split; reflexivity. }
    cbn [bound_of group Nat.eqb]. rewrite Hfa.
    replace (PyStr.lower p ++ lit ">" ++ a ++ lit " <=" ++ b)
      with ((PyStr.lower p ++ lit ">" ++ a ++ lit " ") ++ lit "<=" ++ b)
      by (rewrite <- !app_assoc; reflexivity).
    rewrite upper_search.
    + cbn [bound_of group Nat.eqb]. rewrite Hfb. reflexivity.
    + unfold lacks. rewrite !forallb_app.
      fold (lacks "<" (PyStr.lower p)).
      rewrite (@lower_lacks "<" p eq_refl eq_refl Hp1).
      rewrite (@digits_lack "<" a eq_refl (proj2 Ha)). reflexivity.
    + exact Hb.
  - intros p b fb Hp1 Hp2 Hb Hfb.
    unfold parse_weight_range_from_column.
    assert (Hne : Py.nonempty (p ++ lit "<=" ++ b) = true).
    { destruct p; reflexivity. }
    rewrite Hne. cbn [negb]. cbv zeta.
    assert (El : PyStr.lower (p ++ lit "<=" ++ b)
                 = PyStr.lower p ++ lit "<=" ++ b).
    { rewrite !ReFacts.lower_app, (digits_lower b (proj2 Hb)). reflexivity. }
    rewrite El.
    assert (Hlt : PyStr.isin (lit "<") (PyStr.lower p ++ lit "<=" ++ b)
                  = true).
    { apply PyStrFacts.isin_spec. exists (PyStr.lower p), (lit "=" ++ b).
      reflexivity. }
    rewrite Hlt, andb_false_r.
    unfold lower_re at 1. rewrite search_none_chr.
    2:{ rewrite !forallb_app.
        fold (lacks ">" (PyStr.lower p)).
        rewrite (@lower_lacks ">" p eq_refl eq_refl Hp2).
        rewrite (@digits_lack ">" b eq_refl (proj2 Hb)). reflexivity. }
    cbn [bound_of]. rewrite upper_search.
    + cbn [bound_of group Nat.eqb]. rewrite Hfb. reflexivity.
    + apply lower_lacks; [reflexivity..|exact Hp1].
    + exact Hb.
Qed.

End WeightRanges.

Example weight_range_example :
  @TierColumns.parse_weight_range_from_column plain_runtime
    (lit "Price Flat >200 <=500")
  = Returns (Some 200%float, Some 500%float).
Proof. vm_compute. reflexivity. Qed.

Section TierColumnFacts.
Context {rt : PyRuntime}.
Import TierColumns.

Lemma nth_error_numbered {A} (l : list A) :
  forall a j,
    nth_error (combine (seq a (length l)) l) j
    = option_map (fun x => (a + j, x)) (nth_error l j).
Proof.
  induction l as [|x l IH]; intros a j.
  - destruct j; reflexivity.
  - cbn [length seq combine]. destruct j as [|j]; cbn [nth_error option_map].
    + rewrite Nat.add_0_r. reflexivity.
    + rewrite IH. replace (S a + j) with (a + S j) by lia. reflexivity.
Qed.

Lemma window_spec (lo hi : nat) (cols : list str) (i : nat) (col : str) :
  In (i, col) (window lo hi cols) ->
  lo <= i /\ i < hi /\ nth_error cols i = Some col.
Proof.
  intros H. apply In_nth_error in H. destruct H as [k H].
  unfold window in H. rewrite nth_error_firstn in H.
  destruct (k <? hi - lo) eqn:Hk; [|discriminate].
  apply Nat.ltb_lt in Hk.
  rewrite nth_error_skipn, nth_error_numbered in H.
  destruct (nth_error cols (lo + k)) as [x|] eqn:E; [|discriminate].
  cbn in H. inversion H. subst i col. repeat split; [lia | lia | exact E].
Qed.

Lemma window_head (c : nat) (cols : list str) (col : str) :
  nth_error cols (c + 1) = Some col ->
  exists rest, window (c + 1) (c + 10) cols = (c + 1, col) :: rest.
Proof.
  intros H. unfold window.
  set (l := skipn (c + 1) (combine (seq 0 (length cols)) cols)).
  assert (E : nth_error l 0 = Some (c + 1, col)).
  { unfold l. rewrite nth_error_skipn, nth_error_numbered, Nat.add_0_r, H.
    reflexivity. }
  destruct l as [|x l']; [discriminate|]. cbn in E. inversion E.
  replace (c + 10 - (c + 1)) with 9 by lia. eexists. reflexivity.
Qed.

(** The column is one the scan looks at for this price type. *)
Definition of_price_type (pt : price_type) (col : str) : Prop :=
  (pt = flat -> PyStr.isin (lit "flat") (PyStr.lower col) = true)
  /\ (pt = per_unit ->
      PyStr.isin (lit "per unit") (PyStr.lower col) = true).

Lemma tier_scan_spec (pt : price_type) :
  forall (w : list (nat * str)) (l : list Tiers.tier),
    tier_scan pt w = Returns l ->
    length l <= length w
    /\ forall i lower upper,
         In (i, lower, upper) l ->
         exists col,
           In (i, col) w /\ of_price_type pt col
           /\ parse_weight_range_from_column col
              = Returns (lower, Some upper).
Proof.
  induction w as [|[i col] w IH]; intros l.
  - cbn. intros E. inversion E. subst l. split; [cbn; lia | intros ? ? ? []].
  - cbn [tier_scan]. cbv zeta.
    assert (Skip : tier_scan pt w = Returns l ->
                   length l <= length ((i, col) :: w)
                   /\ forall i0 lower upper,
                        In (i0, lower, upper) l ->
                        exists col0,
                          In (i0, col0) ((i, col) :: w)
                          /\ of_price_type pt col0
                          /\ parse_weight_range_from_column col0
                             = Returns (lower, Some upper)).
    { intros E. destruct (IH _ E) as [Hlen Hin]. split; [cbn; lia|].
      intros i0 lo up H. destruct (Hin _ _ _ H) as [c0 [A B]].
      exists c0. split; [right; exact A | exact B]. }
    destruct (is_flat pt && negb (PyStr.isin (lit "flat") (PyStr.lower col)))
      eqn:G1; [exact Skip|].
    destruct (is_per_unit pt
              && negb (PyStr.isin (lit "per unit") (PyStr.lower col)))
      eqn:G2; [exact Skip|].
    assert (Hty : of_price_type pt col).
    { split; intros ->; cbn in G1, G2.
      - apply negb_false_iff in G1. exact G1.
      - apply negb_false_iff in G2. exact G2. }
    destruct (parse_weight_range_from_column col) as [[lo [up|]]|e] eqn:P;
      [| |discriminate].
    + destruct (tier_scan pt w) as [l'|e] eqn:T; [|discriminate].
      intros E. inversion E. subst l. destruct (IH _ eq_refl) as [Hlen Hin].
      split; [cbn; lia|]. intros i0 lo0 up0 [H|H].
      * inversion H. subst i0 lo0 up0. exists col.
        split; [left; reflexivity | split; assumption].
      * destruct (Hin _ _ _ H) as [c0 [A B]]. exists c0.
        split; [right; exact A | exact B].
    + match goal with
      | |- (if ?b then _ else _) = _ -> _ => destruct b
      end.
      { intros E. inversion E. subst l.
        split; [cbn; lia | intros ? ? ? []]. }
      match goal with
      | |- (if ?b then _ else _) = _ -> _ => destruct b
      end.
      { intros E. inversion E. subst l.
        split; [cbn; lia | intros ? ? ? []]. }
      exact Skip.
Qed.

(** X9.  The weight-tier columns [find_weight_tiered_price_columns]
    reports lie among the nine columns that follow the cost column: there
    are at most nine, each has an index [i] with
    [cost_col_idx < i < cost_col_idx + 10] inside the header, its name
    holds the word of the price type asked for ([flat], [per unit]), and
    its bounds are the weight range read off its name, with an upper
    bound. *)
Theorem tier_columns_follow_the_cost_column
        (columns_list : list str) (cost_col_idx : nat) (pt : price_type)
        (tiers : list Tiers.tier) :
  find_weight_tiered_price_columns columns_list cost_col_idx pt
  = Returns tiers ->
  length tiers <= 9
  /\ forall i lower upper,
       In (i, lower, upper) tiers ->
       cost_col_idx < i /\ i < cost_col_idx + 10
       /\ exists col,
            nth_error columns_list i = Some col
            /\ of_price_type pt col
            /\ parse_weight_range_from_column col
               = Returns (lower, Some upper).
Proof.
  unfold find_weight_tiered_price_columns. intros H.
  destruct (tier_scan_spec _ _ H) as [Hlen Hin]. split.
  - unfold window in Hlen. rewrite length_firstn in Hlen. lia.
  - intros i lo up Ht. destruct (Hin _ _ _ Ht) as [col [Hw [Hty Hp]]].
    apply window_spec in Hw. destruct Hw as [A [B C]].
    split; [lia|]. split; [lia|]. exists col. auto.
Qed.

(** X10.  A plain price column right after the cost column ends the
    scan at once: when the name of that column holds the word of the
    price type, no [<], and (for [flat]) neither [min] nor [max], no
    weight tier is reported, whatever columns follow. *)
Theorem plain_price_column_means_no_tiers
        (columns_list : list str) (cost_col_idx : nat) (col : str) :
  nth_error columns_list (cost_col_idx + 1) = Some col ->
  PyStr.isin (lit "<") (PyStr.lower col) = false ->
  (PyStr.isin (lit "flat") (PyStr.lower col) = true ->
   PyStr.isin (lit "min") (PyStr.lower col) = false ->
   PyStr.isin (lit "max") (PyStr.lower col) = false ->
   find_weight_tiered_price_columns columns_list cost_col_idx flat
   = Returns [])
  /\ (PyStr.isin (lit "per unit") (PyStr.lower col) = true ->
      find_weight_tiered_price_columns columns_list cost_col_idx per_unit
      = Returns []).
Proof.
  intros Hn Hlt. unfold find_weight_tiered_price_columns.
  destruct (window_head _ _ Hn) as [rest ->].
  assert (P : parse_weight_range_from_column col = Returns (None, None)).
  { unfold parse_weight_range_from_column.
    destruct (negb (Py.nonempty col)); [reflexivity|]. cbv zeta.
    change (lit "<") with ["<"%char] in Hlt.
    change (lit "<=") with ["<"%char; "="%char].
    change (lit "<") with ["<"%char].
    rewrite (@isin_longer "<" "=" _ Hlt), Hlt. reflexivity. }
  split.
  - intros Hf Hmin Hmax. cbn [tier_scan is_flat is_per_unit andb].
    cbv zeta. rewrite Hf, P, Hmin, Hmax. reflexivity.
  - intros Hu. cbn [tier_scan is_flat is_per_unit andb].
    cbv zeta. rewrite Hu, P. reflexivity.
Qed.

End TierColumnFacts.

Definition tiered_header : list str :=
  [lit "Lane #"; lit "Pickup Fee"; lit "Price Flat <=200";
   lit "Price Flat >200 <=500"; lit "Price Flat MIN"; lit "Price Flat";
   lit "Price Flat <=900"].

Definition plain_header : list str :=
  [lit "Lane #"; lit "Pickup Fee"; lit "Price Flat";
   lit "Price Flat <=200"].

Lemma tier_columns_follow_the_cost_column_witness :
  @TierColumns.find_weight_tiered_price_columns plain_runtime
    tiered_header 1 flat
  = Returns [(2, None, 200%float); (3, Some 200%float, 500%float)]
  /\ (length [(2, @None float, 200%float); (3, Some 200%float, 500%float)]
      <= 9
      /\ forall i lower upper,
           In (i, lower, upper)
              [(2, None, 200%float); (3, Some 200%float, 500%float)] ->
           1 < i /\ i < 1 + 10
           /\ exists col,
                nth_error tiered_header i = Some col
                /\ of_price_type flat col
                /\ @TierColumns.parse_weight_range_from_column
                     plain_runtime col
                   = Returns (lower, Some upper)).
Proof.
  split; [vm_compute; reflexivity|].
  apply (@tier_columns_follow_the_cost_column plain_runtime
           tiered_header 1 flat).
  vm_compute. reflexivity.
Defined.

Lemma plain_price_column_means_no_tiers_witness :
  nth_error plain_header (1 + 1) = Some (lit "Price Flat")
  /\ PyStr.isin (lit "<") (PyStr.lower (lit "Price Flat")) = false
  /\ @TierColumns.find_weight_tiered_price_columns plain_runtime
       plain_header 1 flat = Returns [].
Proof.
  split; [reflexivity|]. split; [reflexivity|].
  apply (proj1 (@plain_price_column_means_no_tiers plain_runtime
                  plain_header 1 (lit "Price Flat") eq_refl eq_refl));
    reflexivity.
Defined.

(** ** Rate lanes in a comment *)

Module LaneFacts.
Import Re FirstMatch TextFacts NumberFacts.

Definition lane_class (c : ascii) : bool :=
  digit c || Ascii.eqb c "," || ws c.

Lemma search_in (ic : bool) (r : regex) (s : str) (c : caps) :
  search ic r s = Some c ->
  exists s' rest, In (c, rest) (run ic r s').
Proof.
  induction s as [|x s IH]; cbn [search].
  - destruct (rmatch ic r []) as [c'|] eqn:E; [|discriminate].
    intros H. inversion H. subst c'. apply ReFacts.rmatch_in in E.
    destruct E as [rest E]. eauto.
  - destruct (rmatch ic r (x :: s)) as [c'|] eqn:E.
    + intros H. inversion H. subst c'. apply ReFacts.rmatch_in in E.
      destruct E as [rest E]. eauto.
    + exact IH.
Qed.

Lemma lane_group (s : str) (c : caps) (rest : str) :
  In (c, rest) (run true Lanes.lane_re s) ->
  forallb lane_class (group 1 c) = true.
Proof.
  unfold Lanes.lane_re. intros H.
  apply ReFacts.in_run_seq in H. destruct H as [c1 [m1 [k1 [H1 [H E1]]]]].
  apply ReFacts.in_run_chars in H1. destruct H1 as [-> _].
  apply ReFacts.in_run_seq in H. destruct H as [c2 [m2 [k2 [H2 [H E2]]]]].
  apply ReFacts.in_run_rep in H2. destruct H2 as [-> _].
  apply ReFacts.in_run_seq in H. destruct H as [c3 [m3 [k3 [H3 [H E3]]]]].
  apply ReFacts.in_run_chars in H3. destruct H3 as [-> _].
  apply ReFacts.in_run_seq in H. destruct H as [c4 [m4 [k4 [H4 [H E4]]]]].
  assert (c4 = []).
  { apply ReFacts.in_run_opt in H4. destruct H4 as [H4|H4].
    - apply ReFacts.in_run_chr in H4. tauto.
    - inversion H4. reflexivity. }
  subst c4.
  apply ReFacts.in_run_seq in H. destruct H as [c5 [m5 [k5 [H5 [H E5]]]]].
  apply ReFacts.in_run_chr in H5. destruct H5 as [-> _].
  apply ReFacts.in_run_seq in H. destruct H as [c6 [m6 [k6 [H6 [H E6]]]]].
  apply ReFacts.in_run_rep in H6. destruct H6 as [-> _].
  apply ReFacts.in_run_grp in H. destruct H as [c7 [H E7]].
  apply ReFacts.in_run_rep in H. destruct H as [-> [pre [-> [Hp _]]]].
  subst. cbn [app group Nat.eqb]. rewrite ReFacts.firstn_consumed.
  exact Hp.
Qed.

Lemma pieces_forall (p : ascii -> bool) (sep : ascii) (s piece : str) :
  forallb p s = true -> In piece (PyStr.split_char sep s) ->
  forallb p piece = true.
Proof.
  revert piece. induction s as [|c s IH]; intros piece Hs.
  - intros [<-|[]]. reflexivity.
  - cbn [forallb] in Hs. apply andb_true_iff in Hs. destruct Hs as [Hc Hs].
    cbn [PyStr.split_char]. destruct (Ascii.eqb c sep).
    + intros [<-|H]; [reflexivity | apply IH; assumption].
    + destruct (PyStr.split_char sep s) as [|q qs] eqn:E.
      * intros [<-|[]]. cbn. rewrite Hc. reflexivity.
      * intros [<-|H].
        -- cbn [forallb]. rewrite Hc. apply IH; [exact Hs | left; reflexivity].
        -- apply IH; [exact Hs | right; exact H].
Qed.

End LaneFacts.

Section LaneInvariants.
Context {rt : PyRuntime}.
Import Re TextFacts LaneFacts.

(** X11.  Every lane [extract_rate_lane] returns is a non-empty text
    without a comma and without white space at either end, made of digits
    and white space only. *)
Theorem extracted_lanes_are_clean (comment : pyval) (lane : str) :
  In lane (Lanes.extract_rate_lane comment) ->
  Py.nonempty lane = true
  /\ PyStr.strip lane = lane
  /\ lacks "," lane = true
  /\ forallb (fun c => digit c || ws c) lane = true.
Proof.
  unfold Lanes.extract_rate_lane.
  destruct (negb (Py.truthy comment) || Py.isna comment); [intros []|].
  destruct (search true Lanes.lane_re (Py.to_str comment)) as [m|] eqn:Hs;
    [|intros []].
  intros H. apply filter_In in H. destruct H as [H Hne].
  apply in_map_iff in H. destruct H as [piece [<- Hp]].
  destruct (search_in _ _ _ Hs) as [s' [rest Hin]].
  pose proof (lane_group _ _ _ Hin) as Hg.
  pose proof (pieces_forall _ _ _ _ Hg Hp) as Hc.
  pose proof (lacks_pieces _ _ _ Hp) as Hl.
  split; [exact Hne|]. split; [apply strip_strip|].
  split; [apply strip_forall; exact Hl|].
  apply strip_forall. apply forallb_forall. intros c Hin'.
  unfold lacks in Hl. rewrite forallb_forall in Hc, Hl.
  specialize (Hc c Hin'). specialize (Hl c Hin').
  unfold lane_class in Hc. unfold non in Hl.
  destruct (Ascii.eqb c ","); [discriminate|].
  rewrite orb_false_r in Hc. exact Hc.
Qed.

End LaneInvariants.

Lemma extracted_lanes_are_clean_witness :
  In (lit "2465")
     (@Lanes.extract_rate_lane plain_runtime
        (PStr (lit "Checked. Rate lanes: 2464 , 2465; see card")))
  /\ (Py.nonempty (lit "2465") = true
      /\ PyStr.strip (lit "2465") = lit "2465"
      /\ TextFacts.lacks "," (lit "2465") = true
      /\ forallb (fun c => Re.digit c || Re.ws c) (lit "2465") = true).
Proof.
  split; [vm_compute; auto|].
  apply (@extracted_lanes_are_clean plain_runtime
           (PStr (lit "Checked. Rate lanes: 2464 , 2465; see card"))).
  vm_compute. auto.
Defined.

Module LaneRoundTrip.
Import Re FirstMatch TextFacts NumberFacts LaneFacts.

(** A lane number: a non-empty run of digits *)
Definition lane_number (l : str) : bool := Py.nonempty l && forallb digit l.

Lemma lane_number_digits (l : str) : lane_number l = true -> digits l.
Proof.
  unfold lane_number, digits. intros H. apply andb_true_iff in H.
  destruct H as [Hn Hd]. split; [|exact Hd]. destruct l; [discriminate|].
  discriminate.
Qed.

Lemma digit_not_space (c : ascii) : digit c = true -> PyStr.is_space c = false.
Proof. destruct c as [[] [] [] [] [] [] [] []]; vm_compute; congruence. Qed.

Lemma digits_stripped (l : str) : forallb digit l = true -> stripped l.
Proof.
  intros H. rewrite forallb_forall in H. split.
  - destruct l as [|c l]; [exact I|]. apply digit_not_space, H. left.
    reflexivity.
  - destruct (rev l) as [|c t] eqn:E; [exact I|]. apply digit_not_space, H.
    apply in_rev. rewrite E. left. reflexivity.
Qed.

Lemma split_char_lacks (sep : ascii) (a : str) :
  lacks sep a = true -> PyStr.split_char sep a = [a].
Proof.
  induction a as [|c a IH]; [reflexivity|]. cbn [lacks forallb].
  intros H. apply andb_true_iff in H. destruct H as [Hc Ha].
  cbn [PyStr.split_char]. unfold non in Hc. apply negb_true_iff in Hc.
  rewrite Hc, (IH Ha). reflexivity.
Qed.

Lemma split_char_app (sep : ascii) (a b : str) :
  lacks sep a = true ->
  PyStr.split_char sep (a ++ sep :: b) = a :: PyStr.split_char sep b.
Proof.
  induction a as [|c a IH].
  - intros _. cbn [app PyStr.split_char]. rewrite Ascii.eqb_refl. reflexivity.
  - cbn [lacks forallb]. intros H. apply andb_true_iff in H.
    destruct H as [Hc Ha]. cbn [app PyStr.split_char].
    unfold non in Hc. apply negb_true_iff in Hc. rewrite Hc, (IH Ha).
    reflexivity.
Qed.

Lemma split_join (l : str) (ls : list str) :
  forallb lane_number (l :: ls) = true ->
  PyStr.split_char "," (PyStr.join (lit ", ") (l :: ls))
  = l :: map (fun x => " "%char :: x) ls.
Proof.
  revert l. induction ls as [|l2 ls IH]; intros l H.
  - cbn [PyStr.join map]. apply split_char_lacks.
    cbn [forallb] in H. rewrite andb_true_r in H.
    apply lane_number_digits in H. apply (@digits_lack "," l eq_refl), H.
  - cbn [forallb] in H. apply andb_true_iff in H. destruct H as [Hl H].
    change (PyStr.join (lit ", ") (l :: l2 :: ls))
      with (l ++ ","%char :: " "%char :: PyStr.join (lit ", ") (l2 :: ls)).
    rewrite split_char_app.
    2:{ apply lane_number_digits in Hl.
        apply (@digits_lack "," l eq_refl), Hl. }
    cbn [PyStr.split_char]. change (Ascii.eqb " " ",") with false.
    cbv iota. rewrite (IH l2 H). reflexivity.
Qed.

Lemma strip_pieces (l : str) (ls : list str) :
  forallb lane_number (l :: ls) = true ->
  filter (fun x : str => Py.nonempty x)
         (map PyStr.strip (l :: map (fun x => " "%char :: x) ls))
  = l :: ls.
Proof.
  assert (S1 : forall x, lane_number x = true -> PyStr.strip x = x).
  { intros x Hx. apply stripped_strip_id, digits_stripped.
    apply lane_number_digits in Hx. apply Hx. }
  assert (N : forall x, lane_number x = true -> Py.nonempty x = true).
  { intros x Hx. unfold lane_number in Hx. apply andb_true_iff in Hx.
    tauto. }
  intros H. cbn [forallb] in H. apply andb_true_iff in H.
  destruct H as [Hl H]. cbn [map filter]. rewrite (S1 l Hl), (N l Hl).
  f_equal. induction ls as [|x ls IH]; [reflexivity|].
  cbn [forallb] in H. apply andb_true_iff in H. destruct H as [Hx H].
  cbn [map filter].
  change (PyStr.strip (" "%char :: x)) with (PyStr.strip x).
  rewrite (S1 x Hx), (N x Hx), (IH H). reflexivity.
Qed.

Lemma join_class (l : str) (ls : list str) :
  forallb lane_number (l :: ls) = true ->
  forallb lane_class (PyStr.join (lit ", ") (l :: ls)) = true
  /\ 1 <= length (PyStr.join (lit ", ") (l :: ls))
  /\ stops ws (PyStr.join (lit ", ") (l :: ls)).
Proof.
  assert (C : forall x, lane_number x = true ->
                        forallb lane_class x = true).
  { intros x Hx. apply lane_number_digits in Hx. destruct Hx as [_ Hx].
    apply forallb_forall. intros c Hc. rewrite forallb_forall in Hx.
    unfold lane_class. rewrite (Hx c Hc). reflexivity. }
  assert (Hd : forall x t, lane_number x = true -> 
                           1 <= length (x ++ t) /\ stops ws (x ++ t)).
  { intros x t Hx. apply lane_number_digits in Hx. destruct Hx as [Hn Hx].
    destruct x as [|c x]; [congruence|]. cbn [forallb] in Hx.
    apply andb_true_iff in Hx. split; [cbn; lia|]. cbn.
    apply digit_not_space. tauto. }
  revert l. induction ls as [|l2 ls IH]; intros l H.
  - cbn [forallb] in H. rewrite andb_true_r in H. cbn [PyStr.join].
    split; [exact (C l H)|]. rewrite <- (app_nil_r l). exact (Hd l [] H).
  - cbn [forallb] in H. apply andb_true_iff in H. destruct H as [Hl H].
    change (PyStr.join (lit ", ") (l :: l2 :: ls))
      with (l ++ ","%char :: " "%char :: PyStr.join (lit ", ") (l2 :: ls)).
    split; [|exact (Hd l _ Hl)].
    rewrite forallb_app, (C l Hl). cbn [forallb andb].
    change (lane_class ",") with true. change (lane_class " ") with true.
    cbn [andb]. apply (IH l2 H).
Qed.

End LaneRoundTrip.

Section LaneRoundTripTheorem.
Context {rt : PyRuntime}.
Import Re FirstMatch TextFacts NumberFacts LaneFacts LaneRoundTrip.

Lemma lane_first (plural : bool) (g tail : str) :
  forallb lane_class g = true -> 1 <= length g -> stops ws g ->
  stops lane_class tail ->
  first true Lanes.lane_re
        (lit (if plural then "Rate lanes: " else "Rate lane: ") ++ g ++ tail)
  = Some ([(1, g)], tail).
Proof.
  intros Hg Hlen Hws Htail. unfold Lanes.lane_re.
  assert (Hgt : stops ws (g ++ tail)).
  { destruct g as [|c g]; [cbn in Hlen; lia | exact Hws]. }
  change (Some ([(1, g)], tail))
    with (Some ([] ++ [] ++ [] ++ [] ++ [] ++ [] ++ [(1, g)], tail)).
  destruct plural.
  - change (lit "Rate lanes: " ++ g ++ tail)
      with (lit "Rate" ++ lit " " ++ lit "lane"
            ++ "s"%char :: ":"%char :: lit " " ++ g ++ tail).
    eapply first_seq; [apply first_text; reflexivity|].
    eapply first_seq;
      [apply first_rep_greedy; [reflexivity | cbn; lia | reflexivity]|].
    eapply first_seq; [apply first_text; reflexivity|].
    eapply first_seq; [apply first_opt_some, first_chr; reflexivity|].
    eapply first_seq; [apply first_chr; reflexivity|].
    eapply first_seq;
      [apply first_rep_greedy; [reflexivity | cbn; lia | exact Hgt]|].
    apply first_grp. apply first_rep_greedy; assumption.
  - change (lit "Rate lane: " ++ g ++ tail)
      with (lit "Rate" ++ lit " " ++ lit "lane"
            ++ ":"%char :: lit " " ++ g ++ tail).
    eapply first_seq; [apply first_text; reflexivity|].
    eapply first_seq;
      [apply first_rep_greedy; [reflexivity | cbn; lia | reflexivity]|].
    eapply first_seq; [apply first_text; reflexivity|].
    eapply first_seq; [apply first_opt_none; reflexivity|].
    eapply first_seq; [apply first_chr; reflexivity|].
    eapply first_seq;
      [apply first_rep_greedy; [reflexivity | cbn; lia | exact Hgt]|].
    apply first_grp. apply first_rep_greedy; assumption.
Qed.

(** X12.  Writing lane numbers and reading them back: for a non-empty
    list of lane numbers (runs of digits) joined with a comma and a space
    after [Rate lane: ] or [Rate lanes: ], and followed by nothing or by a
    character that is no digit, comma or white space, [extract_rate_lane]
    returns exactly the list. *)
Theorem lanes_are_read_back (plural : bool) (lanes : list str) (tail : str) :
  Py.nonempty lanes = true -> forallb lane_number lanes = true ->
  stops lane_class tail ->
  Lanes.extract_rate_lane
    (PStr (lit (if plural then "Rate lanes: " else "Rate lane: ")
           ++ PyStr.join (lit ", ") lanes ++ tail))
  = lanes.
Proof.
  intros Hne Hl Htail. destruct lanes as [|l ls]; [discriminate|].
  destruct (join_class l ls Hl) as [Hc [Hlen Hws]].
  pose proof (lane_first plural _ _ Hc Hlen Hws Htail) as F.
  unfold Lanes.extract_rate_lane.
  assert (T : Py.truthy
                (PStr (lit (if plural then "Rate lanes: " else "Rate lane: ")
                       ++ PyStr.join (lit ", ") (l :: ls) ++ tail)) = true).
  { destruct plural; reflexivity. }
  rewrite T. cbn [negb Py.isna orb Py.to_str].
  rewrite (search_found _ _ _ F). cbn [fst group Nat.eqb].
  rewrite (split_join l ls Hl). apply strip_pieces. exact Hl.
Qed.

End LaneRoundTripTheorem.

Lemma lanes_are_read_back_witness :
  @Lanes.extract_rate_lane plain_runtime
    (PStr (lit "Rate lanes: "
           ++ PyStr.join (lit ", ") [lit "2464"; lit "2465"] ++ lit "."))
  = [lit "2464"; lit "2465"].
Proof.
  apply (@lanes_are_read_back plain_runtime true
           [lit "2464"; lit "2465"] (lit ".")); reflexivity.
Defined.

(** ** Reading back a written clause *)

Module ValueFacts.
Import Re FirstMatch PatternFacts TextFacts.

Lemma findall_skip_all (ic : bool) (r : regex) :
  forall s k, length s <= k -> findall_go ic r s k = [].
Proof.
  induction s as [|c s IH]; intros k Hk; [reflexivity|].
  cbn [findall_go]. destruct k as [|k]; [cbn in Hk; lia|].
  apply IH. cbn in Hk. lia.
Qed.

Lemma findall_no_quote (u s : str) :
  forallb nq u = true ->
  findall_go false Parser.quoted_re (u ++ s) 0
  = findall_go false Parser.quoted_re s 0.
Proof.
  induction u as [|c u IH]; [reflexivity|]. cbn [forallb]. intros H.
  apply andb_true_iff in H. destruct H as [Hc Hu].
  cbn [app findall_go]. unfold nq, non in Hc. apply negb_true_iff in Hc.
  rewrite (@quoted_needs_quote c (u ++ s) Hc). apply IH. exact Hu.
Qed.

Lemma quoted_first (v : str) :
  forallb nq v = true ->
  first false Parser.quoted_re ("'"%char :: v ++ ["'"%char])
  = Some ([(1, v)], []).
Proof.
  intros Hv. unfold Parser.quoted_re.
  change (Some ([(1, v)], @nil ascii))
    with (Some ([] ++ [(1, v)] ++ [], @nil ascii)).
  eapply first_seq; [apply first_chr; reflexivity|].
  apply (@first_seq false _ _ _ [(1, v)] ["'"%char] [] []).
  - apply first_grp. apply first_rep_greedy; [exact Hv | lia | reflexivity].
  - apply first_chr. reflexivity.
Qed.

Lemma findall_one_value (u v : str) :
  forallb nq u = true -> forallb nq v = true ->
  findall false Parser.quoted_re (u ++ "'"%char :: v ++ ["'"%char]) = [v].
Proof.
  intros Hu Hv. unfold findall. rewrite (@findall_no_quote u _ Hu).
  cbn [findall_go]. pose proof (@quoted_first v Hv) as F. unfold first in F.
  destruct (run false Parser.quoted_re ("'"%char :: v ++ ["'"%char]))
    as [|m l]; [discriminate|].
  cbn in F. inversion F. subst m. cbn [snd fst length group Nat.eqb].
  rewrite Nat.sub_0_r. rewrite findall_skip_all; [reflexivity | lia].
Qed.

Lemma lstrip_app (u : str) (q : ascii) (r : str) :
  PyStr.is_space q = false ->
  PyStr.lstrip (u ++ q :: r) = PyStr.lstrip u ++ q :: r.
Proof.
  intros Hq. induction u as [|c u IH].
  - cbn [app PyStr.lstrip]. rewrite Hq. reflexivity.
  - cbn [app PyStr.lstrip]. destruct (PyStr.is_space c); [exact IH|].
    reflexivity.
Qed.

Lemma rstrip_snoc (s : str) (q : ascii) :
  PyStr.is_space q = false -> PyStr.rstrip (s ++ [q]) = s ++ [q].
Proof.
  intros Hq. unfold PyStr.rstrip. rewrite rev_app_distr. cbn [rev app].
  cbn [PyStr.lstrip]. rewrite Hq. cbn [rev]. rewrite rev_involutive.
  reflexivity.
Qed.

Lemma strip_quoted (u v : str) :
  PyStr.strip (u ++ "'"%char :: v ++ ["'"%char])
  = PyStr.lstrip u ++ "'"%char :: v ++ ["'"%char].
Proof.
  unfold PyStr.strip. rewrite lstrip_app by reflexivity.
  change (PyStr.lstrip u ++ "'"%char :: v ++ ["'"%char])
    with (PyStr.lstrip u ++ ("'"%char :: v) ++ ["'"%char]).
  rewrite app_assoc. apply rstrip_snoc. reflexivity.
Qed.

(** The values of group 2 when it is a quote-free text followed by one
    quoted value *)
Lemma values_of_group (u v : str) :
  forallb nq u = true -> forallb nq v = true ->
  findall false Parser.quoted_re
          (PyStr.strip (u ++ "'"%char :: v ++ ["'"%char]))
  = [v].
Proof.
  intros Hu Hv. rewrite strip_quoted. apply findall_one_value; [|exact Hv].
  apply lstrip_forall. exact Hu.
Qed.

End ValueFacts.

Module ClauseFacts.
Import Re FirstMatch PatternFacts TextFacts ValueFacts.

(** *** The three positive patterns after their column group *)

Definition equals_tail : regex :=
  Parser.ws_plus +++ text "equal" +++ Opt (Chr "s") +++ Parser.ws_star
  +++ Opt (text "to" +++ Parser.ws_plus) +++ Grp 2 Parser.greedy_any.

Definition starts_tail : regex :=
  Parser.ws_plus +++ text "start" +++ Opt (Chr "s") +++ Parser.ws_plus
  +++ text "with" +++ Parser.ws_plus +++ Grp 2 Parser.greedy_any.

Definition contains_tail : regex :=
  Parser.ws_plus +++ text "contain" +++ Opt (Chr "s") +++ Parser.ws_plus
  +++ Grp 2 Parser.greedy_any.

Lemma equals_re_tail :
  Parser.equals_re = Grp 1 Parser.lazy_any +++ equals_tail.
Proof. reflexivity. Qed.

Lemma starts_re_tail :
  Parser.starts_re = Grp 1 Parser.lazy_any +++ starts_tail.
Proof. reflexivity. Qed.

Lemma contains_re_tail :
  Parser.contains_re = Grp 1 Parser.lazy_any +++ contains_tail.
Proof. reflexivity. Qed.

Ltac plain_piece :=
  first [ apply plain_ws
        | apply plain_text; reflexivity
        | apply plain_opt; apply plain_chr; reflexivity
        | apply plain_opt; apply plain_seq; plain_piece ].

Ltac tail_facts :=
  unfold equals_tail, starts_tail, contains_tail, Parser.ws_plus,
    Parser.ws_star, Parser.greedy_any;
  first [ repeat (apply tail_grp2_seq; [plain_piece|]); apply tail_grp2_base
        | repeat apply ends_in_any_seq; apply ends_in_any_base ].

Lemma equals_tail_grp2 : tail_grp2 equals_tail.
Proof. tail_facts. Qed.

Lemma starts_tail_grp2 : tail_grp2 starts_tail.
Proof. tail_facts. Qed.

Lemma contains_tail_grp2 : tail_grp2 contains_tail.
Proof. tail_facts. Qed.

Lemma equals_tail_ends : ends_in_any equals_tail.
Proof. tail_facts. Qed.

Lemma starts_tail_ends : ends_in_any starts_tail.
Proof. tail_facts. Qed.

Lemma contains_tail_ends : ends_in_any contains_tail.
Proof. tail_facts. Qed.

Lemma opt_skip (ic : bool) (r : regex) (s : str) :
  In ([], s) (run ic (Opt r) s).
Proof. apply ReFacts.in_run_opt. right. reflexivity. Qed.

Ltac piece_step :=
  first [ apply rep_intro; [reflexivity | cbn; lia]
        | apply text_intro; reflexivity
        | apply opt_intro; apply chr_intro; reflexivity ].

Lemma equals_tail_matches (w : str) :
  exists c, In (c, w) (run true equals_tail (lit " equals '" ++ w)).
Proof.
  change (lit " equals '" ++ w)
    with (lit " " ++ lit "equal" ++ "s"%char :: lit " " ++ lit "'" ++ w).
  eexists. unfold equals_tail.
  do 4 (eapply seq_intro; [piece_step|]).
  eapply seq_intro; [apply opt_skip|].
  apply grp_intro. apply rep_intro; [reflexivity | cbn; lia].
Qed.

Lemma starts_tail_matches (w : str) :
  exists c, In (c, w) (run true starts_tail (lit " starts with '" ++ w)).
Proof.
  change (lit " starts with '" ++ w)
    with (lit " " ++ lit "start" ++ "s"%char :: lit " " ++ lit "with"
          ++ lit " " ++ lit "'" ++ w).
  eexists. unfold starts_tail.
  do 6 (eapply seq_intro; [piece_step|]).
  apply grp_intro. apply rep_intro; [reflexivity | cbn; lia].
Qed.

Lemma contains_tail_matches (w : str) :
  exists c, In (c, w) (run true contains_tail (lit " contains '" ++ w)).
Proof.
  change (lit " contains '" ++ w)
    with (lit " " ++ lit "contain" ++ "s"%char :: lit " " ++ lit "'" ++ w).
  eexists. unfold contains_tail.
  do 4 (eapply seq_intro; [piece_step|]).
  apply grp_intro. apply rep_intro; [reflexivity | cbn; lia].
Qed.

(** *** Where a tail can match *)

(** Every match of [K] starts with white space followed by the
    keyword. *)
Definition keyword_led (kwd : str) (K : regex) : Prop :=
  forall s c rest,
    In (c, rest) (run true K s) ->
    exists w1 k' r,
      s = w1 ++ k' ++ r /\ forallb ws w1 = true /\ 1 <= length w1
      /\ ReFacts.same_text true kwd k' = true.

Lemma keyword_led_intro (kwd : string) (r : regex) :
  keyword_led (lit kwd) (Parser.ws_plus +++ text kwd +++ r).
Proof.
  intros s c rest H. apply ReFacts.in_run_seq in H.
  destruct H as [c1 [m1 [k1 [H1 [H _]]]]].
  apply ReFacts.in_run_rep in H1. destruct H1 as [_ [w1 [-> [Hw Hl]]]].
  apply ReFacts.in_run_seq in H. destruct H as [c2 [m2 [k2 [H2 _]]]].
  apply ReFacts.in_run_chars in H2. destruct H2 as [_ [k' [-> Hk]]].
  exists w1, k', m2. auto.
Qed.

Definition spaceless (s : str) : bool := forallb (fun c => negb (ws c)) s.

Lemma same_text_spaceless (l pre : str) :
  ReFacts.same_text true l pre = true -> spaceless l = true ->
  spaceless pre = true.
Proof.
  revert pre. induction l as [|x l IH]; intros [|y pre];
    cbn [ReFacts.same_text]; try discriminate; [reflexivity|].
  intros H Hl. apply andb_true_iff in H. destruct H as [Hxy Hp].
  unfold spaceless in Hl. cbn [forallb] in Hl. apply andb_true_iff in Hl.
  destruct Hl as [Hx Hl]. specialize (IH pre Hp Hl).
  unfold spaceless in *. cbn [forallb]. rewrite IH, andb_true_r.
  unfold chr_eq in Hxy. apply Ascii.eqb_eq in Hxy. unfold ws in *.
  rewrite <- (is_space_lower_char y), <- Hxy, is_space_lower_char.
  exact Hx.
Qed.

Lemma stripped_suffix_not_space (X a' b : str) :
  stripped X -> X = b ++ a' -> a' <> [] -> forallb ws a' = true -> False.
Proof.
  intros [_ H] -> Hne Ha. rewrite rev_app_distr in H.
  destruct (rev a') as [|c t] eqn:E.
  - apply (f_equal (@rev ascii)) in E. rewrite rev_involutive in E.
    cbn in E. congruence.
  - cbn [app] in H. rewrite forallb_forall in Ha.
    assert (Hc : In c a'). { apply in_rev. rewrite E. left. reflexivity. }
    specialize (Ha c Hc). unfold ws in Ha. congruence.
Qed.

(** Before the end of a column text that does not hold the keyword, the
    tail cannot match. *)
Lemma no_early_match (K : regex) (kwd X tl : str) (k : nat) :
  keyword_led kwd K -> spaceless kwd = true ->
  stripped X -> PyStr.isin (PyStr.lower kwd) (PyStr.lower X) = false ->
  match tl with c :: _ => ws c = true | [] => False end ->
  k < length X -> run true K (skipn k (X ++ tl)) = [].
Proof.
  intros HK Hkw HX Hno Htl Hk.
  destruct (run true K (skipn k (X ++ tl))) as [|[c rest] l] eqn:E;
    [reflexivity|]. exfalso.
  destruct (HK (skipn k (X ++ tl)) c rest) as [w1 [k' [r [Es [Hw [Hl Hs]]]]]].
  { rewrite E. left. reflexivity. }
  rewrite skipn_app in Es. replace (k - length X) with 0 in Es by lia.
  cbn [skipn] in Es.
  assert (Ha : skipn k X <> []).
  { intros Z. apply (f_equal (@length ascii)) in Z.
    rewrite length_skipn in Z. cbn in Z. lia. }
  assert (EX : X = firstn k X ++ skipn k X).
  { symmetry. apply firstn_skipn. }
  apply app_eq_app in Es. destruct Es as [l1 [[Ea Eb]|[Ea Eb]]].
  - (* the white space and the start of the keyword lie in X *)
    symmetry in Eb. apply app_eq_app in Eb.
    destruct Eb as [l2 [[Ec Ed]|[Ec Ed]]].
    + (* the keyword lies in X *)
      assert (T : PyStr.isin (PyStr.lower kwd) (PyStr.lower X) = true).
      { apply PyStrFacts.isin_spec.
        exists (PyStr.lower (firstn k X ++ w1)), (PyStr.lower l2).
        rewrite EX at 1. rewrite Ea, Ec.
        rewrite !ReFacts.lower_app, (ReFacts.same_text_lower _ _ Hs).
        rewrite <- !app_assoc. reflexivity. }
      congruence.
    + (* the keyword runs over the end of X *)
      destruct l2 as [|c2 l2].
      * rewrite app_nil_r in Ec. subst k'. cbn [app] in Ed. subst r.
        assert (T : PyStr.isin (PyStr.lower kwd) (PyStr.lower X) = true).
        { apply PyStrFacts.isin_spec.
          exists (PyStr.lower (firstn k X ++ w1)), [].
          rewrite EX at 1. rewrite Ea.
          rewrite !ReFacts.lower_app, (ReFacts.same_text_lower _ _ Hs).
          rewrite app_nil_r, <- !app_assoc. reflexivity. }
        congruence.
      * destruct tl as [|c0 tl]; [exact Htl|]. cbn [app] in Ed.
        inversion Ed. subst c2.
        pose proof (same_text_spaceless _ _ Hs Hkw) as Sp. subst k'.
        unfold spaceless in Sp. rewrite forallb_app in Sp.
        apply andb_true_iff in Sp. destruct Sp as [_ Sp].
        cbn [forallb] in Sp. rewrite Htl in Sp. discriminate.
  - (* the white space runs over the end of X *)
    subst w1. rewrite forallb_app in Hw. apply andb_true_iff in Hw.
    destruct Hw as [Hw _].
    exact (@stripped_suffix_not_space X (skipn k X) (firstn k X)
                                      HX EX Ha Hw).
Qed.

End ClauseFacts.

Module ClauseExact.
Import Re FirstMatch PatternFacts TextFacts ValueFacts ClauseFacts.

Lemma firstn_exact {A} (a b : list A) : firstn (length a) (a ++ b) = a.
Proof. induction a as [|x a IH]; [reflexivity|]. cbn. rewrite IH. reflexivity. Qed.

(** The match of a pattern on a clause whose column does not hold the
    keyword: group 1 is the column, and the values of group 2 are the one
    written value. *)
Lemma clause_exact (K : regex) (kwd : str) (op : string) (o1 X v : str) :
  tail_grp2 K -> ends_in_any K -> keyword_led kwd K ->
  spaceless kwd = true ->
  (forall w, exists c, In (c, w) (run true K (lit op ++ w))) ->
  lit op = o1 ++ ["'"%char] -> forallb nq o1 = true ->
  forallb dot (lit op) = true ->
  match lit op with c :: _ => ws c = true | [] => False end ->
  X <> [] -> stripped X -> forallb dot X = true ->
  PyStr.isin (PyStr.lower kwd) (PyStr.lower X) = false ->
  forallb nq v = true -> forallb dot v = true ->
  exists m,
    rmatch true (Grp 1 Parser.lazy_any +++ K) (clause X op v) = Some m
    /\ group 1 m = X
    /\ findall false Parser.quoted_re (PyStr.strip (group 2 m)) = [v].
Proof.
  intros Ht He HK Hkw Hm Hop Ho1 Hd Hsp HXne HX HXd Hno Hvq Hvd.
  set (t := clause X op v).
  assert (Htd : forallb dot t = true).
  { unfold t, clause. rewrite !forallb_app, HXd, Hd, Hvd. reflexivity. }
  assert (Hskip : skipn (length X) t = lit op ++ v ++ lit "'").
  { apply skipn_exact. }
  assert (Hfirst : firstn (length X) t = X).
  { apply firstn_exact. }
  destruct (@lazy_head 1 dot K t (length X))
    as [k [c2 [rest [more [Hk1 [Hk0 [[more2 HrK] Hrun]]]]]]].
  - destruct X; [congruence | cbn; lia].
  - unfold t, clause. rewrite length_app. lia.
  - rewrite Hfirst. exact HXd.
  - rewrite Hskip. destruct (Hm (v ++ lit "'")) as [c Hc]. intros Z.
    rewrite Z in Hc. destruct Hc.
  - assert (Ek : k = length X).
    { destruct (Nat.eq_dec k (length X)) as [|Hn]; [assumption|]. exfalso.
      assert (Hlt : k < length X) by lia.
      assert (Htl : match lit op ++ v ++ lit "'" with
                    | c :: _ => ws c = true
                    | [] => False
                    end).
      { destruct (lit op); [destruct Hsp | exact Hsp]. }
      pose proof (@no_early_match K kwd X (lit op ++ v ++ lit "'") k
                    HK Hkw HX Hno Htl Hlt) as Z.
      fold (clause X op v) in Z. fold t in Z. rewrite Z in HrK.
      discriminate. }
    subst k. rewrite Hskip in HrK.
    assert (Hwd : forallb dot (lit op ++ v ++ lit "'") = true).
    { rewrite !forallb_app, Hd, Hvd. reflexivity. }
    pose proof (He _ Hwd) as Hend. rewrite HrK in Hend.
    cbn [ReFacts.heads_end snd] in Hend. subst rest.
    destruct (Ht (lit op ++ v ++ lit "'") c2 []) as [seg [Hs Hseg]].
    { rewrite HrK. left. reflexivity. }
    rewrite app_nil_r, Hop, <- app_assoc in Hs. cbn [app] in Hs.
    assert (G : exists u, forallb nq u = true
                          /\ group 2 c2 = u ++ "'"%char :: v ++ ["'"%char]).
    { apply app_eq_app in Hs. destruct Hs as [l [[Ea Eb]|[Ea Eb]]].
      - exists l. split; [|exact Eb]. rewrite Ea, forallb_app in Ho1.
        apply andb_true_iff in Ho1. tauto.
      - destruct l as [|q l].
        + exists []. split; [reflexivity|]. cbn [app] in *. symmetry.
          exact Eb.
        + exfalso. cbn [app] in Eb. inversion Eb. subst q.
          rewrite Ea, forallb_app in Hseg. apply andb_true_iff in Hseg.
          destruct Hseg as [_ Hseg]. cbn in Hseg. discriminate. }
    destruct G as [u [Hu Eg]].
    exists ((1, firstn (length X) t) :: c2). split; [|split].
    + unfold rmatch. unfold Parser.lazy_any. fold t. rewrite Hrun.
      reflexivity.
    + cbn [group Nat.eqb]. exact Hfirst.
    + cbn [group Nat.eqb]. rewrite Eg. apply values_of_group; assumption.
Qed.

Lemma needs_not_in_not_equal : ReFacts.needs (lit "not") Parser.not_equal_re.
Proof.
  unfold Parser.not_equal_re. do 4 apply ReFacts.needs_seq_r.
  apply (ReFacts.needs_seq_text (lit "not")).
Qed.

Lemma needs_not_in_not_contain :
  ReFacts.needs (lit "not") Parser.not_contain_re.
Proof.
  unfold Parser.not_contain_re. do 4 apply ReFacts.needs_seq_r.
  apply (ReFacts.needs_seq_text (lit "not")).
Qed.

End ClauseExact.

Section ClauseRoundTrip.
Import Re PatternFacts TextFacts ClauseFacts ClauseExact Parser.

(** A column text the operator keyword [kwd] cannot be confused with: not
    empty, no white space at either end, on one line, and without the
    keyword. *)
Definition column_ok (kwd : string) (X : str) : Prop :=
  X <> [] /\ stripped X /\ forallb dot X = true
  /\ PyStr.isin (lit kwd) (PyStr.lower X) = false.

(** The text does not hold the word, in any case. *)
Definition lacks_word (w : string) (t : str) : Prop :=
  PyStr.isin (lit w) (PyStr.lower t) = false.

Lemma column_ok_text (kwd : string) (X : str) :
  column_ok kwd X -> column_text X.
Proof.
  intros [Hne [[Hh _] [Hd _]]]. split; [|exact Hd].
  destruct X; [congruence | exact Hh].
Qed.

Lemma condition_exact (kind : condition_type) (m : caps) (X v : str) :
  group 1 m = X -> stripped X ->
  findall false quoted_re (PyStr.strip (group 2 m)) = [v] ->
  condition_of_match kind m = Some (X, kind, [v]).
Proof.
  intros G1 HX G2. unfold condition_of_match. cbv zeta.
  rewrite G1, G2, (stripped_strip_id HX). reflexivity.
Qed.

Ltac exact_clause K kwd op o1 X v HX Hq Hd :=
  destruct HX as [? [? [? ?]]];
  destruct (@clause_exact K (lit kwd) op (lit o1) X v)
    as [m [-> [G1 G2]]];
  [ first [ exact not_equal_tail_grp2 | exact not_contain_tail_grp2
          | exact equals_tail_grp2 | exact starts_tail_grp2
          | exact contains_tail_grp2 ]
  | first [ exact not_equal_tail_ends | exact not_contain_tail_ends
          | exact equals_tail_ends | exact starts_tail_ends
          | exact contains_tail_ends ]
  | apply keyword_led_intro
  | reflexivity
  | first [ exact not_equal_tail_matches | exact not_contain_tail_matches
          | exact equals_tail_matches | exact starts_tail_matches
          | exact contains_tail_matches ]
  | reflexivity | reflexivity | reflexivity | reflexivity
  | assumption | assumption | assumption | assumption
  | exact Hq | exact Hd
  | apply condition_exact; assumption ].

(** X13.  A clause written as a column text, an operator and one quoted
    value is read back by [parse_sub_part] as exactly that column, the
    kind of the operator and that value.  The value holds no single quote
    and no line feed; the column text is not empty, has no white space at
    either end, is on one line and does not hold the first word of the
    operator; and the clause holds none of the words by which a pattern
    tried earlier is recognised ([equal] before does-not-contain; [not]
    before equals; [not], [equal] before starts-with; [not], [equal],
    [start] before contains). *)
Theorem clauses_are_read_back (X v : str) :
  forallb nq v = true -> forallb dot v = true ->
  (column_ok "does" X ->
   parse_sub_part (clause X " does not equal to '" v)
   = Some (X, does_not_equal, [v]))
  /\ (column_ok "does" X ->
      lacks_word "equal" (clause X " does not contain '" v) ->
      parse_sub_part (clause X " does not contain '" v)
      = Some (X, does_not_contain, [v]))
  /\ (column_ok "equal" X ->
      lacks_word "not" (clause X " equals '" v) ->
      parse_sub_part (clause X " equals '" v) = Some (X, equals, [v]))
  /\ (column_ok "start" X ->
      lacks_word "not" (clause X " starts with '" v) ->
      lacks_word "equal" (clause X " starts with '" v) ->
      parse_sub_part (clause X " starts with '" v)
      = Some (X, starts_with, [v]))
  /\ (column_ok "contain" X ->
      lacks_word "not" (clause X " contains '" v) ->
      lacks_word "equal" (clause X " contains '" v) ->
      lacks_word "start" (clause X " contains '" v) ->
      parse_sub_part (clause X " contains '" v) = Some (X, contains, [v])).
Proof.
  intros Hq Hd.
  assert (Start : forall kwd op,
             column_ok kwd X ->
             parse_sub_part (clause X op v)
             = match rmatch true not_equal_re (clause X op v) with
               | Some m => condition_of_match does_not_equal m
               | None =>
               match rmatch true not_contain_re (clause X op v) with
               | Some m => condition_of_match does_not_contain m
               | None =>
               match rmatch true equals_re (clause X op v) with
               | Some m => condition_of_match equals m
               | None =>
               match rmatch true starts_re (clause X op v) with
               | Some m => condition_of_match starts_with m
               | None =>
               match rmatch true contains_re (clause X op v) with
               | Some m => condition_of_match contains m
               | None => None
               end end end end end).
  { intros kwd op HX. apply column_ok_text in HX.
    unfold parse_sub_part. cbv zeta.
    rewrite (clause_strip _ _ HX), (clause_nonempty _ _ HX). reflexivity. }
  assert (NE : forall t, lacks_word "not" t ->
                         rmatch true not_equal_re t = None).
  { intros t H. apply (@ReFacts.needs_rmatch (lit "not")); [|exact H].
    exact needs_not_in_not_equal. }
  assert (NC : forall t, lacks_word "not" t ->
                         rmatch true not_contain_re t = None).
  { intros t H. apply (@ReFacts.needs_rmatch (lit "not")); [|exact H].
    exact needs_not_in_not_contain. }
  assert (EQ : forall t, lacks_word "equal" t ->
                         rmatch true equals_re t = None).
  { intros t H. apply (@ReFacts.needs_rmatch (lit "equal")); [|exact H].
    exact ParserFacts.needs_equals. }
  assert (NQ : forall t, lacks_word "equal" t ->
                         rmatch true not_equal_re t = None).
  { intros t H. apply (@ReFacts.needs_rmatch (lit "equal")); [|exact H].
    exact ParserFacts.needs_not_equal. }
  assert (ST : forall t, lacks_word "start" t ->
                         rmatch true starts_re t = None).
  { intros t H. apply (@ReFacts.needs_rmatch (lit "start")); [|exact H].
    exact ParserFacts.needs_starts. }
  split; [|split; [|split; [|split]]].
  - intros HX. rewrite (Start "does"%string _ HX), not_equal_re_tail.
    exact_clause not_equal_tail "does"%string " does not equal to '"%string
                 " does not equal to "%string X v HX Hq Hd.
  - intros HX W.
    rewrite (Start "does"%string _ HX), (NQ _ W), not_contain_re_tail.
    exact_clause not_contain_tail "does"%string " does not contain '"%string
                 " does not contain "%string X v HX Hq Hd.
  - intros HX W. rewrite (Start "equal"%string _ HX), (NE _ W), (NC _ W),
      equals_re_tail.
    exact_clause equals_tail "equal"%string " equals '"%string
                 " equals "%string X v HX Hq Hd.
  - intros HX W1 W2.
    rewrite (Start "start"%string _ HX), (NE _ W1), (NC _ W1), (EQ _ W2),
      starts_re_tail.
    exact_clause starts_tail "start"%string " starts with '"%string
                 " starts with "%string X v HX Hq Hd.
  - intros HX W1 W2 W3.
    rewrite (Start "contain"%string _ HX), (NE _ W1), (NC _ W1), (EQ _ W2),
      (ST _ W3), contains_re_tail.
    exact_clause contains_tail "contain"%string " contains '"%string
                 " contains "%string X v HX Hq Hd.
Qed.

End ClauseRoundTrip.

Lemma clauses_are_read_back_witness :
  Parser.parse_sub_part
    (PatternFacts.clause (lit "Service Type") " equals '"
                         (lit "Express Delivery"))
  = Some (lit "Service Type", equals, [lit "Express Delivery"]).
Proof.
  apply (@clauses_are_read_back (lit "Service Type")
           (lit "Express Delivery") eq_refl eq_refl).
  - split; [discriminate|]. split; [split; reflexivity|].
    split; reflexivity.
  - reflexivity.
Defined.

(** ** Dictionaries *)

Module DictFacts.

Lemma dict_get_set_same {V} (k : str) (v : V) (d : list (str * V)) :
  Py.dict_get k (Py.dict_set k v d) = Some v.
Proof.
  induction d as [|[k' v'] d IH]; cbn [Py.dict_set Py.dict_get].
  - rewrite PyStrFacts.eqb_refl. reflexivity.
  - destruct (PyStr.eqb k' k) eqn:E; cbn [Py.dict_get]; rewrite E;
      [reflexivity | exact IH].
Qed.

Lemma dict_get_set_other {V} (k k2 : str) (v : V) (d : list (str * V)) :
  PyStr.eqb k k2 = false ->
  Py.dict_get k2 (Py.dict_set k v d) = Py.dict_get k2 d.
Proof.
  intros Hk. induction d as [|[k' v'] d IH]; cbn [Py.dict_set Py.dict_get].
  - rewrite Hk. reflexivity.
  - destruct (PyStr.eqb k' k) eqn:E; cbn [Py.dict_get].
    + apply PyStrFacts.eqb_eq in E. subst k'. rewrite Hk. reflexivity.
    + destruct (PyStr.eqb k' k2); [reflexivity | exact IH].
Qed.

Lemma find_app {A} (p : A -> bool) (a b : list A) :
  find p (a ++ b)
  = match find p a with Some x => Some x | None => find p b end.
Proof.
  induction a as [|x a IH]; [reflexivity|]. cbn [app find].
  destruct (p x); [reflexivity | exact IH].
Qed.

End DictFacts.

(** ** The lookups built from the mapping file *)

Section EtofIndex.
Context {rt : PyRuntime}.
Import Engine DictFacts.

(** The row is filed under the key [k]. *)
Definition filed_under (etof_col : option str) (k : str) (row : row_data)
  : bool :=
  let etof_num := row_get row etof_col PNone in
  Py.notna etof_num && PyStr.eqb (PyStr.strip (Py.to_str etof_num)) k.

Lemma index_by_etof_fold {V} (etof_col : option str)
      (value : row_data -> V) (k : str) :
  forall (rs : list row_data) (d : list (str * V)),
    Py.dict_get k
      (fold_left
         (fun d row =>
            let etof_num := row_get row etof_col PNone in
            if Py.notna etof_num
            then Py.dict_set (PyStr.strip (Py.to_str etof_num)) (value row) d
            else d)
         rs d)
    = match find (filed_under etof_col k) (rev rs) with
      | Some row => Some (value row)
      | None => Py.dict_get k d
      end.
Proof.
  induction rs as [|r rs IH]; intros d; [reflexivity|].
  cbn [fold_left rev]. rewrite IH, find_app.
  destruct (find (filed_under etof_col k) (rev rs)); [reflexivity|].
  cbn [find]. unfold filed_under. cbv zeta.
  destruct (Py.notna (row_get r etof_col PNone)); cbn [andb];
    [|reflexivity].
  destruct (PyStr.eqb (PyStr.strip (Py.to_str (row_get r etof_col PNone))) k)
    eqn:E.
  - apply PyStrFacts.eqb_eq in E. rewrite E. apply dict_get_set_same.
  - apply dict_get_set_other. exact E.
Qed.

(** X14.  The dictionaries built from the mapping file keep, for each
    ETOF number, the value of the last row filed under it: looking up a
    key in [index_by_etof] gives the value of the last row whose ETOF
    cell is not missing and prints, stripped, as the key, and nothing
    when there is no such row. *)
Theorem last_row_of_an_etof_wins {V} (etof_col : option str)
        (value : row_data -> V) (rows : list row_data) (k : str) :
  Py.dict_get k (index_by_etof etof_col value rows)
  = option_map value (find (filed_under etof_col k) (rev rows)).
Proof.
  unfold index_by_etof. rewrite index_by_etof_fold.
  destruct (find (filed_under etof_col k) (rev rows)); reflexivity.
Qed.

End EtofIndex.

(** ** The choice among accessorial rows *)

Lemma max_by_in {A} (key : A -> nat) (l : list A) (best : A) :
  best = CostMatcher.max_by key best l
  \/ In (CostMatcher.max_by key best l) l.
Proof.
  destruct (max_by_spec key l best) as [[H|H] _]; [left | right]; auto.
Qed.

Lemma min_by_in {A} (key : A -> nat) (l : list A) (best : A) :
  best = CostMatcher.min_by key best l
  \/ In (CostMatcher.min_by key best l) l.
Proof.
  destruct (min_by_spec key l best) as [[H|H] _]; [left | right]; auto.
Qed.

Section AccessorialChoice.
Context {rt : PyRuntime}.
Import CostMatcher Accessorial.

Definition acc_satisfied (row : row_data) (m : acc_entry) : bool :=
  let parsed := Parser.parse_applies_if_condition (PStr (acc_applies_if m)) in
  Py.nonempty parsed && Py.nonempty row
  && fst (Evaluator.check_applies_if_condition parsed (lit "check") row).

Definition acc_unchecked (row : row_data) (m : acc_entry) : bool :=
  negb (Py.nonempty
          (Parser.parse_applies_if_condition (PStr (acc_applies_if m))))
  || negb (Py.nonempty row).

Lemma classify_acc_spec (l : list acc_entry) (row : row_data) :
  classify_acc l row
  = (filter (acc_satisfied row) l, filter (acc_unchecked row) l).
Proof.
  induction l as [|m l IH]; [reflexivity|].
  cbn [classify_acc filter]. rewrite IH. unfold acc_satisfied, acc_unchecked.
  destruct (Py.nonempty (Parser.parse_applies_if_condition _));
    cbn [negb andb orb]; [|reflexivity].
  destruct (Py.nonempty row); cbn [negb andb orb]; [|reflexivity].
  destruct (fst (Evaluator.check_applies_if_condition _ _ _)); reflexivity.
Qed.

(** The rows the choice is made among: those of the lane, or all of them
    when the lane has none *)
Definition lane_candidates (lane_number : option str)
           (all_matches : list acc_entry) : list acc_entry :=
  if Py.nonempty (filter (lane_keeps lane_number) all_matches)
  then filter (lane_keeps lane_number) all_matches
  else all_matches.

Lemma best_among_candidates (cost_type : str) (df : option DataFrame)
      (lane_number : option str) (row : row_data) :
  match find_best_matching_accessorial_cost cost_type df lane_number row with
  | Some m =>
      In m (lane_candidates lane_number
              (get_all_matching_accessorial_costs cost_type df))
  | None => get_all_matching_accessorial_costs cost_type df = []
  end.
Proof.
  unfold find_best_matching_accessorial_cost.
  destruct (get_all_matching_accessorial_costs cost_type df)
    as [|a all] eqn:Hall; [reflexivity|].
  fold (lane_candidates lane_number (a :: all)).
  assert (Hne : lane_candidates lane_number (a :: all) <> []).
  { unfold lane_candidates.
    destruct (filter (lane_keeps lane_number) (a :: all)); discriminate. }
  destruct (lane_candidates lane_number (a :: all)) as [|x [|y l]] eqn:E;
    [congruence | left; reflexivity |].
  rewrite classify_acc_spec.
  destruct (filter (acc_satisfied row) (x :: y :: l)) as [|m met] eqn:Hm.
  - destruct (filter (acc_unchecked row) (x :: y :: l)) as [|m w] eqn:Hw.
    + left. reflexivity.
    + destruct (min_by_in acc_name_len w m) as [Hin|Hin].
      * assert (H : In m (filter (acc_unchecked row) (x :: y :: l))).
        { rewrite Hw. left. reflexivity. }
        apply filter_In in H. rewrite <- Hin. tauto.
      * assert (H : In (min_by acc_name_len m w)
                       (filter (acc_unchecked row) (x :: y :: l))).
        { rewrite Hw. right. exact Hin. }
        apply filter_In in H. tauto.
  - destruct (max_by_in acc_name_len met m) as [Hin|Hin].
    + assert (H : In m (filter (acc_satisfied row) (x :: y :: l))).
      { rewrite Hm. left. reflexivity. }
      apply filter_In in H. rewrite <- Hin. tauto.
    + assert (H : In (max_by acc_name_len m met)
                     (filter (acc_satisfied row) (x :: y :: l))).
      { rewrite Hm. right. exact Hin. }
      apply filter_In in H. tauto.
Qed.

End AccessorialChoice.

Section LanePreference.
Context {rt : PyRuntime}.
Import CostMatcher Accessorial.

(** X15.  Where the call returns (no lane or price cell of a matching
    row makes a conversion raise [OverflowError]),
    [find_best_matching_accessorial_cost] returns nothing exactly
    when no accessorial row matches the cost name, and otherwise one of
    the matching rows.  The lane is a preference, not a requirement: when
    some matching row is kept for the lane (it has the lane's number, or
    none), the row returned is such a row; when none is, the choice is
    made among all matching rows, and the row returned belongs to another
    lane.  A row is kept for lane [ln] when it has no lane number or its
    lane number prints as [ln]. *)
Theorem lane_is_a_preference (cost_type : str) (df : option DataFrame)
        (lane_number : option str) (row : row_data) :
  overflows cost_type df = false ->
  (find_best_matching_accessorial_cost cost_type df lane_number row = None
   <-> get_all_matching_accessorial_costs cost_type df = [])
  /\ (forall m,
         find_best_matching_accessorial_cost cost_type df lane_number row
         = Some m ->
         In m (get_all_matching_accessorial_costs cost_type df)
         /\ ((exists x,
                 In x (get_all_matching_accessorial_costs cost_type df)
                 /\ lane_keeps lane_number x = true) ->
             lane_keeps lane_number m = true)
         /\ ((forall x,
                 In x (get_all_matching_accessorial_costs cost_type df) ->
                 lane_keeps lane_number x = false) ->
             lane_keeps lane_number m = false))
  /\ (forall ln m,
         lane_keeps (Some ln) m = true
         <-> acc_lane_num m = None
             \/ exists z, acc_lane_num m = Some z /\ PyStr.of_Z z = ln).
Proof.
  intros _.
  pose proof (best_among_candidates cost_type df lane_number row) as B.
  split; [|split].
  - destruct (find_best_matching_accessorial_cost _ _ _ _) as [m|].
    + split; [discriminate|]. intros E. rewrite E in B.
      unfold lane_candidates in B. destruct B.
    + split; [intros _; exact B | reflexivity].
  - intros m E. rewrite E in B. unfold lane_candidates in B.
    destruct (filter (lane_keeps lane_number)
                     (get_all_matching_accessorial_costs cost_type df))
      as [|f fs] eqn:F; cbn [Py.nonempty] in B.
    + split; [exact B|]. split.
      * intros [x [Hx Hk]].
        assert (H : In x (filter (lane_keeps lane_number)
                            (get_all_matching_accessorial_costs
                               cost_type df))).
        { apply filter_In. auto. }
        rewrite F in H. destruct H.
      * intros H. apply H. exact B.
    + rewrite <- F in B. apply filter_In in B. destruct B as [Hin Hk].
      split; [exact Hin|]. split; [intros _; exact Hk|].
      intros H. specialize (H m Hin). congruence.
  - intros ln m. unfold lane_keeps. destruct (acc_lane_num m) as [z|].
    + split.
      * intros H. right. exists z. split; [reflexivity|].
        apply PyStrFacts.eqb_eq. exact H.
      * intros [H|[z' [H1 H2]]]; [discriminate|]. inversion H1. subst z'.
        apply PyStrFacts.eqb_eq. exact H2.
    + split; [intros _; left; reflexivity | reflexivity].
Qed.

End LanePreference.

(** An accessorial table that prices Pickup Fee per lane *)
Definition pickup_by_lane : DataFrame :=
  {| columns := [lit "Cost Name"; lit "Rate By"; lit "Lane #";
                 lit "Price Flat"];
     rows := [[(lit "Cost Name", PStr (lit "Pickup Fee"));
               (lit "Rate By", PStr (lit "PER SHIPMENT"));
               (lit "Lane #", PInt 10); (lit "Price Flat", PInt 45)];
              [(lit "Cost Name", PStr (lit "Pickup Fee"));
               (lit "Rate By", PStr (lit "PER SHIPMENT"));
               (lit "Lane #", PInt 20); (lit "Price Flat", PInt 50)]] |}.

Lemma lane_is_a_preference_witness :
  @Accessorial.overflows plain_runtime (lit "Pickup Fee")
     (Some pickup_by_lane) = false
  /\ option_map Accessorial.acc_lane_num
       (@Accessorial.find_best_matching_accessorial_cost plain_runtime
          (lit "Pickup Fee") (Some pickup_by_lane) (Some (lit "20")) [])
     = Some (Some 20%Z)
  /\ (@Accessorial.find_best_matching_accessorial_cost plain_runtime
         (lit "Pickup Fee") (Some pickup_by_lane) (Some (lit "20")) []
       = None
       <-> @Accessorial.get_all_matching_accessorial_costs plain_runtime
             (lit "Pickup Fee") (Some pickup_by_lane) = []).
Proof.
  split; [vm_compute; reflexivity|]. split; [vm_compute; reflexivity|].
  exact (proj1 (@lane_is_a_preference plain_runtime (lit "Pickup Fee")
                  (Some pickup_by_lane) (Some (lit "20")) [] eq_refl)).
Defined.

(** ** Every row gets a reason *)

Section EveryRowHasAReason.
Context {rt : PyRuntime} {ext : Collaborators}.
Import Engine.

(** The text is not empty. *)
Definition said (s : str) : Prop := Py.nonempty s = true.

Lemma reason_or_not_covered_said (r : option str) :
  said (reason_or_not_covered r).
Proof.
  unfold reason_or_not_covered, said. destruct r as [[|c r]|]; reflexivity.
Qed.

Lemma clamp_said (ppu mv : pyval) (mn : option str) (minp maxp : pyval)
      (pc : option str) (total : float) :
  said (snd (clamp ppu mv mn minp maxp pc total)).
Proof.
  unfold clamp, said. cbv zeta. cbn [snd].
  destruct (min_applies minp total); [reflexivity|].
  destruct (max_applies false maxp total); reflexivity.
Qed.

Lemma per_unit_reason_said (ppu mv : pyval) (mn mr : option str)
      (minp maxp : pyval) (pc : option str) (etof : str) :
  said (per_unit_reason ppu mv mn mr minp maxp pc etof).
Proof.
  unfold per_unit_reason. cbv zeta.
  destruct (Py.to_float ppu); [|reflexivity].
  destruct (negb (Py.is_none mv) && negb (Py.is_float_nan mv)).
  - destruct (Py.to_float mv); [apply clamp_said | reflexivity].
  - destruct mr as [[|c r]|]; reflexivity.
Qed.

Lemma accessorial_per_unit_reason_said (ap : acc_prices) (mv : pyval)
      (mn mr : option str) (etof : str) :
  said (accessorial_per_unit_reason ap mv mn mr etof).
Proof.
  unfold accessorial_per_unit_reason. destruct ap as [[pf pu] hm].
  cbv zeta. unfold said. destruct pu as [p|].
  - destruct (negb (Py.is_none mv) && negb (Py.is_float_nan mv)).
    + destruct (Py.to_float mv); [|reflexivity].
      match goal with |- context [if ?b then _ else _] => destruct b end;
        reflexivity.
    + destruct mr as [[|c r]|]; reflexivity.
  - destruct pf; reflexivity.
Qed.

Lemma per_shipment_said (L : lookups) (ua : bool) (ap : acc_prices)
      (df : DataFrame) (cost etof : str) :
  said (fst (per_shipment_branch L ua ap df cost etof)).
Proof.
  unfold per_shipment_branch. destruct ap as [[pf pu] hm].
  destruct ua.
  - cbn [fst ret]. destruct pf; [reflexivity|]. destruct pu; reflexivity.
  - destruct (Py.truthy (get_val etof (etof_to_comment L))); [|reflexivity].
    rewrite fst_bind. cbn [fst calling].
    destruct (Lanes.extract_rate_lane _) as [|l [|l2 ls]]; [reflexivity | |
      reflexivity].
    rewrite fst_bind. cbn [fst calling].
    destruct (find_cost_price_in_rate_data _ _ _ _ _) as [[price pc] pr].
    cbn [fst ret]. destruct (negb (Py.is_none price)).
    + destruct (has_tier_marks pc); reflexivity.
    + apply reason_or_not_covered_said.
Qed.

Lemma rate_card_per_unit_said (df : DataFrame) (lane cost etof : str)
      (wb : bool) (mv : pyval) (mn mr : option str) :
  said (fst (rate_card_per_unit df lane cost etof wb mv mn mr)).
Proof.
  unfold rate_card_per_unit. rewrite fst_bind. cbn [fst calling].
  destruct (find_cost_price_in_rate_data df lane cost per_unit _)
    as [[ppu pc] pr].
  rewrite fst_bind. cbn [fst calling].
  destruct (find_cost_price_in_rate_data df lane cost price_min _)
    as [[minp c1] r1].
  rewrite fst_bind. cbn [fst calling].
  destruct (find_cost_price_in_rate_data df lane cost price_max _)
    as [[maxp c2] r2].
  cbn [fst ret]. destruct (negb (Py.is_none ppu)).
  - cbv zeta. match goal with |- said (if ?b then _ else _) => destruct b end.
    + reflexivity.
    + apply per_unit_reason_said.
  - apply reason_or_not_covered_said.
Qed.

Lemma per_unit_branch_said (L : lookups) (ua : bool) (ap : acc_prices)
      (df : DataFrame) (rate_by cost etof : str) :
  said (fst (per_unit_branch L ua ap df rate_by cost etof)).
Proof.
  unfold per_unit_branch. cbv zeta. rewrite fst_bind.
  destruct (fst (resolve_multiplier L rate_by etof _)) as [[mv mn] mr].
  destruct ua; [apply accessorial_per_unit_reason_said|].
  destruct (Py.truthy (get_val etof (etof_to_comment L))); [|reflexivity].
  rewrite fst_bind. cbn [fst calling].
  destruct (Lanes.extract_rate_lane _) as [|l [|l2 ls]]; [reflexivity | |
    reflexivity].
  apply rate_card_per_unit_said.
Qed.

Lemma main_pass_said (L : lookups) (cost_type etof agreement : str) :
  said (out_reason (fst (main_pass L cost_type etof agreement))).
Proof.
  unfold main_pass.
  destruct (resolve_agreement (all_rate_costs L) agreement) as [ad|];
    [|reflexivity].
  cbv zeta. rewrite fst_bind. cbn [fst calling]. rewrite fst_bind.
  match goal with |- said (out_reason (fst (if ?b then _ else _))) =>
                    destruct b end; [reflexivity|].
  rewrite fst_bind.
  destruct (fst (applies_if_gate L _ etof)) as [met why].
  destruct (negb met).
  - cbn [fst ret out_reason]. destruct why as [[|c r]|]; reflexivity.
  - rewrite fst_bind. cbn [fst ret out_reason].
    match goal with |- said (fst (if ?b then _ else _)) => destruct b end.
    + apply per_shipment_said.
    + apply per_unit_branch_said.
Qed.

(** X17.  Every row of the result has a reason: whatever the mismatch
    row, the lookups, the rate tables and the collaborators hold, the
    Reason one pass writes is never the empty text. *)
Theorem every_row_gets_a_reason (L : lookups) (row : row_data) :
  Py.nonempty (out_reason (fst (process_row L row))) = true.
Proof.
  unfold process_row. cbv zeta.
  destruct (Py.nonempty (existing_comment_of L row)) eqn:Hc.
  - assert (E : forall ct ag,
               out_reason (fst (comment_pass L ct ag
                                             (existing_comment_of L row)))
               = existing_comment_of L row).
    { intros ct ag. unfold comment_pass.
      destruct (resolve_agreement _ _); [|reflexivity].
      rewrite fst_bind. cbn [fst calling].
      destruct (CostMatcher.get_cost_conditions_for_cost_type _ _)
        as [[rb ai]|]; reflexivity. }
    rewrite E. exact Hc.
  - apply main_pass_said.
Qed.

End EveryRowHasAReason.


(** ** Base names: the trailing parenthesised part *)

Module BaseNames.
Import Re FirstMatch CostMatcher.

Definition open_paren : ascii := "("%char.
Definition close_paren : ascii := ")"%char.

(** Where a match of the pattern starts, white space is followed by an
    opening parenthesis. *)
Lemma paren_none (s : str) :
  (forall pre t, s = pre ++ t -> forallb ws pre = true ->
                 match t with
                 | c :: _ => Ascii.eqb open_paren c = false
                 | [] => True
                 end) ->
  run false paren_re s = [].
Proof.
  intros H. destruct (run false paren_re s) as [|[c rest] l] eqn:E;
    [reflexivity|]. exfalso.
  assert (Hin : In (c, rest) (run false paren_re s))
    by (rewrite E; left; reflexivity).
  unfold paren_re in Hin. apply ReFacts.in_run_seq in Hin.
  destruct Hin as [c1 [mid [c2 [H1 [H2 _]]]]].
  apply ReFacts.in_run_rep in H1. destruct H1 as [_ [pre [Es [Hp _]]]].
  apply ReFacts.in_run_seq in H2.
  destruct H2 as [c3 [mid2 [c4 [H3 _]]]].
  apply ReFacts.in_run_chr in H3. destruct H3 as [_ [y [Em Hy]]].
  specialize (H pre mid Es Hp). rewrite Em in H. unfold chr_eq in Hy.
  unfold open_paren in H. congruence.
Qed.

(** A match of the pattern holds a closing parenthesis. *)
Lemma paren_needs_close (s : str) :
  TextFacts.lacks close_paren s = true -> run false paren_re s = [].
Proof.
  intros Hl. destruct (run false paren_re s) as [|[c rest] l] eqn:E;
    [reflexivity|]. exfalso.
  assert (Hin : In (c, rest) (run false paren_re s))
    by (rewrite E; left; reflexivity).
  unfold paren_re in Hin. apply ReFacts.in_run_seq in Hin.
  destruct Hin as [c1 [m1 [c2 [H1 [H2 _]]]]].
  apply ReFacts.run_suffix in H1. destruct H1 as [p1 E1].
  apply ReFacts.in_run_seq in H2.
  destruct H2 as [c3 [m2 [c4 [H3 [H4 _]]]]].
  apply ReFacts.run_suffix in H3. destruct H3 as [p2 E2].
  apply ReFacts.in_run_seq in H4.
  destruct H4 as [c5 [m3 [c6 [H5 [H6 _]]]]].
  apply ReFacts.run_suffix in H5. destruct H5 as [p3 E3].
  apply ReFacts.in_run_seq in H6.
  destruct H6 as [c7 [m4 [c8 [H7 _]]]].
  apply ReFacts.in_run_chr in H7. destruct H7 as [_ [y [E4 Hy]]].
  unfold chr_eq in Hy. apply Ascii.eqb_eq in Hy. subst y.
  subst s m1 m2 m3. unfold TextFacts.lacks in Hl.
  rewrite !forallb_app in Hl. cbn [forallb] in Hl.
  repeat (apply andb_true_iff in Hl; destruct Hl as [? Hl]).
  match goal with H : non close_paren ")"%char = true |- _ =>
    discriminate H end.
Qed.

Lemma sub_go_keep (ic : bool) (r : regex) (pre s : str) :
  (forall k, k < length pre -> run ic r (skipn k (pre ++ s)) = []) ->
  sub_go ic r (pre ++ s) 0 = pre ++ sub_go ic r s 0.
Proof.
  induction pre as [|c pre IH]; intros H; [reflexivity|].
  cbn [app sub_go]. unfold match_len.
  assert (H0 : run ic r (c :: pre ++ s) = []).
  { apply (H 0). cbn. lia. }
  rewrite H0. f_equal. apply IH. intros k Hk. apply (H (S k)). cbn. lia.
Qed.

Lemma sub_go_match (ic : bool) (r : regex) (c : ascii) (s : str)
      (m : caps) :
  first ic r (c :: s) = Some (m, []) -> sub_go ic r (c :: s) 0 = [].
Proof.
  unfold first. intros H. cbn [sub_go]. unfold match_len.
  destruct (run ic r (c :: s)) as [|x l]; [discriminate|].
  inversion H. subst x. cbn [snd length]. rewrite Nat.sub_0_r.
  apply ReFacts.sub_go_all. lia.
Qed.

(** The pattern matches a parenthesised part that ends the text. *)
Lemma paren_first (pad inner trail : str) :
  forallb ws pad = true -> TextFacts.lacks close_paren inner = true ->
  forallb ws trail = true ->
  first false paren_re
        (pad ++ open_paren :: inner ++ close_paren :: trail)
  = Some ([], []).
Proof.
  intros Hp Hi Ht. unfold paren_re.
  apply (@first_seq false _ _ _ []
           (open_paren :: inner ++ close_paren :: trail) [] []).
  { apply first_rep_greedy; [exact Hp | lia | reflexivity]. }
  apply (@first_seq false _ _ _ [] (inner ++ close_paren :: trail) [] []).
  { apply first_chr. reflexivity. }
  apply (@first_seq false _ _ _ [] (close_paren :: trail) [] []).
  { apply first_rep_greedy; [exact Hi | lia | reflexivity]. }
  apply (@first_seq false _ _ _ [] trail [] []).
  { apply first_chr. reflexivity. }
  apply (@first_seq false _ _ _ [] [] [] []).
  { rewrite <- (app_nil_r trail) at 1.
    apply first_rep_greedy; [exact Ht | lia | exact I]. }
  reflexivity.
Qed.

(** A text with no closing parenthesis keeps its name. *)
Lemma base_name_plain (s : str) :
  TextFacts.lacks close_paren s = true -> base_name s = PyStr.strip s.
Proof.
  intros H. unfold base_name, sub_empty. f_equal.
  rewrite <- (app_nil_r s) at 1. rewrite sub_go_keep.
  - cbn. apply app_nil_r.
  - intros k Hk. rewrite app_nil_r. apply paren_needs_close.
    unfold TextFacts.lacks in *. rewrite <- (firstn_skipn k s) in H.
    rewrite forallb_app in H. apply andb_true_iff in H. tauto.
Qed.

(** The parenthesised part that ends a text is removed, with the white
    space around it. *)
Lemma base_name_parenthetical (body pad inner trail : str) :
  TextFacts.stripped body -> TextFacts.lacks open_paren body = true ->
  forallb ws pad = true -> TextFacts.lacks close_paren inner = true ->
  forallb ws trail = true ->
  base_name (body ++ pad ++ open_paren :: inner ++ close_paren :: trail)
  = body.
Proof.
  intros Hb Hl Hp Hi Ht. unfold base_name, sub_empty.
  rewrite sub_go_keep.
  - assert (M : sub_go false paren_re
                   (pad ++ open_paren :: inner ++ close_paren :: trail) 0
                 = []).
    { pose proof (@paren_first pad inner trail Hp Hi Ht) as F.
      destruct (pad ++ open_paren :: inner ++ close_paren :: trail)
        as [|c t] eqn:E; [reflexivity|].
      exact (@sub_go_match false paren_re c t [] F). }
    rewrite M, app_nil_r. apply TextFacts.stripped_strip_id. exact Hb.
  - intros k Hk. apply paren_none. intros pre t E Hpre.
    rewrite skipn_app in E.
    replace (k - length body) with 0 in E by lia. cbn [skipn] in E.
    remember (pad ++ open_paren :: inner ++ close_paren :: trail) as tail.
    assert (Hne : skipn k body <> []).
    { intros E0. apply (f_equal (@length ascii)) in E0.
      rewrite length_skipn in E0. cbn in E0. lia. }
    assert (Hlk : TextFacts.lacks open_paren (skipn k body) = true).
    { unfold TextFacts.lacks in *. rewrite <- (firstn_skipn k body) in Hl.
      rewrite forallb_app in Hl. apply andb_true_iff in Hl. tauto. }
    assert (Hlast : match rev (skipn k body) with
                    | c :: _ => PyStr.is_space c = false
                    | [] => True
                    end).
    { destruct Hb as [_ Hb]. rewrite <- (firstn_skipn k body) in Hb.
      rewrite rev_app_distr in Hb.
      destruct (rev (skipn k body)) as [|c r] eqn:Er; [exact I|].
      exact Hb. }
    apply app_eq_app in E. destruct E as [l [[E1 E2]|[E1 E2]]].
    + (* the white space ends inside the body *)
      destruct l as [|c l].
      * (* pre is the whole rest of the body: it would be white space *)
        exfalso. rewrite app_nil_r in E1. rewrite E1 in Hlast, Hne.
        destruct pre as [|x pre]; [congruence|].
        assert (Hr : forallb ws (rev (x :: pre)) = true)
          by (rewrite TextFacts.forallb_rev; exact Hpre).
        destruct (rev (x :: pre)) as [|y r] eqn:Er.
        { apply (f_equal (@rev ascii)) in Er.
          rewrite rev_involutive in Er. discriminate. }
        cbn [forallb] in Hr. apply andb_true_iff in Hr.
        destruct Hr as [Hy _]. unfold ws in Hy. congruence.
      * rewrite E2. cbn [app].
        rewrite E1 in Hlk. unfold TextFacts.lacks in Hlk.
        rewrite forallb_app in Hlk. apply andb_true_iff in Hlk.
        destruct Hlk as [_ Hlk]. cbn [forallb] in Hlk.
        apply andb_true_iff in Hlk. destruct Hlk as [Hc _].
        unfold non in Hc. apply negb_true_iff in Hc.
        rewrite Ascii.eqb_sym. exact Hc.
    + (* the white space would cover the rest of the body *)
      exfalso. rewrite E1 in Hpre. rewrite forallb_app in Hpre.
      apply andb_true_iff in Hpre. destruct Hpre as [Hsk _].
      assert (Hr : forallb ws (rev (skipn k body)) = true)
        by (rewrite TextFacts.forallb_rev; exact Hsk).
      destruct (rev (skipn k body)) as [|y r] eqn:Er.
      { apply (f_equal (@rev ascii)) in Er.
        rewrite rev_involutive in Er. cbn in Er. congruence. }
      cbn [forallb] in Hr. apply andb_true_iff in Hr.
      destruct Hr as [Hy _]. unfold ws in Hy. congruence.
Qed.

End BaseNames.

(** ** C3: which candidates the cost matcher keeps *)

Section CostNames.
Context {rt : PyRuntime}.
Import CostMatcher.

Definition is_prefix (p s : str) : Prop := exists r, s = p ++ r.

Lemma map_flat_map_if {A B C} (name : A -> C) (keep : C -> bool)
      (entry : A -> B) (proj : B -> C) (l : list A) :
  (forall a, proj (entry a) = name a) ->
  map proj (flat_map (fun a => if keep (name a) then [entry a] else []) l)
  = filter keep (map name l).
Proof.
  intros H. induction l as [|a l IH]; [reflexivity|].
  cbn [flat_map map filter]. destruct (keep (name a)); cbn.
  - rewrite H, IH. reflexivity.
  - exact IH.
Qed.

(** C3.  A candidate name matches a query exactly when, after lowering
    (and stripping the query), the two are equal, or their base names are
    equal, or the candidate starts with the query, or the query starts
    with the candidate.  The base name of a text is the text stripped when
    it holds no closing parenthesis, and it is the body when the text is a
    body (stripped, without an opening parenthesis) followed by white
    space, a parenthesised part and white space up to the end; so
    DGR Fee (Air) matches DGR Fee (Hazardous), neither being the start of
    the other.  Both matchers keep exactly the table entries whose name
    passes the test (the accessorial one where it returns: no lane or
    price cell of a matching row overflows).  The query DGR Fee does not
    match Air DGR Fee, which only contains it, and does match
    DGR Fee (Hazardous). *)
Theorem cost_name_match_rule :
  (forall query candidate,
      let q := PyStr.lower (PyStr.strip query) in
      let c := PyStr.lower candidate in
      is_match query candidate = true
      <-> (c = q \/ base_name c = base_name q
           \/ is_prefix q c \/ is_prefix c q))
  /\ (forall s,
        PyStr.isin (lit ")") s = false -> base_name s = PyStr.strip s)
  /\ (forall body pad inner trail,
        PyStr.strip body = body ->
        PyStr.isin (lit "(") body = false ->
        forallb PyStr.is_space pad = true ->
        PyStr.isin (lit ")") inner = false ->
        forallb PyStr.is_space trail = true ->
        base_name (body ++ pad ++ lit "(" ++ inner ++ lit ")" ++ trail)
        = body)
  /\ (forall query df cn,
        df_empty df = false ->
        cost_name_col (scan_cond_cols (columns df)) = Some cn ->
        map (fun e => fst (fst e))
            (get_all_matching_cost_conditions query (Some df))
        = filter (is_match query) (map (cost_name_of (Some cn)) (rows df)))
  /\ (forall query df cn,
        df_empty df = false ->
        Accessorial.a_cost_name (Accessorial.scan_acc_cols (columns df))
        = Some cn ->
        Accessorial.overflows query (Some df) = false ->
        map Accessorial.acc_cost_name
            (Accessorial.get_all_matching_accessorial_costs query (Some df))
        = filter (is_match query) (map (cost_name_of (Some cn)) (rows df)))
  /\ is_match (lit "DGR Fee") (lit "Air DGR Fee") = false
  /\ PyStr.isin (PyStr.lower (lit "DGR Fee")) (PyStr.lower (lit "Air DGR Fee"))
     = true
  /\ is_match (lit "DGR Fee") (lit "DGR Fee (Hazardous)") = true
  /\ is_match (lit "DGR Fee (Air)") (lit "DGR Fee (Hazardous)") = true
  /\ PyStr.startswith (lit "dgr fee (hazardous)") (lit "dgr fee (air)")
     = false
  /\ PyStr.startswith (lit "dgr fee (air)") (lit "dgr fee (hazardous)")
     = false
  /\ base_name (lit "dgr fee (hazardous)") = lit "dgr fee"
  /\ is_match (lit "DGR Fee (Air)") (lit "DGR Fees (Air)") = false.
Proof.
  assert (Lacks : forall (x : ascii) (s : str),
             PyStr.isin [x] s = false -> TextFacts.lacks x s = true).
  { intros x s H. rewrite TextFacts.lacks_isin in H.
    apply negb_false_iff in H. exact H. }
  split; [|split; [|split; [|split; [|split]]]].
  - intros query candidate q c. unfold is_match. fold q c.
    rewrite !orb_true_iff, !PyStrFacts.eqb_eq, !PyStrFacts.startswith_spec.
    unfold is_prefix. tauto.
  - intros s H. apply BaseNames.base_name_plain. apply Lacks. exact H.
  - intros body pad inner trail Hb Hl Hp Hi Ht.
    apply (@BaseNames.base_name_parenthetical body pad inner trail).
    + rewrite <- Hb. apply TextFacts.strip_stripped.
    + apply Lacks. exact Hl.
    + exact Hp.
    + apply Lacks. exact Hi.
    + exact Ht.
  - intros query df cn He Hcn.
    unfold get_all_matching_cost_conditions. rewrite He, Hcn.
    apply (map_flat_map_if (cost_name_of (Some cn)) (is_match query)).
    reflexivity.
  - intros query df cn He Hcn _.
    unfold Accessorial.get_all_matching_accessorial_costs. rewrite He, Hcn.
    apply (map_flat_map_if (cost_name_of (Some cn)) (is_match query)).
    reflexivity.
  - vm_compute. repeat split; reflexivity.
Qed.

End CostNames.

(** ** The price lookup in a rate table *)

Module RateCardFacts.
Import RateCard.

Lemma find_index_some {A} (p : A -> bool) :
  forall (l : list A) (i : nat),
    find_index p l = Some i ->
    exists x, nth_error l i = Some x /\ p x = true
              /\ forall j y, j < i -> nth_error l j = Some y -> p y = false.
Proof.
  induction l as [|x l IH]; intros i; cbn [find_index]; [discriminate|].
  destruct (p x) eqn:Hx.
  - intros E. inversion E. subst i. exists x. repeat split; [exact Hx|].
    intros j y Hj. lia.
  - destruct (find_index p l) as [k|] eqn:Hk; cbn; [|discriminate].
    intros E. inversion E. subst i.
    destruct (IH k eq_refl) as [z [Hz [Hpz Hbefore]]].
    exists z. repeat split; [exact Hz | exact Hpz |].
    intros [|j] y Hj Hy; cbn in Hy.
    + inversion Hy. subst y. exact Hx.
    + apply (Hbefore j y); [lia | exact Hy].
Qed.

Lemma find_index_none {A} (p : A -> bool) :
  forall l : list A,
    find_index p l = None <-> forall x, In x l -> p x = false.
Proof.
  induction l as [|x l IH]; cbn [find_index].
  - split; [intros _ ? [] | reflexivity].
  - destruct (p x) eqn:Hx.
    + split; [discriminate|]. intros H.
      rewrite (H x (or_introl eq_refl)) in Hx. discriminate.
    + destruct (find_index p l) as [k|]; cbn.
      * split; [discriminate|]. intros H.
        assert (E : Some k = None); [|discriminate E].
        apply (proj2 IH). intros y Hy. apply H. right. exact Hy.
      * split; [|reflexivity]. intros _ y [<-|Hy]; [exact Hx|].
        apply (proj1 IH eq_refl y Hy).
Qed.

Lemma find_in_window_some (lo hi : nat) (cols : list str)
      (p : str -> bool) (i : nat) :
  find_in_window lo hi cols p = Some i ->
  lo <= i /\ i < hi
  /\ exists col, nth_error cols i = Some col /\ p (PyStr.lower col) = true.
Proof.
  unfold find_in_window.
  destruct (find _ _) as [[j c]|] eqn:E; cbn; [|discriminate].
  intros H. inversion H. subst j.
  apply find_some in E. destruct E as [Hin Hp].
  apply window_spec in Hin. destruct Hin as [A [B C]].
  repeat split; [exact A | exact B |]. exists c. split; [exact C | exact Hp].
Qed.

Lemma iloc_row_in (rows_ : list row_data) (label : Z) (row : row_data) :
  iloc_row rows_ label = Some row -> In row rows_.
Proof.
  unfold iloc_row. cbv zeta.
  destruct ((0 <=? label)%Z && (label <? Z.of_nat (length rows_))%Z);
    [apply nth_error_In|].
  destruct ((- Z.of_nat (length rows_) <=? label)%Z && (label <? 0)%Z);
    [apply nth_error_In | discriminate].
Qed.

Lemma iloc_row_inside (rows_ : list row_data) (label : Z) :
  (- Z.of_nat (length rows_) <= label < Z.of_nat (length rows_))%Z ->
  exists row, iloc_row rows_ label = Some row.
Proof.
  intros H. unfold iloc_row. cbv zeta.
  destruct (0 <=? label)%Z eqn:E0.
  - apply Z.leb_le in E0.
    assert (E1 : (label <? Z.of_nat (length rows_))%Z = true)
      by (apply Z.ltb_lt; lia).
    rewrite E1. cbn [andb].
    destruct (nth_error rows_ (Z.to_nat label)) as [row|] eqn:En;
      [exists row; reflexivity|].
    apply nth_error_None in En. lia.
  - apply Z.leb_gt in E0. cbn [andb].
    assert (E1 : (- Z.of_nat (length rows_) <=? label)%Z = true)
      by (apply Z.leb_le; lia).
    assert (E2 : (label <? 0)%Z = true) by (apply Z.ltb_lt; lia).
    rewrite E1, E2. cbn [andb].
    destruct (nth_error rows_ (Z.to_nat (Z.of_nat (length rows_) + label)))
      as [row|] eqn:En; [exists row; reflexivity|].
    apply nth_error_None in En. lia.
Qed.

Lemma iloc_row_position (rows_ : list row_data) (k : nat) :
  iloc_row rows_ (Z.of_nat k) = nth_error rows_ k.
Proof.
  unfold iloc_row. cbv zeta.
  assert (E0 : (0 <=? Z.of_nat k)%Z = true) by (apply Z.leb_le; lia).
  rewrite E0. cbn [andb].
  destruct (Z.of_nat k <? Z.of_nat (length rows_))%Z eqn:E1.
  - rewrite Nat2Z.id. reflexivity.
  - apply Z.ltb_ge in E1.
    assert (E2 : (Z.of_nat k <? 0)%Z = false) by (apply Z.ltb_ge; lia).
    rewrite E2, andb_false_r. symmetry. apply nth_error_None. lia.
Qed.

(** In a frame with the index it was read with, the label of a row is its
    position. *)
Lemma find_labelled (p : row_data -> bool) (label : Z) (row : row_data) :
  forall (rows_ : list row_data) (start : nat),
    find (fun labelled => p (snd labelled))
         (combine (map Z.of_nat (seq start (length rows_))) rows_)
    = Some (label, row) ->
    exists k, label = Z.of_nat (start + k)
              /\ nth_error rows_ k = Some row
              /\ find p rows_ = Some row.
Proof.
  induction rows_ as [|r rs IH]; intros start; [discriminate|].
  cbn [length seq map combine find snd].
  destruct (p r) eqn:Hp.
  - intros E. inversion E. subst. exists 0.
    rewrite Nat.add_0_r. repeat split.
  - intros E. destruct (IH (S start) E) as [k [El [En Ef]]].
    exists (S k). repeat split; [rewrite El; f_equal; lia | exact En |
                                 exact Ef].
Qed.

Lemma labelled_in (p : row_data -> bool) (label : Z) (row : row_data)
      (index : list Z) (rows_ : list row_data) :
  find (fun labelled => p (snd labelled)) (combine index rows_)
  = Some (label, row) ->
  In label index.
Proof.
  intros E. apply find_some in E. destruct E as [E _].
  apply in_combine_l in E. exact E.
Qed.

Section WithRuntime.
Context {rt : PyRuntime}.

Lemma selected_is_a_tier (tiers : list Tiers.tier) (cw : pyval)
      (idx : nat) (d : option str) :
  Tiers.select_price_column_by_weight tiers cw = Returns (Some idx, d) ->
  exists t, In t tiers /\ fst (fst t) = idx.
Proof.
  unfold Tiers.select_price_column_by_weight.
  destruct (negb (Py.nonempty tiers) || Py.is_none cw); [discriminate|].
  destruct (Py.float_overflows cw); [discriminate|].
  destruct (Py.to_float cw) as [w|]; [|discriminate]. cbv zeta.
  destruct (find _ _) as [t|] eqn:E.
  - destruct (Tiers.range_desc t); [|discriminate].
    intros H. inversion H. apply find_some in E. destruct E as [Hin _].
    exists t. split; [|reflexivity]. apply In_sorted_tiers. exact Hin.
  - destruct (last _ _) as [t|]; [|discriminate].
    destruct (_ <? _)%float; discriminate.
Qed.

Lemma select_raises (tiers : list Tiers.tier) (cw : pyval) (e : string) :
  Tiers.select_price_column_by_weight tiers cw = Raises e ->
  e = "OverflowError"%string.
Proof.
  unfold Tiers.select_price_column_by_weight.
  destruct (negb (Py.nonempty tiers) || Py.is_none cw); [discriminate|].
  destruct (Py.float_overflows cw);
    [intros H; inversion H; reflexivity|].
  destruct (Py.to_float cw) as [w|]; [|discriminate]. cbv zeta.
  destruct (find _ _) as [t|].
  - destruct (Tiers.range_desc t); [discriminate|].
    intros H. inversion H. reflexivity.
  - destruct (last _ _) as [t|]; [|discriminate].
    destruct (_ <? _)%float; discriminate.
Qed.

Lemma bound_raises (m : option Re.caps) (e : string) :
  TierColumns.bound_of m = Raises e -> e = "ValueError"%string.
Proof.
  unfold TierColumns.bound_of. destruct m as [c|]; [|discriminate].
  destruct (float_of_str _); [discriminate|].
  intros H. inversion H. reflexivity.
Qed.

Lemma range_raises (col : str) (e : string) :
  TierColumns.parse_weight_range_from_column col = Raises e ->
  e = "ValueError"%string.
Proof.
  unfold TierColumns.parse_weight_range_from_column.
  destruct (negb (Py.nonempty col)); [discriminate|]. cbv zeta.
  destruct (_ && _); [discriminate|].
  destruct (TierColumns.bound_of (Re.search false TierColumns.lower_re _))
    as [lo|e1] eqn:E1.
  - destruct (TierColumns.bound_of (Re.search false TierColumns.upper_re _))
      as [[up|]|e2] eqn:E2; [discriminate | discriminate |].
    intros H. inversion H. subst e2. exact (bound_raises _ E2).
  - intros H. inversion H. subst e1. exact (bound_raises _ E1).
Qed.

Lemma tier_scan_raises (pt : price_type) (e : string) :
  forall w : list (nat * str),
    TierColumns.tier_scan pt w = Raises e -> e = "ValueError"%string.
Proof.
  induction w as [|[i col] w IH]; cbn [TierColumns.tier_scan];
    [discriminate|]. cbv zeta.
  destruct (TierColumns.is_flat pt && negb _); [exact IH|].
  destruct (TierColumns.is_per_unit pt && negb _); [exact IH|].
  destruct (TierColumns.parse_weight_range_from_column col)
    as [[lo [up|]]|e1] eqn:E1.
  - destruct (TierColumns.tier_scan pt w) as [l|e2]; [discriminate|].
    intros H. inversion H. subst e2. apply IH. reflexivity.
  - destruct (_ && _ && _ && _); [discriminate|].
    destruct (TierColumns.is_per_unit pt && _); [discriminate | exact IH].
  - intros H. inversion H. subst e1. exact (range_raises _ E1).
Qed.

Lemma pick_tier_picked (cols : list str) (c : nat) (pt : price_type)
      (cw : pyval) (i : nat) :
  pick_tier cols c pt cw = Returns (Picked i) ->
  c < i /\ i < c + 10 /\ exists col, nth_error cols i = Some col.
Proof.
  unfold pick_tier, TierColumns.find_weight_tiered_price_columns.
  destruct (TierColumns.tier_scan pt _) as [tiers|e] eqn:Es; [|discriminate].
  destruct (Py.nonempty tiers && negb (Py.is_none cw)); [|discriminate].
  destruct (Tiers.select_price_column_by_weight tiers cw)
    as [[[idx|] [d|]]|e] eqn:E; try discriminate.
  - intros H. inversion H. subst idx.
    destruct (selected_is_a_tier _ _ E) as [[[j lo] up] [Hin Hj]].
    cbn in Hj. subst j.
    destruct (tier_scan_spec _ _ Es) as [_ Hspec].
    destruct (Hspec _ _ _ Hin) as [col [Hw _]].
    apply window_spec in Hw. destruct Hw as [A [B C]].
    repeat split; [lia | exact B |]. exists col. exact C.
  - intros H. inversion H. subst idx.
    destruct (selected_is_a_tier _ _ E) as [[[j lo] up] [Hin Hj]].
    cbn in Hj. subst j.
    destruct (tier_scan_spec _ _ Es) as [_ Hspec].
    destruct (Hspec _ _ _ Hin) as [col [Hw _]].
    apply window_spec in Hw. destruct Hw as [A [B C]].
    repeat split; [lia | exact B |]. exists col. exact C.
  - destruct (Py.nonempty d && _); discriminate.
Qed.

Lemma pick_tier_raises (cols : list str) (c : nat) (pt : price_type)
      (cw : pyval) (e : string) :
  pick_tier cols c pt cw = Raises e ->
  e = "ValueError"%string \/ e = "OverflowError"%string.
Proof.
  unfold pick_tier, TierColumns.find_weight_tiered_price_columns.
  destruct (TierColumns.tier_scan pt _) as [tiers|e1] eqn:Es.
  - destruct (Py.nonempty tiers && negb (Py.is_none cw)); [|discriminate].
    destruct (Tiers.select_price_column_by_weight tiers cw)
      as [[[idx|] [d|]]|e2] eqn:E; try discriminate.
    + destruct (Py.nonempty d && _); discriminate.
    + intros H. inversion H. subst e2. right. exact (select_raises _ _ E).
  - intros H. inversion H. subst e1. left. exact (tier_scan_raises _ _ Es).
Qed.

(** The triple returned before a cell is read *)
Definition early_shape (pt : price_type)
           (r : pyval * option str * option str) : Prop :=
  fst (fst r) = PNone /\ snd (fst r) = None
  /\ match snd r with
     | Some reason => Py.nonempty reason = true
     | None => pt = price_min \/ pt = price_max
     end.

Lemma price_column_spec (cols : list str) (c : nat) (ct : str)
      (pt : price_type) (cw : pyval) :
  match price_column cols c ct pt cw with
  | Returns (inl i) =>
      c < i /\ i < c + 10 /\ exists col, nth_error cols i = Some col
  | Returns (inr r) => early_shape pt r
  | Raises e => (pt = flat \/ pt = per_unit)
                /\ (e = "ValueError"%string \/ e = "OverflowError"%string)
  end.
Proof.
  assert (W : forall lo hi p,
             lo = c + 1 -> hi <= c + 10 ->
             match find_in_window lo hi cols p with
             | Some i =>
                 c < i /\ i < c + 10
                 /\ exists col, nth_error cols i = Some col
             | None => True
             end).
  { intros lo hi p Hlo Hhi.
    destruct (find_in_window lo hi cols p) as [i|] eqn:E; [|exact I].
    destruct (find_in_window_some _ _ _ _ E) as [A [B [col [C _]]]].
    repeat split; [lia | lia |]. exists col. exact C. }
  unfold price_column. cbv zeta. destruct pt.
  - (* flat *)
    destruct (pick_tier cols c flat cw) as [[i|d|]|e] eqn:E.
    + exact (pick_tier_picked _ _ _ _ E).
    + repeat split.
    + destruct (length cols <=? c + 1) eqn:Hl.
      * repeat split.
      * apply Nat.leb_gt in Hl. repeat split; [lia | lia |].
        destruct (nth_error cols (c + 1)) as [col|] eqn:En;
          [exists col; reflexivity|].
        apply nth_error_None in En. lia.
    + split; [left; reflexivity | exact (pick_tier_raises _ _ _ _ E)].
  - (* per_unit *)
    destruct (pick_tier cols c per_unit cw) as [[i|d|]|e] eqn:E.
    + exact (pick_tier_picked _ _ _ _ E).
    + repeat split.
    + pose proof (W (c + 1) (c + 5)
                    (fun col =>
                       (PyStr.isin (lit "per unit") col
                        || PyStr.isin (lit "price per") col)
                       && negb (PyStr.isin (lit "<") col)
                       && negb (PyStr.isin (lit ">") col))
                    eq_refl ltac:(lia)) as Hw.
      destruct (find_in_window _ _ _ _) as [i|]; [exact Hw|].
      destruct (Py.is_none cw); [repeat split|].
      destruct (pick_tier cols c flat cw) as [[i|d|]|e] eqn:E2.
      * exact (pick_tier_picked _ _ _ _ E2).
      * repeat split.
      * repeat split.
      * split; [right; reflexivity | exact (pick_tier_raises _ _ _ _ E2)].
    + split; [right; reflexivity | exact (pick_tier_raises _ _ _ _ E)].
  - (* min *)
    pose proof (W (c + 1) (c + 5)
                  (fun col => PyStr.isin (lit "min") col
                              || PyStr.isin (lit "flat min") col)
                  eq_refl ltac:(lia)) as Hw.
    destruct (find_in_window _ _ _ _) as [i|]; [exact Hw|].
    repeat split. left. reflexivity.
  - (* max *)
    pose proof (W (c + 1) (c + 6)
                  (fun col => PyStr.isin (lit "max") col
                              || PyStr.isin (lit "flat max") col)
                  eq_refl ltac:(lia)) as Hw.
    destruct (find_in_window _ _ _ _) as [i|]; [exact Hw|].
    repeat split. right. reflexivity.
Qed.

End WithRuntime.
End RateCardFacts.

Section PriceLookup.
Context {rt : PyRuntime}.
Import RateCard RateCardFacts.

(** X18.  A price returned by the lookup is a cell of the table: when
    [find_cost_price_in_rate_data] returns a price that is not [None], it
    returns no reason; the price stands in a column that lies one to nine
    places after the cost column, the returned name is the header of that
    column, and the cell is neither NaN nor blank.  The row it is read in
    is the one at the position given by the index label of the first row
    whose first cell reads as the lane number (blanks around both
    ignored): in a frame that has the index it was read with, that is the
    lane's row itself. *)
Theorem price_is_a_cell_of_the_lane_row
        (df : DataFrame) (index : list Z) (lane_number cost_type : str)
        (pt : price_type) (charge_weight price : pyval)
        (name reason : option str) :
  find_cost_price_in_rate_data df index lane_number cost_type pt
                               charge_weight
  = Returns (price, name, reason) ->
  Py.is_none price = false ->
  reason = None
  /\ exists (label : Z) (lane read : row_data) (c i : nat)
            (header key : str),
       find (fun labelled => lane_row lane_number (snd labelled))
            (combine index (rows df)) = Some (label, lane)
       /\ iloc_row (rows df) label = Some read
       /\ find_cost_column (columns df) cost_type = Some c
       /\ c < i /\ i < c + 10
       /\ nth_error (columns df) i = Some header /\ name = Some header
       /\ nth_error read i = Some (key, price)
       /\ Py.isna price = false
       /\ Py.nonempty (PyStr.strip (Py.to_str price)) = true
       /\ (index = range_index (length (rows df)) ->
           read = lane
           /\ find (lane_row lane_number) (rows df) = Some lane).
Proof.
  unfold find_cost_price_in_rate_data. cbv zeta.
  destruct (columns df) as [|h0 t0] eqn:Ec; [discriminate|].
  destruct (existsb (PyStr.eqb h0) t0); [discriminate|].
  rewrite <- Ec.
  destruct (find (fun labelled => lane_row lane_number (snd labelled))
                 (combine index (rows df))) as [[label lane]|] eqn:Er;
    [|intros H; inversion H; subst; discriminate].
  destruct (find_cost_column (columns df) cost_type) as [c|] eqn:Ek;
    [|intros H; inversion H; subst; discriminate].
  pose proof (price_column_spec (columns df) c cost_type pt charge_weight)
    as Hp.
  destruct (price_column (columns df) c cost_type pt charge_weight)
    as [[i|[[p n] r]]|e]; [| |discriminate].
  - destruct (iloc_row (rows df) label) as [read|] eqn:Ei; [|discriminate].
    destruct Hp as [A [B [col C]]]. rewrite C.
    destruct (nth_error read i) as [[key v]|] eqn:Ev; [|discriminate].
    destruct (Py.is_none v || Py.isna v
              || PyStr.eqb (PyStr.strip (Py.to_str v)) []) eqn:Hv.
    + intros H. inversion H. subst. discriminate.
    + intros H. inversion H. subst. intros _.
      apply orb_false_iff in Hv. destruct Hv as [Hv Hs].
      apply orb_false_iff in Hv. destruct Hv as [_ Hn].
      split; [reflexivity|].
      exists label, lane, read, c, i, col, key.
      split; [reflexivity|]. split; [exact Ei|]. split; [reflexivity|].
      split; [exact A|]. split; [exact B|]. split; [exact C|].
      split; [reflexivity|]. split; [exact Ev|]. split; [exact Hn|].
      split.
      * destruct (PyStr.strip (Py.to_str price)); [discriminate|reflexivity].
      * intros Hi. subst index. unfold range_index in Er.
        destruct (find_labelled _ _ _ Er) as [k [El [En Ef]]].
        cbn [Nat.add] in El. subst label.
        rewrite iloc_row_position in Ei. split; [congruence | exact Ef].
  - destruct Hp as [A _]. cbn in A. subst p.
    intros H. inversion H. subst. discriminate.
Qed.

(** X19.  A lookup that gives no price says why: when
    [find_cost_price_in_rate_data] returns [None] for the price, it returns
    a reason that is not the empty text, except for the price types MIN and
    MAX, where it may return no reason, and then no column name either. *)
Theorem missing_price_has_a_reason
        (df : DataFrame) (index : list Z) (lane_number cost_type : str)
        (pt : price_type) (charge_weight price : pyval)
        (name reason : option str) :
  find_cost_price_in_rate_data df index lane_number cost_type pt
                               charge_weight
  = Returns (price, name, reason) ->
  Py.is_none price = true ->
  match reason with
  | Some r => Py.nonempty r = true
  | None => name = None /\ (pt = price_min \/ pt = price_max)
  end.
Proof.
  unfold find_cost_price_in_rate_data. cbv zeta.
  destruct (columns df) as [|h0 t0] eqn:Ec; [discriminate|].
  destruct (existsb (PyStr.eqb h0) t0); [discriminate|].
  rewrite <- Ec.
  destruct (find (fun labelled => lane_row lane_number (snd labelled))
                 (combine index (rows df))) as [[label lane]|] eqn:Er;
    [|intros H; inversion H; subst; reflexivity].
  destruct (find_cost_column (columns df) cost_type) as [c|] eqn:Ek;
    [|intros H; inversion H; subst; reflexivity].
  pose proof (price_column_spec (columns df) c cost_type pt charge_weight)
    as Hp.
  destruct (price_column (columns df) c cost_type pt charge_weight)
    as [[i|[[p n] r]]|e]; [| |discriminate].
  - destruct (iloc_row (rows df) label) as [read|]; [|discriminate].
    destruct Hp as [A [B [col C]]]. rewrite C.
    destruct (nth_error read i) as [[key v]|] eqn:Ev; [|discriminate].
    destruct (Py.is_none v || Py.isna v
              || PyStr.eqb (PyStr.strip (Py.to_str v)) []) eqn:Hv.
    + intros H. inversion H. subst. reflexivity.
    + intros H. inversion H. subst. intros Hn.
      rewrite Hn in Hv. discriminate.
  - destruct Hp as [A [B C]]. cbn in A, B, C.
    intros H. inversion H. subst. intros _.
    destruct reason as [t|]; [exact C | split; [reflexivity | exact C]].
Qed.

(** A frame the lookup can read: at least one column, the label of the
    first column borne by no other, one cell per header in every row, and
    index labels that are positions of the frame (counted from the start,
    or from the end when negative) *)
Definition well_formed (df : DataFrame) (index : list Z) : Prop :=
  match columns df with
  | [] => False
  | lane_col :: others => existsb (PyStr.eqb lane_col) others = false
  end
  /\ Forall (fun row => length row = length (columns df)) (rows df)
  /\ Forall (fun label =>
               (- Z.of_nat (length (rows df)) <= label
                < Z.of_nat (length (rows df)))%Z)
            index.

(** X20.  The lookup reads inside the table: on a frame with at least one
    column, a first label that no other column bears, one cell per header
    in every row and index labels that are positions of the frame, no
    selection by label and no positional read of
    [find_cost_price_in_rate_data] fails.  For the price types MIN and MAX
    the call always returns; for the others it returns unless it ends in a
    [ValueError] (the number in a tier header does not convert) or in an
    [OverflowError] (the charge weight is an integer beyond the float
    range, or the bound of the selected tier is infinite). *)
Theorem lookup_reads_inside_the_table
        (df : DataFrame) (index : list Z) (lane_number cost_type : str)
        (pt : price_type) (charge_weight : pyval) :
  well_formed df index ->
  (exists r,
      find_cost_price_in_rate_data df index lane_number cost_type pt
                                   charge_weight
      = Returns r)
  \/ ((pt = flat \/ pt = per_unit)
      /\ (find_cost_price_in_rate_data df index lane_number cost_type pt
                                       charge_weight
          = Raises "ValueError"
          \/ find_cost_price_in_rate_data df index lane_number cost_type pt
                                          charge_weight
             = Raises "OverflowError")).
Proof.
  intros [Hc [Hr Hi]]. unfold find_cost_price_in_rate_data. cbv zeta.
  destruct (columns df) as [|h0 t0] eqn:Ec; [destruct Hc|].
  rewrite Hc. rewrite <- Ec.
  destruct (find (fun labelled => lane_row lane_number (snd labelled))
                 (combine index (rows df))) as [[label lane]|] eqn:Er;
    [|left; eexists; reflexivity].
  destruct (find_cost_column (columns df) cost_type) as [c|] eqn:Ek;
    [|left; eexists; reflexivity].
  pose proof (price_column_spec (columns df) c cost_type pt charge_weight)
    as Hp.
  destruct (price_column (columns df) c cost_type pt charge_weight)
    as [[i|[[p n] r]]|e].
  - destruct Hp as [A [B [col C]]].
    apply labelled_in in Er. rewrite Forall_forall in Hi.
    destruct (iloc_row_inside (rows df) (Hi label Er)) as [read Eread].
    rewrite Eread, C.
    apply iloc_row_in in Eread.
    rewrite Forall_forall in Hr. specialize (Hr read Eread).
    destruct (nth_error read i) as [[key v]|] eqn:Ev.
    + left. destruct (_ || _ || _); eexists; reflexivity.
    + apply nth_error_None in Ev.
      assert (i < length (columns df))
        by (apply nth_error_Some; congruence).
      rewrite Ec in *. lia.
  - left. eexists. reflexivity.
  - right. destruct Hp as [A [B|B]]; subst e; auto.
Qed.

Definition related (cost_type header : str) : bool :=
  let k := header_key header in
  let q := PyStr.lower (PyStr.strip cost_type) in
  Py.nonempty header
  && (PyStr.startswith k q || PyStr.startswith q k
      || PyStr.eqb (CostMatcher.base_name k) (CostMatcher.base_name q)).

Definition same_name (cost_type header : str) : bool :=
  Py.nonempty header
  && PyStr.eqb (header_key header) (PyStr.lower (PyStr.strip cost_type)).

Lemma startswith_self (s : str) : PyStr.startswith s s = true.
Proof.
  apply PyStrFacts.startswith_spec. exists []. symmetry. apply app_nil_r.
Qed.

(** A header, or a cost type, made of a body and a parenthesised part *)
Definition with_part (body part : str) : str :=
  body ++ lit " (" ++ part ++ lit ")".

Lemma key_of_with_part (body part : str) :
  body <> [] -> PyStr.strip body = body ->
  PyStr.isin (lit "(") body = false -> PyStr.isin (lit ")") part = false ->
  Py.nonempty (with_part body part) = true
  /\ CostMatcher.base_name (PyStr.lower (PyStr.strip (with_part body part)))
     = PyStr.lower body.
Proof.
  intros Hne Hs Hb Hp.
  assert (Lacks : forall (x : ascii) (s : str),
             PyStr.isin [x] s = false -> TextFacts.lacks x s = true).
  { intros x s H. rewrite TextFacts.lacks_isin in H.
    apply negb_false_iff in H. exact H. }
  assert (St : TextFacts.stripped body)
    by (rewrite <- Hs; apply TextFacts.strip_stripped).
  split.
  { destruct body; [congruence | reflexivity]. }
  assert (E : PyStr.strip (with_part body part) = with_part body part).
  { apply PyStrFacts.strip_id.
    - destruct body as [|c b]; [congruence|]. exact (proj1 St).
    - unfold with_part. rewrite !rev_app_distr. reflexivity. }
  rewrite E. unfold with_part. rewrite !ReFacts.lower_app.
  change (PyStr.lower (lit " (")) with (lit " " ++ lit "(").
  change (PyStr.lower (lit ")")) with (lit ")" ++ @nil ascii).
  rewrite <- app_assoc.
  apply (@BaseNames.base_name_parenthetical
           (PyStr.lower body) (lit " ") (PyStr.lower part) []).
  - apply TextFacts.lower_stripped. exact St.
  - apply TextFacts.lower_lacks; [reflexivity | reflexivity |].
    apply Lacks. exact Hb.
  - reflexivity.
  - apply TextFacts.lower_lacks; [reflexivity | reflexivity |].
    apply Lacks. exact Hp.
  - reflexivity.
Qed.

(** X21.  Which column is the cost column: the lookup finds no cost
    column exactly when no header is related to the cost type; a column it
    finds has a related header; when some header has the same name as the
    cost type (case and outer blanks ignored), the column found is the
    first header with the same name, also when an earlier header merely
    begins with the cost type; and a header and a cost type that differ
    only in the parenthesised part that ends them are related, so that
    the column DGR Fee (Hazardous) is found for the cost type
    DGR Fee (Air), of which it is neither the start nor a continuation. *)
Theorem cost_column_rule (columns_list : list str) (cost_type : str) :
  (find_cost_column columns_list cost_type = None
   <-> forall h, In h columns_list -> related cost_type h = false)
  /\ (forall i, find_cost_column columns_list cost_type = Some i ->
                exists h, nth_error columns_list i = Some h
                          /\ related cost_type h = true)
  /\ (forall h, In h columns_list -> same_name cost_type h = true ->
                exists i h',
                  find_cost_column columns_list cost_type = Some i
                  /\ nth_error columns_list i = Some h'
                  /\ same_name cost_type h' = true
                  /\ forall j y, j < i -> nth_error columns_list j = Some y ->
                                 same_name cost_type y = false)
  /\ (forall body part part',
        body <> [] -> PyStr.strip body = body ->
        PyStr.isin (lit "(") body = false ->
        PyStr.isin (lit ")") part = false ->
        PyStr.isin (lit ")") part' = false ->
        related (with_part body part) (with_part body part') = true)
  /\ find_cost_column
       [lit "Lane #"; lit "DGR Fee (Hazardous)"; lit "Price Flat"]
       (lit "DGR Fee (Air)") = Some 1
  /\ PyStr.startswith (lit "dgr fee (hazardous)") (lit "dgr fee (air)")
     = false
  /\ PyStr.startswith (lit "dgr fee (air)") (lit "dgr fee (hazardous)")
     = false
  /\ find_cost_column
       [lit "Lane #"; lit "DGR Fees (Hazardous)"; lit "Price Flat"]
       (lit "DGR Fee (Air)") = None.
Proof.
  unfold find_cost_column. cbv zeta.
  set (q := PyStr.lower (PyStr.strip cost_type)).
  set (p1 := fun col => Py.nonempty col && PyStr.eqb (header_key col) q).
  set (p2 := fun col =>
               Py.nonempty col && PyStr.startswith (header_key col) q).
  set (p3 := fun col =>
               Py.nonempty col && PyStr.startswith q (header_key col)).
  set (p4 := fun col =>
               Py.nonempty col
               && PyStr.eqb (CostMatcher.base_name (header_key col))
                            (CostMatcher.base_name q)).
  assert (R : forall h, related cost_type h
                        = p2 h || p3 h || p4 h).
  { intros h. unfold related, p2, p3, p4. cbv zeta. fold q.
    destruct (Py.nonempty h); reflexivity. }
  assert (P12 : forall h, p1 h = true -> p2 h = true).
  { intros h. unfold p1, p2. destruct (Py.nonempty h); [|discriminate].
    cbn. intros E. apply PyStrFacts.eqb_eq in E. rewrite E.
    apply startswith_self. }
  assert (Sound : forall (p : str -> bool) i,
             (forall h, p h = true -> related cost_type h = true) ->
             find_index p columns_list = Some i ->
             exists h, nth_error columns_list i = Some h
                       /\ related cost_type h = true).
  { intros p i Hp E. destruct (find_index_some _ _ E) as [h [A [B _]]].
    exists h. split; [exact A | apply Hp; exact B]. }
  split; [|split; [|split; [|split]]].
  - destruct (find_index p1 columns_list) as [i|] eqn:E1.
    { split; [discriminate|]. intros H.
      destruct (find_index_some _ _ E1) as [h [A [B _]]].
      apply nth_error_In in A. specialize (H h A). rewrite R in H.
      rewrite (P12 h B) in H. discriminate. }
    destruct (find_index p2 columns_list) as [i|] eqn:E2.
    { split; [discriminate|]. intros H.
      destruct (find_index_some _ _ E2) as [h [A [B _]]].
      apply nth_error_In in A. specialize (H h A). rewrite R, B in H.
      discriminate. }
    destruct (find_index p3 columns_list) as [i|] eqn:E3.
    { split; [discriminate|]. intros H.
      destruct (find_index_some _ _ E3) as [h [A [B _]]].
      apply nth_error_In in A. specialize (H h A). rewrite R, B in H.
      rewrite orb_true_r in H. discriminate. }
    rewrite find_index_none in *.
    split.
    + intros H4 h Hh. rewrite R, (E2 h Hh), (E3 h Hh), (H4 h Hh).
      reflexivity.
    + intros H h Hh. specialize (H h Hh). rewrite R in H.
      apply orb_false_iff in H. apply H.
  - intros i.
    destruct (find_index p1 columns_list) as [i1|] eqn:E1.
    { intros H. inversion H. subst i1. apply (Sound p1); [|exact E1].
      intros h Hh. rewrite R, (P12 h Hh). reflexivity. }
    destruct (find_index p2 columns_list) as [i2|] eqn:E2.
    { intros H. inversion H. subst i2. apply (Sound p2); [|exact E2].
      intros h Hh. rewrite R, Hh. reflexivity. }
    destruct (find_index p3 columns_list) as [i3|] eqn:E3.
    { intros H. inversion H. subst i3. apply (Sound p3); [|exact E3].
      intros h Hh. rewrite R, Hh. rewrite orb_true_r. reflexivity. }
    intros E4. apply (Sound p4); [|exact E4].
    intros h Hh. rewrite R, Hh. apply orb_true_r.
  - intros h Hin Hs. change (p1 h = true) in Hs.
    destruct (find_index p1 columns_list) as [i|] eqn:E1.
    + destruct (find_index_some _ _ E1) as [h' [A [B C]]].
      exists i, h'. repeat split; [exact A | exact B | exact C].
    + rewrite find_index_none in E1. rewrite (E1 h Hin) in Hs.
      discriminate.
  - intros body part part' Hne Hs Hb Hp Hp'.
    destruct (@key_of_with_part body part Hne Hs Hb Hp) as [_ K1].
    destruct (@key_of_with_part body part' Hne Hs Hb Hp') as [N2 K2].
    unfold related, header_key. cbv zeta.
    rewrite N2, K1, K2, PyStrFacts.eqb_refl.
    cbn [andb]. apply orb_true_r.
  - vm_compute. repeat split; reflexivity.
Qed.

End PriceLookup.

(** A rate table with a tiered flat price: two lanes, the fee of lane 2
    priced by weight *)
Definition tiered_rate_table : DataFrame :=
  {| columns := [lit "Lane #"; lit "DGR Fee"; lit "Price Flat <=200";
                 lit "Price Flat >200 <=500"];
     rows := [[(lit "Lane #", PInt 1); (lit "DGR Fee", PStr (lit "x"));
               (lit "Price Flat <=200", PInt 10);
               (lit "Price Flat >200 <=500", PInt 20)];
              [(lit "Lane #", PInt 2); (lit "DGR Fee", PStr (lit "x"));
               (lit "Price Flat <=200", PInt 30);
               (lit "Price Flat >200 <=500", PFloat nan)]] |}.

Lemma price_is_a_cell_of_the_lane_row_witness :
  @RateCard.find_cost_price_in_rate_data plain_runtime tiered_rate_table
     (RateCard.range_index 2) (lit " 2") (lit "dgr fee") flat (PInt 150)
  = Returns (PInt 30, Some (lit "Price Flat <=200"), None)
  /\ @None str = None
  /\ exists (label : Z) (lane read : row_data) (c i : nat)
            (header key : str),
       find (fun labelled =>
               @RateCard.lane_row plain_runtime (lit " 2") (snd labelled))
            (combine (RateCard.range_index 2) (rows tiered_rate_table))
       = Some (label, lane)
       /\ RateCard.iloc_row (rows tiered_rate_table) label = Some read
       /\ RateCard.find_cost_column (columns tiered_rate_table)
                                    (lit "dgr fee") = Some c
       /\ c < i /\ i < c + 10
       /\ nth_error (columns tiered_rate_table) i = Some header
       /\ Some (lit "Price Flat <=200") = Some header
       /\ nth_error read i = Some (key, PInt 30)
       /\ Py.isna (PInt 30) = false
       /\ Py.nonempty (PyStr.strip (@Py.to_str plain_runtime (PInt 30)))
          = true
       /\ read = lane
       /\ find (@RateCard.lane_row plain_runtime (lit " 2"))
               (rows tiered_rate_table) = Some lane.
Proof.
  assert (E : @RateCard.find_cost_price_in_rate_data plain_runtime
                tiered_rate_table (RateCard.range_index 2) (lit " 2")
                (lit "dgr fee") flat (PInt 150)
              = Returns (PInt 30, Some (lit "Price Flat <=200"), None))
    by (vm_compute; reflexivity).
  split; [exact E|].
  destruct (@price_is_a_cell_of_the_lane_row plain_runtime
              tiered_rate_table (RateCard.range_index 2) (lit " 2")
              (lit "dgr fee") flat (PInt 150) (PInt 30)
              (Some (lit "Price Flat <=200")) None E eq_refl)
    as [R [label [lane [read [c [i [header [key H]]]]]]]].
  split; [exact R|].
  exists label, lane, read, c, i, header, key.
  destruct H as [H1 [H2 [H3 [H4 [H5 [H6 [H7 [H8 [H9 [H10 H11]]]]]]]]]].
  repeat (split; [assumption|]). exact (H11 eq_refl).
Defined.

(** The label of a row is used as a position: in the same table with its
    two rows labelled 1 and 0, the price asked for lane 1 is read in the
    row of lane 2; with the labels 1 and 2, as after the first row of a
    sheet was dropped, asking for lane 2 ends in an [IndexError]. *)
Example relabelled_rows :
  @RateCard.find_cost_price_in_rate_data plain_runtime tiered_rate_table
     [1; 0]%Z (lit "1") (lit "DGR Fee") flat (PInt 150)
  = Returns (PInt 30, Some (lit "Price Flat <=200"), None)
  /\ @RateCard.find_cost_price_in_rate_data plain_runtime tiered_rate_table
       [1; 2]%Z (lit "2") (lit "DGR Fee") flat (PInt 150)
     = Raises "IndexError".
Proof. vm_compute. split; reflexivity. Qed.

Lemma missing_price_has_a_reason_witness :
  @RateCard.find_cost_price_in_rate_data plain_runtime tiered_rate_table
     (RateCard.range_index 2) (lit "2") (lit "DGR Fee") flat (PInt 300)
  = Returns (PNone, Some (lit "Price Flat >200 <=500"),
             Some (lit "Price value is empty for cost 'DGR Fee' in lane 2"))
  /\ Py.nonempty (lit "Price value is empty for cost 'DGR Fee' in lane 2")
     = true.
Proof.
  assert (E : @RateCard.find_cost_price_in_rate_data plain_runtime
                tiered_rate_table (RateCard.range_index 2) (lit "2")
                (lit "DGR Fee") flat (PInt 300)
              = Returns (PNone, Some (lit "Price Flat >200 <=500"),
                         Some (lit "Price value is empty for cost 'DGR Fee' in lane 2")))
    by (vm_compute; reflexivity).
  split; [exact E|].
  exact (@missing_price_has_a_reason plain_runtime tiered_rate_table
           (RateCard.range_index 2) (lit "2") (lit "DGR Fee") flat
           (PInt 300) PNone (Some (lit "Price Flat >200 <=500"))
           (Some (lit "Price value is empty for cost 'DGR Fee' in lane 2"))
           E eq_refl).
Defined.

Lemma lookup_reads_inside_the_table_witness :
  (exists r,
      @RateCard.find_cost_price_in_rate_data plain_runtime tiered_rate_table
         [-1; 0]%Z (lit "1") (lit "DGR Fee") price_max PNone = Returns r)
  \/ ((price_max = flat \/ price_max = per_unit)
      /\ (@RateCard.find_cost_price_in_rate_data plain_runtime
            tiered_rate_table [-1; 0]%Z (lit "1") (lit "DGR Fee")
            price_max PNone
          = Raises "ValueError"
          \/ @RateCard.find_cost_price_in_rate_data plain_runtime
               tiered_rate_table [-1; 0]%Z (lit "1") (lit "DGR Fee")
               price_max PNone
             = Raises "OverflowError")).
Proof.
  apply (@lookup_reads_inside_the_table plain_runtime tiered_rate_table
           [-1; 0]%Z (lit "1") (lit "DGR Fee") price_max PNone).
  split; [reflexivity|]. split.
  - repeat constructor.
  - repeat constructor; cbn; lia.
Defined.

Section WithoutWeight.
Context {rt : PyRuntime}.
Import RateCard RateCardFacts.

Lemma pick_tier_no_weight (cols : list str) (c : nat) (pt : price_type)
      (cw : pyval) :
  Py.is_none cw = true ->
  pick_tier cols c pt cw = Returns NoTier
  \/ exists e, pick_tier cols c pt cw = Raises e.
Proof.
  intros Hn. unfold pick_tier.
  destruct (TierColumns.find_weight_tiered_price_columns cols c pt)
    as [tiers|e]; [|right; exists e; reflexivity].
  rewrite Hn, andb_false_r. left. reflexivity.
Qed.

(** X22.  Without a charge weight no tier is selected by weight.  When
    [find_cost_price_in_rate_data] is called with no charge weight and
    returns a column name, then for the price type flat the column is the
    one right after the cost column, whether or not its header carries a
    weight range, and for the price type per_unit the header of the column
    has neither [<] nor [>] in it. *)
Theorem without_weight_no_tier_is_selected
        (df : DataFrame) (index : list Z) (lane_number cost_type : str)
        (pt : price_type) (charge_weight price : pyval) (name : str)
        (reason : option str) :
  Py.is_none charge_weight = true ->
  find_cost_price_in_rate_data df index lane_number cost_type pt
                               charge_weight
  = Returns (price, Some name, reason) ->
  (pt = flat ->
   exists c, find_cost_column (columns df) cost_type = Some c
             /\ nth_error (columns df) (c + 1) = Some name)
  /\ (pt = per_unit ->
      PyStr.isin (lit "<") (PyStr.lower name) = false
      /\ PyStr.isin (lit ">") (PyStr.lower name) = false).
Proof.
  intros Hn. unfold find_cost_price_in_rate_data. cbv zeta.
  destruct (columns df) as [|h0 t0] eqn:Ec; [discriminate|].
  destruct (existsb (PyStr.eqb h0) t0); [discriminate|].
  rewrite <- Ec.
  destruct (find (fun labelled => lane_row lane_number (snd labelled))
                 (combine index (rows df))) as [[label lane]|];
    [|discriminate].
  destruct (find_cost_column (columns df) cost_type) as [c|];
    [|discriminate].
  assert (Cell : forall i,
             match iloc_row (rows df) label with
             | None => Raises "IndexError"
             | Some row =>
                 match nth_error (columns df) i, nth_error row i with
                 | Some price_col_name, Some (_, price_value) =>
                     if Py.is_none price_value || Py.isna price_value
                        || PyStr.eqb (PyStr.strip (Py.to_str price_value))
                                     []
                     then Returns (PNone, Some price_col_name,
                                   Some (empty_price_reason cost_type
                                                            lane_number))
                     else Returns (price_value, Some price_col_name, None)
                 | _, _ => Raises "IndexError"
                 end
             end = Returns (price, Some name, reason) ->
             nth_error (columns df) i = Some name).
  { intros i. destruct (iloc_row (rows df) label) as [row|];
      [|discriminate].
    destruct (nth_error (columns df) i) as [h|]; [|discriminate].
    destruct (nth_error row i) as [[key v]|]; [|discriminate].
    destruct (_ || _ || _); intros H; inversion H; reflexivity. }
  intros H. destruct pt; (split; [intros Hpt | intros Hpt]);
    try discriminate Hpt; unfold price_column in H; cbv zeta in H.
  - (* flat *)
    destruct (pick_tier_no_weight (columns df) c flat charge_weight Hn)
      as [E | [e E]]; rewrite E in H; [|discriminate].
    destruct (length (columns df) <=? c + 1); [discriminate|].
    exists c. split; [reflexivity | exact (Cell _ H)].
  - (* per_unit *)
    destruct (pick_tier_no_weight (columns df) c per_unit charge_weight Hn)
      as [E | [e E]]; rewrite E in H; [|discriminate].
    destruct (find_in_window _ _ _ _) as [i|] eqn:Ew.
    + apply Cell in H.
      destruct (find_in_window_some _ _ _ _ Ew) as [_ [_ [col [C P]]]].
      rewrite C in H. inversion H. subst col.
      apply andb_true_iff in P. destruct P as [P Hgt].
      apply andb_true_iff in P. destruct P as [_ Hlt].
      apply negb_true_iff in Hgt, Hlt. split; assumption.
    + rewrite Hn in H. discriminate.
Qed.

End WithoutWeight.

Lemma without_weight_no_tier_is_selected_witness :
  Py.is_none PNone = true
  /\ @RateCard.find_cost_price_in_rate_data plain_runtime tiered_rate_table
       (RateCard.range_index 2) (lit "1") (lit "DGR Fee") flat PNone
     = Returns (PInt 10, Some (lit "Price Flat <=200"), None)
  /\ exists c,
       RateCard.find_cost_column (columns tiered_rate_table) (lit "DGR Fee")
       = Some c
       /\ nth_error (columns tiered_rate_table) (c + 1)
          = Some (lit "Price Flat <=200").
Proof.
  assert (E : @RateCard.find_cost_price_in_rate_data plain_runtime
                tiered_rate_table (RateCard.range_index 2) (lit "1")
                (lit "DGR Fee") flat PNone
              = Returns (PInt 10, Some (lit "Price Flat <=200"), None))
    by (vm_compute; reflexivity).
  split; [reflexivity|]. split; [exact E|].
  exact (proj1 (@without_weight_no_tier_is_selected plain_runtime
                  tiered_rate_table (RateCard.range_index 2) (lit "1")
                  (lit "DGR Fee") flat PNone (PInt 10)
                  (lit "Price Flat <=200") None eq_refl E)
               eq_refl).
Defined.
